(** * FechasHabilesAPI: business-time arithmetic and the holiday provider

    A shallow embedding of [src/businessTime.ts], [src/holidays.ts],
    [src/fallbackHolidays.ts], [validation.ts], [types.ts] and the health
    endpoint of [index.ts], together with the part of the JavaScript
    platform ([Date], date-fns, date-fns-tz) these files call.

    Conventions of the embedding.
    - A [Date] is its time value: milliseconds since 1970-01-01T00:00:00Z,
      an integer.  The invalid date is not represented: a statement about
      loops that run for a number of days or hours given by the caller
      bounds the dates they pass by [maxTimeValue] (8.64e15 ms either side
      of the epoch), so that all of them are valid dates.
    - The process runs in a zone with a constant offset [tz] (local minus
      UTC, in milliseconds).  Every date-fns accessor reads the local fields
      of a date, [toISOString] reads the UTC fields; both are kept apart.
    - Unbounded loops carry a fuel argument and return [None] when it runs
      out; the theorems give a fuel that suffices.
    - [Math.random], the HTTP client and the clock are oracles passed as
      arguments.  A delay is a double, embedded as the rational it denotes;
      every product and sum of delays is rounded to the nearest double.
    - 'America/Bogota' is at UTC-5, as the tz database has it since the
      daylight saving of 1992-93; the statements about conversions from and
      to that zone are about instants from 1994 on.
    - [Number], [parseInt] and [new Date] on the strings of a query are
      functions of the platform passed as arguments; the regular expression
      of the date format is matched on the characters of the string.
    - The requests and sleeps of a call are recorded in a trace; console
      output is left out.  Calls of the provider are taken one after the
      other: no second call starts while one awaits its fetch. *)

From Stdlib Require Import ZArith NArith QArith Qround Qpower Qminmax Lqa Lia Bool.
From Stdlib Require Import Morphisms List String Ascii.
From Stdlib Require Floats.
From Stdlib Require Import Decimal DecimalString DecimalN.
Import ListNotations.

Local Open Scope Z_scope.

(** ** The platform: ECMAScript time values *)

Module Js.

Definition Date := Z.

Definition msPerSecond : Z := 1000.
Definition msPerMinute : Z := 60000.
Definition msPerHour : Z := 3600000.
Definition msPerDay : Z := 86400000.

(** The largest time value a [Date] holds: 100,000,000 days either side of
    the epoch.  A date beyond it is invalid. *)
Definition maxTimeValue : Z := 8640000000000000.

Definition Day (t : Z) : Z := t / msPerDay.
Definition TimeWithinDay (t : Z) : Z := t mod msPerDay.
Definition WeekDay (t : Z) : Z := (Day t + 4) mod 7.
Definition HourFromTime (t : Z) : Z := (t / msPerHour) mod 24.
Definition MinFromTime (t : Z) : Z := (t / msPerMinute) mod 60.
Definition SecFromTime (t : Z) : Z := (t / msPerSecond) mod 60.
Definition msFromTime (t : Z) : Z := t mod msPerSecond.

Definition MakeTime (h m s ms : Z) : Z :=
  h * msPerHour + m * msPerMinute + s * msPerSecond + ms.
Definition MakeDate (day time : Z) : Z := day * msPerDay + time.

(** Proleptic Gregorian calendar: day number (days since 1970-01-01) to
    (year, month 1..12, day of month), by 400-year eras starting on 1 March. *)
Definition civilFromDays (z : Z) : Z * Z * Z :=
  let z := z + 719468 in
  let era := z / 146097 in
  let doe := z mod 146097 in
  let yoe := (doe - doe / 1460 + doe / 36524 - doe / 146096) / 365 in
  let doy := doe - (365 * yoe + yoe / 4 - yoe / 100) in
  let mp := (5 * doy + 2) / 153 in
  let d := doy - (153 * mp + 2) / 5 + 1 in
  let m := if mp <? 10 then mp + 3 else mp - 9 in
  (yoe + era * 400 + (if m <=? 2 then 1 else 0), m, d).

Definition daysFromCivil (y m d : Z) : Z :=
  let y := if m <=? 2 then y - 1 else y in
  let era := y / 400 in
  let yoe := y mod 400 in
  let mp := if 2 <? m then m - 3 else m + 9 in
  let doy := (153 * mp + 2) / 5 + d - 1 in
  let doe := yoe * 365 + yoe / 4 - yoe / 100 + doy in
  era * 146097 + doe - 719468.

Definition YearFromTime (t : Z) : Z :=
  let '(y, _, _) := civilFromDays (Day t) in y.

(** Decimal numeral of [n], left-padded with zeros to at least [w] digits. *)
Definition digitsAtLeast (w : nat) (n : N) : string :=
  let d := N.to_uint n in
  NilEmpty.string_of_uint (Nat.iter (w - Decimal.nb_digits d) D0 d).

(** The year of an ISO 8601 date as [toISOString] prints it: four digits
    for 0..9999, otherwise a sign and six digits. *)
Definition isoYear (y : Z) : string :=
  if (0 <=? y) && (y <=? 9999) then digitsAtLeast 4 (Z.to_N y)
  else if y <? 0 then String "-" (digitsAtLeast 6 (Z.to_N (- y)))
  else String "+" (digitsAtLeast 6 (Z.to_N y)).

(** [date.toISOString().split('T')[0]]: the UTC calendar date of a time
    value, printed as YYYY-MM-DD. *)
Definition toISOStringDate (t : Date) : string :=
  let '(y, m, d) := civilFromDays (Day t) in
  (isoYear y ++ "-" ++ digitsAtLeast 2 (Z.to_N m) ++ "-"
     ++ digitsAtLeast 2 (Z.to_N d))%string.

(** [date.toISOString()]: the UTC fields as YYYY-MM-DDTHH:mm:ss.sssZ. *)
Definition toISOString (t : Date) : string :=
  (toISOStringDate t ++ "T" ++ digitsAtLeast 2 (Z.to_N (HourFromTime t)) ++ ":"
     ++ digitsAtLeast 2 (Z.to_N (MinFromTime t)) ++ ":"
     ++ digitsAtLeast 2 (Z.to_N (SecFromTime t)) ++ "."
     ++ digitsAtLeast 3 (Z.to_N (msFromTime t)) ++ "Z")%string.

Definition digitValue (c : ascii) : option Z :=
  let n := Z.of_nat (nat_of_ascii c) in
  if (48 <=? n) && (n <=? 57) then Some (n - 48) else None.

Fixpoint digitsValue (acc : Z) (cs : list ascii) : option Z :=
  match cs with
  | [] => Some acc
  | c :: cs' =>
      match digitValue c with
      | Some v => digitsValue (10 * acc + v) cs'
      | None => None
      end
  end.

(** [new Date(s)] for a date-only string YYYY-MM-DD: midnight UTC of that
    day; [None] stands for the invalid date.  Only the date-only form with a
    four-digit year is covered (the form of every entry of the fallback
    table). *)
Definition parseDateOnly (s : string) : option Date :=
  match list_ascii_of_string s with
  | [y1; y2; y3; y4; "-"%char; m1; m2; "-"%char; d1; d2] =>
      match digitsValue 0 [y1; y2; y3; y4], digitsValue 0 [m1; m2],
            digitsValue 0 [d1; d2] with
      | Some y, Some m, Some d =>
          if (1 <=? m) && (m <=? 12) && (1 <=? d) && (d <=? 31)
          then Some (daysFromCivil y m d * msPerDay)
          else None
      | _, _, _ => None
      end
  | _ => None
  end.

Section LocalZone.

(** Offset of the process's local zone: local time minus UTC, in ms. *)
Variable tz : Z.

Definition LocalTime (t : Date) : Z := t + tz.
Definition UTC (l : Z) : Date := l - tz.

Definition getFullYear (d : Date) : Z := YearFromTime (LocalTime d).

(** [Date.prototype.setMinutes(min)] and [setHours(hour)]: the named local
    field is replaced, the other local fields are kept. *)
Definition setMinutesField (d : Date) (m : Z) : Date :=
  let l := LocalTime d in
  UTC (MakeDate (Day l) (MakeTime (HourFromTime l) m (SecFromTime l) (msFromTime l))).

Definition setHoursField (d : Date) (h : Z) : Date :=
  let l := LocalTime d in
  UTC (MakeDate (Day l) (MakeTime h (MinFromTime l) (SecFromTime l) (msFromTime l))).

End LocalZone.

End Js.

(** ** The platform: ECMAScript numbers *)

Module JsDouble.

(** A number of the source is an IEEE 754 double.  A finite double that is
    not negative is embedded as the rational it denotes, and an arithmetic
    operation of the source is the exact result rounded by [toDouble]. *)

(** The binade of a positive rational: the [e] with 2^e <= x < 2^(e+1). *)
Definition binade (x : Q) : Z :=
  let e := Z.log2 (Qnum x) - Z.log2 (Zpos (Qden x)) in
  if Qle_bool (2 ^ e) x then e else e - 1.

(** Rounding to the nearest integer, ties to even. *)
Definition roundHalfEven (q : Q) : Z :=
  let f := Qfloor q in
  match (q - inject_Z f ?= 1 # 2)%Q with
  | Lt => f
  | Gt => f + 1
  | Eq => if Z.even f then f else f + 1
  end.

(** The double nearest to a real that is not negative: round to nearest,
    ties to even, with 53 bits of significand and subnormals below 2^-1022.
    Overflow to Infinity (from 2^1024 on) is not represented. *)
Definition toDouble (x : Q) : Q :=
  if Qle_bool x 0 then 0%Q
  else
    let p := Z.max (binade x) (-1022) - 52 in
    (inject_Z (roundHalfEven (x / 2 ^ p)) * 2 ^ p)%Q.

End JsDouble.

(** ** date-fns and date-fns-tz *)

Module DateFns.
Import Js.

Section LocalZone.

Variable tz : Z.

Definition getDay (d : Date) : Z := WeekDay (LocalTime tz d).
Definition getHours (d : Date) : Z := HourFromTime (LocalTime tz d).
Definition getMinutes (d : Date) : Z := MinFromTime (LocalTime tz d).
Definition getSeconds (d : Date) : Z := SecFromTime (LocalTime tz d).
Definition getMilliseconds (d : Date) : Z := msFromTime (LocalTime tz d).

Definition setHours (d : Date) (h : Z) : Date := setHoursField tz d h.
Definition setMinutes (d : Date) (m : Z) : Date := setMinutesField tz d m.

(** [addDays] moves the local calendar date and keeps the local time of
    day; under a constant offset that is a shift by whole days. *)
Definition addDays (d : Date) (n : Z) : Date :=
  let l := LocalTime tz d in
  UTC tz (MakeDate (Day l + n) (TimeWithinDay l)).
Definition subDays (d : Date) (n : Z) : Date := addDays d (- n).

End LocalZone.

Definition addMinutes (d : Date) (n : Z) : Date := d + n * msPerMinute.

End DateFns.

Module DateFnsTz.
Import Js.

(** UTC offset of 'America/Bogota': UTC-5.  The tz database, which
    date-fns-tz reads, records one spell of daylight saving for the zone
    (UTC-4, from May 1992 into 1993) and local mean time up to 1914; at
    every instant since that spell the zone is at UTC-5.  The conversions
    below are the ones of instants and wall clocks from
    [bogotaStandardSince] on. *)
Definition bogotaOffset : Z := -5 * msPerHour.

(** 1994-01-01T00:00:00Z. *)
Definition bogotaStandardSince : Date := MakeDate (daysFromCivil 1994 1 1) 0.

Section LocalZone.

Variable tz : Z.

(** [utcToZonedTime(date, 'America/Bogota')]: a date whose local fields
    read as the wall clock of Bogota at instant [date]. *)
Definition utcToZonedTime (d : Date) : Date := UTC tz (d + bogotaOffset).

(** [zonedTimeToUtc(date, 'America/Bogota')]: the instant at which the
    wall clock of Bogota shows the local fields of [date]. *)
Definition zonedTimeToUtc (d : Date) : Date := LocalTime tz d - bogotaOffset.

End LocalZone.

End DateFnsTz.

(** ** src/fallbackHolidays.ts *)

Module FallbackHolidays.
Import Js.

Definition ColombianHolidays := list string.

Definition FALLBACK_COLOMBIAN_HOLIDAYS : ColombianHolidays :=
  [ "2024-01-01"; "2024-01-08"; "2024-03-25"; "2024-03-28"; "2024-03-29";
    "2024-05-01"; "2024-05-13"; "2024-06-03"; "2024-06-10"; "2024-07-01";
    "2024-07-20"; "2024-08-07"; "2024-08-19"; "2024-10-14"; "2024-11-04";
    "2024-11-11"; "2024-12-08"; "2024-12-25";
    "2025-01-01"; "2025-01-06"; "2025-03-24"; "2025-04-17"; "2025-04-18";
    "2025-05-01"; "2025-06-02"; "2025-06-23"; "2025-06-30"; "2025-06-30";
    "2025-07-20"; "2025-08-07"; "2025-08-18"; "2025-10-13"; "2025-11-03";
    "2025-11-17"; "2025-12-08"; "2025-12-25" ]%string.

(** [!x] for an optional number: true for [undefined] and for 0. *)
Definition falsy (x : option Z) : bool :=
  match x with
  | None => true
  | Some v => v =? 0
  end.

(** [a >= b] and [a <= b] on numbers where [None] on the left is NaN. *)
Definition geNum (a : option Z) (b : Z) : bool :=
  match a with Some v => b <=? v | None => false end.
Definition leNum (a : option Z) (b : Z) : bool :=
  match a with Some v => v <=? b | None => false end.

Section LocalZone.

Variable tz : Z.

(** [new Date(holiday).getFullYear()]: the entry is read as midnight UTC
    and its year is taken in the local zone. *)
Definition holidayYear (holiday : string) : option Z :=
  option_map (getFullYear tz) (parseDateOnly holiday).

Definition getFallbackHolidays (startYear endYear : option Z)
  : ColombianHolidays :=
  if falsy startYear && falsy endYear then FALLBACK_COLOMBIAN_HOLIDAYS
  else
    filter
      (fun holiday =>
         let year := holidayYear holiday in
         let afterStart :=
           falsy startYear
           || match startYear with Some s => geNum year s | None => false end in
         let beforeEnd :=
           falsy endYear
           || match endYear with Some e => leNum year e | None => false end in
         afterStart && beforeEnd)
      FALLBACK_COLOMBIAN_HOLIDAYS.

End LocalZone.

End FallbackHolidays.

(** ** src/holidays.ts *)

Module HolidaysService.
Import Js JsDouble FallbackHolidays.

Inductive CircuitPhase := CLOSED | OPEN | HALF_OPEN.

Record CircuitBreakerState := {
  failures : Z;
  lastFailureTime : Z;
  state : CircuitPhase
}.

Inductive HolidayServiceStatus := HEALTHY | DEGRADED | FAILED.
Inductive HolidaySource := CACHE | API | FALLBACK.

Record HolidayServiceResult := {
  holidays : ColombianHolidays;
  status : HolidayServiceStatus;
  source : HolidaySource;
  lastUpdated : option Z
}.

(** The static fields of the class. *)
Record ServiceState := {
  cache : option ColombianHolidays;
  lastFetch : Z;
  circuitBreaker : CircuitBreakerState
}.

Definition initialState : ServiceState :=
  {| cache := None;
     lastFetch := 0;
     circuitBreaker := {| failures := 0; lastFailureTime := 0; state := CLOSED |} |}.

Definition CACHE_DURATION : Z := 24 * 60 * 60 * 1000.
Definition MAX_FAILURES : Z := 3.
Definition CIRCUIT_TIMEOUT : Z := 5 * 60 * 1000.
Definition MAX_RETRIES : nat := 3.
Definition BASE_DELAY : Z := 1000.

(** Thrown values: an [Error] object or anything else. *)
Record JsError := { message : string }.
Inductive Thrown := ThrownError (e : JsError) | ThrownOther.

Inductive Outcome (A : Type) :=
| Returns (a : A)
| Throws (t : Thrown).
Arguments Returns {A} a.
Arguments Throws {A} t.

(** What one [axios.get] does: it resolves with a payload, which is an
    array or not, or it rejects. *)
Inductive Payload := PArray (data : ColombianHolidays) | PNotArray.
Inductive AxiosOutcome := Resolved (data : Payload) | Rejected (reason : Thrown).

(** Observable effects of a call, in order. *)
Inductive Event :=
| EvSleep (ms : Q)
| EvGet (url : string).

(** [error instanceof Error ? error : new Error('Unknown error')] *)
Definition asError (t : Thrown) : JsError :=
  match t with
  | ThrownError e => e
  | ThrownOther => {| message := "Unknown error" |}
  end.

(** [random] is the value [Math.random()] returns, a double in [0, 1).  The
    arithmetic is that of doubles, in the order of the source:
    [BASE_DELAY * Math.pow(2, attempt - 1)], where the power of two is exact
    (it is 1/2 for attempt 0); [(Math.random() * 0.1) * exponentialDelay],
    where [0.1] is the double nearest to a tenth; their sum; and [Math.min].
    Each product and the sum are rounded to the nearest double. *)
Definition calculateBackoffDelay (attempt : nat) (random : Q) : Q :=
  let exponentialDelay :=
    toDouble (inject_Z BASE_DELAY * 2 ^ (Z.of_nat attempt - 1)) in
  let jitter :=
    toDouble (toDouble (random * toDouble (1 # 10)) * exponentialDelay) in
  Qmin (toDouble (exponentialDelay + jitter)) (inject_Z 10000).

Section Fetch.

Variable url : string.
(** [net k]: what the request of attempt [k] does;
    [random k]: the value of [Math.random()] drawn before attempt [k]. *)
Variable net : nat -> AxiosOutcome.
Variable random : nat -> Q.

(** The body of the [for] loop of [fetchWithRetry], with [remaining]
    iterations left to run from [attempt]. *)
Fixpoint fetchAttempts (remaining attempt : nat) (lastError : option JsError)
    (trace : list Event) : Outcome ColombianHolidays * list Event :=
  match remaining with
  | O =>
      (Throws (match lastError with
               | Some e => ThrownError e
               | None => ThrownOther
               end), trace)
  | S remaining' =>
      let trace :=
        if (0 <? attempt)%nat
        then trace ++ [EvSleep (calculateBackoffDelay attempt (random attempt))]
        else trace in
      let trace := trace ++ [EvGet url] in
      match net attempt with
      | Resolved (PArray data) => (Returns data, trace)
      | Resolved PNotArray =>
          fetchAttempts remaining' (S attempt)
            (Some (asError (ThrownError
               {| message := "Invalid response format from holidays service" |})))
            trace
      | Rejected reason =>
          fetchAttempts remaining' (S attempt) (Some (asError reason)) trace
      end
  end.

Definition fetchWithRetry : Outcome ColombianHolidays * list Event :=
  fetchAttempts (MAX_RETRIES + 1) 0 None [].

End Fetch.

Definition isCircuitOpen (st : ServiceState) (now : Z) : bool * ServiceState :=
  let cb := circuitBreaker st in
  match state cb with
  | OPEN =>
      if CIRCUIT_TIMEOUT <? now - lastFailureTime cb
      then (false,
            {| cache := cache st; lastFetch := lastFetch st;
               circuitBreaker :=
                 {| failures := failures cb;
                    lastFailureTime := lastFailureTime cb;
                    state := HALF_OPEN |} |})
      else (true, st)
  | _ => (false, st)
  end.

Definition recordFailure (st : ServiceState) (now : Z) : ServiceState :=
  let cb := circuitBreaker st in
  let failures' := failures cb + 1 in
  {| cache := cache st; lastFetch := lastFetch st;
     circuitBreaker :=
       {| failures := failures';
          lastFailureTime := now;
          state := if MAX_FAILURES <=? failures' then OPEN else state cb |} |}.

Definition resetCircuitBreaker (st : ServiceState) : ServiceState :=
  {| cache := cache st; lastFetch := lastFetch st;
     circuitBreaker :=
       {| failures := 0;
          lastFailureTime := lastFailureTime (circuitBreaker st);
          state := CLOSED |} |}.

Section LocalZone.

Variable tz : Z.

(** [currentYear] is [new Date().getFullYear()] at the time of the call. *)
Definition getFallbackResult (currentYear : Z) : HolidayServiceResult :=
  {| holidays := getFallbackHolidays tz (Some currentYear) (Some (currentYear + 1));
     status := FAILED;
     source := FALLBACK;
     lastUpdated := None |}.

(** [now] is [Date.now()] at entry.  The result is the settled promise,
    the static fields afterwards and the effects performed. *)
Definition getColombianHolidays (st : ServiceState) (now currentYear : Z)
    (holidaysUrl : string) (net : nat -> AxiosOutcome) (random : nat -> Q)
  : Outcome HolidayServiceResult * ServiceState * list Event :=
  let cacheIsValid :=
    match cache st with
    | Some _ => now - lastFetch st <? CACHE_DURATION
    | None => false
    end in
  match cache st, cacheIsValid with
  | Some cached, true =>
      (Returns {| holidays := cached; status := HEALTHY; source := CACHE;
                  lastUpdated := Some (lastFetch st) |}, st, [])
  | _, _ =>
      let '(isOpen, st) := isCircuitOpen st now in
      if isOpen then (Returns (getFallbackResult currentYear), st, [])
      else
        match fetchWithRetry holidaysUrl net random with
        | (Returns fetched, trace) =>
            let st := resetCircuitBreaker st in
            let st := {| cache := Some fetched; lastFetch := now;
                         circuitBreaker := circuitBreaker st |} in
            (Returns {| holidays := fetched; status := HEALTHY; source := API;
                        lastUpdated := Some now |}, st, trace)
        | (Throws _, trace) =>
            let st := recordFailure st now in
            match cache st with
            | Some cached =>
                (Returns {| holidays := cached; status := DEGRADED;
                            source := CACHE;
                            lastUpdated := Some (lastFetch st) |}, st, trace)
            | None => (Returns (getFallbackResult currentYear), st, trace)
            end
        end
  end.

(** [date.toISOString().split('T')[0]] looked up in the list. *)
Definition isHoliday (date : Date) (holidays : ColombianHolidays) : bool :=
  existsb (String.eqb (toISOStringDate date)) holidays.

End LocalZone.

End HolidaysService.

(** [HolidaysService.getServiceStatus]; the fields of its result bear names
    of the service's own fields, hence a module of its own. *)

Module HolidaysServiceStatus.
Import HolidaysService.

(** The object [getServiceStatus] returns. *)
Record ServiceStatus := {
  status : HolidayServiceStatus;
  circuitState : CircuitPhase;
  failures : Z;
  lastFetch : option Z;
  cacheAge : option Z
}.

(** [now] is [Date.now()].  A number is falsy when it is 0: a [lastFetch] of
    0 is reported as null, and an age of 0 is never DEGRADED. *)
Definition getServiceStatus (st : ServiceState) (now : Z) : ServiceStatus :=
  let cacheAge :=
    if HolidaysService.lastFetch st =? 0 then None
    else Some (now - HolidaysService.lastFetch st) in
  let status :=
    match state (circuitBreaker st) with
    | OPEN => FAILED
    | _ =>
        match cacheAge with
        | Some age =>
            if negb (age =? 0) && (CACHE_DURATION <? age) then DEGRADED else HEALTHY
        | None => HEALTHY
        end
    end in
  {| status := status;
     circuitState := state (circuitBreaker st);
     failures := HolidaysService.failures (circuitBreaker st);
     lastFetch :=
       if HolidaysService.lastFetch st =? 0 then None
       else Some (HolidaysService.lastFetch st);
     cacheAge := cacheAge |}.

End HolidaysServiceStatus.

(** ** src/businessTime.ts *)

Module BusinessTimeCalculator.
Import Js DateFns DateFnsTz FallbackHolidays.

Record WorkingHours := {
  start : Z;
  end_ : Z;
  lunchStart : Z;
  lunchEnd : Z
}.

Definition WORKING_HOURS : WorkingHours :=
  {| start := 8; end_ := 17; lunchStart := 12; lunchEnd := 13 |}.

Record TimeAdjustment := {
  date : Date;
  wasAdjusted : bool;
  reason : string
}.

Section LocalZone.

Variable tz : Z.

Definition utcToColombiaTime (utcDate : Date) : Date := utcToZonedTime tz utcDate.
Definition colombiaTimeToUtc (colombiaDate : Date) : Date :=
  zonedTimeToUtc tz colombiaDate.

Definition isBusinessDay (date : Date) (holidays : ColombianHolidays) : bool :=
  let dayOfWeek := getDay tz date in
  if (dayOfWeek =? 0) || (dayOfWeek =? 6) then false
  else negb (HolidaysService.isHoliday date holidays).

Definition isWithinWorkingHours (date : Date) : bool :=
  let hours := getHours tz date in
  let minutes := getMinutes tz date in
  let totalMinutes := hours * 60 + minutes in
  let startMinutes := start WORKING_HOURS * 60 in
  let lunchStartMinutes := lunchStart WORKING_HOURS * 60 in
  let lunchEndMinutes := lunchEnd WORKING_HOURS * 60 in
  let endMinutes := end_ WORKING_HOURS * 60 in
  ((startMinutes <=? totalMinutes) && (totalMinutes <? lunchStartMinutes))
  || ((lunchEndMinutes <=? totalMinutes) && (totalMinutes <? endMinutes)).

(** [while (!isBusinessDay(d, holidays)) d = step(d)] *)
Fixpoint whileNotBusinessDay (fuel : nat) (step : Date -> Date)
    (holidays : ColombianHolidays) (d : Date) : option Date :=
  if isBusinessDay d holidays then Some d
  else
    match fuel with
    | O => None
    | S fuel' => whileNotBusinessDay fuel' step holidays (step d)
    end.

(** The first loop of [adjustToPrevBusinessTime], on the variables
    (adjustedDate, wasAdjusted, movedToPrevBusinessDay, reason). *)
Fixpoint moveToPrevBusinessDay (fuel : nat) (holidays : ColombianHolidays)
    (vars : Date * bool * bool * string) : option (Date * bool * bool * string) :=
  let '(adjustedDate, _, _, _) := vars in
  if isBusinessDay adjustedDate holidays then Some vars
  else
    match fuel with
    | O => None
    | S fuel' =>
        moveToPrevBusinessDay fuel' holidays
          (subDays tz adjustedDate 1, true, true,
           "Moved to next business day (weekend/holiday)"%string)
    end.

Definition adjustToPrevBusinessTime (fuel : nat) (date : Date)
    (holidays : ColombianHolidays) : option TimeAdjustment :=
  match moveToPrevBusinessDay fuel holidays (date, false, false, ""%string) with
  | None => None
  | Some (adjustedDate, wasAdjusted, movedToPrevBusinessDay, reason) =>
      if movedToPrevBusinessDay then
        let adjustedDate :=
          setHours tz (setMinutes tz adjustedDate 0) (end_ WORKING_HOURS) in
        Some {| date := adjustedDate; wasAdjusted := wasAdjusted; reason := reason |}
      else
        let hours := getHours tz adjustedDate in
        let minutes := getMinutes tz adjustedDate in
        let totalMinutes := hours * 60 + minutes in
        if totalMinutes <? start WORKING_HOURS * 60 then
          let adjustedDate := subDays tz adjustedDate 1 in
          let adjustedDate :=
            setHours tz (setMinutes tz adjustedDate 0) (end_ WORKING_HOURS) in
          match whileNotBusinessDay fuel (fun d => subDays tz d 1) holidays
                  adjustedDate with
          | None => None
          | Some adjustedDate =>
              Some {| date := adjustedDate; wasAdjusted := true;
                      reason := "Adjusted to previoius business day end (5:00 PM)" |}
          end
        else if (lunchStart WORKING_HOURS * 60 <=? totalMinutes)
                && (totalMinutes <? lunchEnd WORKING_HOURS * 60) then
          let adjustedDate :=
            setHours tz (setMinutes tz adjustedDate 0) (lunchStart WORKING_HOURS) in
          Some {| date := adjustedDate; wasAdjusted := true;
                  reason := "Adjusted to start of lunch break (12:00 PM)" |}
        else if end_ WORKING_HOURS * 60 <=? totalMinutes then
          let adjustedDate :=
            setHours tz (setMinutes tz adjustedDate 0) (end_ WORKING_HOURS) in
          Some {| date := adjustedDate; wasAdjusted := true;
                  reason := "Adjusted to end of business day (after hours)" |}
        else
          Some {| date := adjustedDate; wasAdjusted := wasAdjusted; reason := reason |}
  end.

(** The loop of [addBusinessDays] on (currentDate, remainingDays). *)
Fixpoint addBusinessDaysLoop (fuel : nat) (holidays : ColombianHolidays)
    (currentDate : Date) (remainingDays : Z) : option Date :=
  if 0 <? remainingDays then
    match fuel with
    | O => None
    | S fuel' =>
        let currentDate := addDays tz currentDate 1 in
        let remainingDays :=
          if isBusinessDay currentDate holidays then remainingDays - 1
          else remainingDays in
        addBusinessDaysLoop fuel' holidays currentDate remainingDays
    end
  else Some currentDate.

Definition addBusinessDays (fuel : nat) (startDate : Date) (businessDays : Z)
    (holidays : ColombianHolidays) : option Date :=
  if businessDays =? 0 then Some startDate
  else addBusinessDaysLoop fuel holidays startDate businessDays.

(** The loop of [addBusinessHours] on (currentDate, remainingMinutes). *)
Fixpoint addBusinessHoursLoop (fuel : nat) (holidays : ColombianHolidays)
    (currentDate : Date) (remainingMinutes : Z) : option Date :=
  if 0 <? remainingMinutes then
    match fuel with
    | O => None
    | S fuel' =>
        match adjustToPrevBusinessTime fuel currentDate holidays with
        | None => None
        | Some adjustment =>
            let currentDate := date adjustment in
            let currentHour := getHours tz currentDate in
            let currentMinute := getMinutes tz currentDate in
            let currentTotalMinutes := currentHour * 60 + currentMinute in
            let availableMinutesUntilLunch :=
              if currentTotalMinutes <? lunchStart WORKING_HOURS * 60
              then lunchStart WORKING_HOURS * 60 - currentTotalMinutes
              else 0 in
            let availableMinutesAfterLunch :=
              if currentTotalMinutes <? end_ WORKING_HOURS * 60
              then
                let startAfterLunch :=
                  Z.max currentTotalMinutes (lunchEnd WORKING_HOURS * 60) in
                end_ WORKING_HOURS * 60 - startAfterLunch
              else 0 in
            let totalAvailableToday :=
              availableMinutesUntilLunch + availableMinutesAfterLunch in
            if remainingMinutes <=? totalAvailableToday then
              let currentDate :=
                if remainingMinutes <=? availableMinutesUntilLunch then
                  addMinutes currentDate remainingMinutes
                else
                  let minutesToLunch := availableMinutesUntilLunch in
                  let minutesAfterLunch := remainingMinutes - minutesToLunch in
                  let currentDate := addMinutes currentDate minutesToLunch in
                  let currentDate :=
                    setHours tz (setMinutes tz currentDate 0)
                      (lunchEnd WORKING_HOURS) in
                  addMinutes currentDate minutesAfterLunch in
              addBusinessHoursLoop fuel' holidays currentDate 0
            else
              let remainingMinutes := remainingMinutes - totalAvailableToday in
              let currentDate := addDays tz currentDate 1 in
              let currentDate :=
                setHours tz (setMinutes tz currentDate 0) (start WORKING_HOURS) in
              match whileNotBusinessDay fuel (fun d => addDays tz d 1) holidays
                      currentDate with
              | None => None
              | Some currentDate =>
                  addBusinessHoursLoop fuel' holidays currentDate remainingMinutes
              end
        end
    end
  else Some currentDate.

Definition addBusinessHours (fuel : nat) (startDate : Date) (businessHours : Z)
    (holidays : ColombianHolidays) : option Date :=
  if businessHours =? 0 then Some startDate
  else addBusinessHoursLoop fuel holidays startDate (businessHours * 60).

(** [x && x > 0] for an optional number. *)
Definition positive (x : option Z) : option Z :=
  match x with
  | Some v => if negb (v =? 0) && (0 <? v) then Some v else None
  | None => None
  end.

(** [now] is the instant [new Date()] yields when no start is given. *)
Definition calculateBusinessTime (fuel : nat) (now : Date)
    (startDate : option Date) (businessDays businessHours : option Z)
    (holidays : ColombianHolidays) : option Date :=
  let currentDate :=
    match startDate with
    | Some startDate => utcToColombiaTime startDate
    | None => utcToColombiaTime now
    end in
  match adjustToPrevBusinessTime fuel currentDate holidays with
  | None => None
  | Some adjustment =>
      let currentDate := date adjustment in
      match
        match positive businessDays with
        | Some n => addBusinessDays fuel currentDate n holidays
        | None => Some currentDate
        end
      with
      | None => None
      | Some currentDate =>
          match
            match positive businessHours with
            | Some n => addBusinessHours fuel currentDate n holidays
            | None => Some currentDate
            end
          with
          | None => None
          | Some currentDate => Some (colombiaTimeToUtc currentDate)
          end
      end
  end.

End LocalZone.

Definition formatToISO (date : Date) : string := toISOString date.

End BusinessTimeCalculator.

(** ** types.ts *)

Module Types.

Inductive ErrorCodes :=
| INVALID_PARAMETERS
| INVALID_DATE_FORMAT
| NEGATIVE_VALUES
| HOLIDAYS_SERVICE_ERROR
| INTERNAL_ERROR.

(** The string each member of the enum stands for. *)
Definition errorCode (c : ErrorCodes) : string :=
  match c with
  | INVALID_PARAMETERS => "InvalidParameters"
  | INVALID_DATE_FORMAT => "InvalidDateFormat"
  | NEGATIVE_VALUES => "NegativeValues"
  | HOLIDAYS_SERVICE_ERROR => "HolidaysServiceError"
  | INTERNAL_ERROR => "InternalError"
  end.

Record ErrorResponse := { error : string; message : string }.

(** The number [parseInt] returns: NaN or an integer (0 also stands for
    -0, which no test of the code tells from 0). *)
Inductive JsNumber := NaN | Num (z : Z).

Record ParsedRequest := {
  days : option JsNumber;
  hours : option JsNumber;
  startDate : option Js.Date
}.

(** [validationError] is the field [error] of the result. *)
Record ValidationResult := {
  isValid : bool;
  validationError : option ErrorResponse;
  parsedRequest : option ParsedRequest
}.

End Types.

(** ** validation.ts *)

Module ValidationService.
Import Js Types.

(** A value of the query object: a string, or anything else (an array or a
    nested object of the query parser). *)
Inductive QueryValue := QString (s : string) | QOther.

(** [\d] *)
Definition isDigit (c : ascii) : bool :=
  match digitValue c with Some _ => true | None => false end.

(** A regular expression without alternatives, as the list of its atoms:
    a digit or a literal character.  It is matched against the whole
    string. *)
Inductive Atom := Digit | Lit (c : ascii).

Fixpoint matchAtoms (atoms : list Atom) (s : list ascii) : bool :=
  match atoms, s with
  | [], [] => true
  | Digit :: atoms', c :: s' => isDigit c && matchAtoms atoms' s'
  | Lit a :: atoms', c :: s' => Ascii.eqb a c && matchAtoms atoms' s'
  | _, _ => false
  end.

(** [/^\d{4}-\d{2}-\d{2}T\d{2}:\d{2}:\d{2}(\.\d{3})?Z$/.test(date)]: the
    two expansions of the optional group. *)
Definition iso8601Regex (date : string) : bool :=
  let seconds :=
    [Digit; Digit; Digit; Digit; Lit "-"; Digit; Digit; Lit "-"; Digit; Digit;
     Lit "T"; Digit; Digit; Lit ":"; Digit; Digit; Lit ":"; Digit; Digit]%char in
  let s := list_ascii_of_string date in
  matchAtoms (seconds ++ [Lit "Z"%char]) s
  || matchAtoms (seconds ++ [Lit "."; Digit; Digit; Digit; Lit "Z"]%char) s.

Definition invalid (code : ErrorCodes) (text : string) : ValidationResult :=
  {| isValid := false;
     validationError := Some {| error := errorCode code; message := text |};
     parsedRequest := None |}.

(** A step of a function body that may return early. *)
Inductive Step (A : Type) :=
| Continue (a : A)
| Return (r : ValidationResult).
Arguments Continue {A} a.
Arguments Return {A} r.

Notation "'let?' x ':=' e 'in' k" :=
  (match e with Continue x => k | Return r => r end)
  (at level 10, x name, e at level 100, k at level 200).

(** [x < 0] on a number: false for NaN. *)
Definition ltZero (x : JsNumber) : bool :=
  match x with NaN => false | Num z => z <? 0 end.

Section Platform.

(** [isNaN(Number(s))], [parseInt(s, 10)] and [new Date(s)] on a string,
    where [None] stands for the invalid date. *)
Variable NumberIsNaN : string -> bool.
Variable parseInt10 : string -> JsNumber.
Variable newDate : string -> option Date.

Definition validateRequest (days hours date : option QueryValue) : ValidationResult :=
  match days, hours with
  | None, None =>
      invalid INVALID_PARAMETERS "At least one parameter (days or hours) must be provided"
  | _, _ =>
      let? parsedDays :=
        match days with
        | None => Continue None
        | Some (QString s) =>
            if NumberIsNaN s
            then Return (invalid INVALID_PARAMETERS "Days parameter must be a valid number")
            else
              let parsed := parseInt10 s in
              if ltZero parsed
              then Return (invalid NEGATIVE_VALUES "Days parameter must be a positive integer")
              else Continue (Some parsed)
        | Some QOther =>
            Return (invalid INVALID_PARAMETERS "Days parameter must be a valid number")
        end in
      let? parsedHours :=
        match hours with
        | None => Continue None
        | Some (QString s) =>
            if NumberIsNaN s
            then Return (invalid INVALID_PARAMETERS "Hours parameter must be a valid number")
            else
              let parsed := parseInt10 s in
              if ltZero parsed
              then Return (invalid NEGATIVE_VALUES "Hours parameter must be a positive integer")
              else Continue (Some parsed)
        | Some QOther =>
            Return (invalid INVALID_PARAMETERS "Hours parameter must be a valid number")
        end in
      let? parsedDate :=
        match date with
        | None => Continue None
        | Some (QString s) =>
            if negb (iso8601Regex s)
            then Return (invalid INVALID_DATE_FORMAT
                   "Date must be in ISO 8601 format with Z suffix (e.g., 2025-08-01T14:00:00Z)")
            else
              match newDate s with
              | Some d => Continue (Some d)
              | None => Return (invalid INVALID_DATE_FORMAT "Invalid date")
              end
        | Some QOther =>
            Return (invalid INVALID_PARAMETERS "Date parameter must be a string")
        end in
      {| isValid := true;
         validationError := None;
         parsedRequest :=
           Some {| days := parsedDays; hours := parsedHours; startDate := parsedDate |} |}
  end.

End Platform.

Definition createInternalError (text : string) : ErrorResponse :=
  {| error := errorCode INTERNAL_ERROR; message := text |}.

End ValidationService.

(** ** index.ts *)

Module App.
Import Js HolidaysService ValidationService.

Record HolidayHealth := {
  status : HolidayServiceStatus;
  circuitBreaker : CircuitPhase;
  failures : Z;
  lastFetch : option string;
  cacheAgeMs : option Z
}.

Record Services := { holiday : HolidayHealth }.

(** The body of the answer; [overallStatus] is its field [status]. *)
Record HealthStatus := {
  overallStatus : string;
  timestamp : string;
  services : Services
}.

(** The handler of GET /health: the HTTP status and the body it sends.
    [now] is the [Date.now()] of [getServiceStatus], [stamp] the later
    [new Date()] of the timestamp. *)
Definition health (st : ServiceState) (now stamp : Z) : Z * HealthStatus :=
  let holidayServiceStatus := HolidaysServiceStatus.getServiceStatus st now in
  let holidayPart :=
    {| status := HolidaysServiceStatus.status holidayServiceStatus;
       circuitBreaker := HolidaysServiceStatus.circuitState holidayServiceStatus;
       failures := HolidaysServiceStatus.failures holidayServiceStatus;
       lastFetch :=
         match HolidaysServiceStatus.lastFetch holidayServiceStatus with
         | Some t => if t =? 0 then None else Some (toISOString t)
         | None => None
         end;
       cacheAgeMs := HolidaysServiceStatus.cacheAge holidayServiceStatus |} in
  let httpStatus :=
    match HolidaysServiceStatus.status holidayServiceStatus with
    | FAILED => 503
    | _ => 200
    end in
  (httpStatus,
   {| overallStatus := if httpStatus =? 503 then "DEGRADED" else "OK";
      timestamp := toISOString stamp;
      services := {| holiday := holidayPart |} |}).

(** The [testResult] of GET /holiday-status: the fields of a call that
    resolved, or the message of one that rejected. *)
Inductive TestResult :=
| TestSucceeded (source : HolidaySource) (status : HolidayServiceStatus)
    (holidayCount : nat)
| TestFailed (error : string).

Section LocalZone.
Variable tz : Z.

(** The handler of GET /holiday-status: the HTTP status, the body (the
    status report and the optional test result), the static fields
    afterwards and the effects.  [test] is [req.query.test]; [now] is the
    [Date.now()] of the report, [callNow] and [callYear] are the clock
    readings of the test call. *)
Definition holidayStatus (st : ServiceState) (test : option QueryValue)
    (now callNow callYear : Z) (holidaysUrl : string)
    (net : nat -> AxiosOutcome) (random : nat -> Q)
  : Z * (HolidaysServiceStatus.ServiceStatus * option TestResult)
    * ServiceState * list Event :=
  let serviceStatus := HolidaysServiceStatus.getServiceStatus st now in
  let requested :=
    match test with
    | Some (QString s) => String.eqb s "true"
    | _ => false
    end in
  if requested then
    let '(outcome, st', trace) :=
      getColombianHolidays tz st callNow callYear holidaysUrl net random in
    let testResult :=
      match outcome with
      | Returns r =>
          TestSucceeded (HolidaysService.source r) (HolidaysService.status r)
            (List.length (HolidaysService.holidays r))
      | Throws t =>
          TestFailed match t with
                     | ThrownError e => message e
                     | ThrownOther => "Unknown error"
                     end
      end in
    (200, (serviceStatus, Some testResult), st', trace)
  else (200, (serviceStatus, None), st, []).

End LocalZone.
End App.

(** ** Vocabulary of the statements *)

Module Support.
Import Js.

(** [P] holds of the [n] integers from [z] on. *)
Fixpoint allFrom (P : Z -> bool) (n : nat) (z : Z) : bool :=
  match n with
  | O => true
  | S n' => if P z then allFrom P n' (z + 1) else false
  end.

(** The intermediate values of [civilFromDays] on day [doe] of an era are in
    range: year of era, shifted month, day of month. *)
Definition eraDayOk (doe : Z) : bool :=
  let yoe := (doe - doe / 1460 + doe / 36524 - doe / 146096) / 365 in
  let doy := doe - (365 * yoe + yoe / 4 - yoe / 100) in
  let mp := (5 * doy + 2) / 153 in
  let d := doy - (153 * mp + 2) / 5 + 1 in
  (0 <=? yoe) && (yoe <=? 399) && (0 <=? mp) && (mp <=? 11)
  && (1 <=? d) && (d <=? 31).

(** Iterations within which a day-by-day search is sure to meet a business
    day: every seventh day is a Wednesday, and only [length holidays] of them
    can be listed. *)
Definition enoughFuel (holidays : FallbackHolidays.ColombianHolidays) : nat :=
  7 * List.length holidays + 6.

(** The instant y-m-d h:mi:s UTC, and the date whose local fields in a
    process of zone [tz] read y-m-d h:mi:s. *)
Definition instant (y m d h mi s : Z) : Date :=
  MakeDate (daysFromCivil y m d) (MakeTime h mi s 0).
Definition civil (tz : Z) (y m d h mi s : Z) : Date :=
  UTC tz (instant y m d h mi s).

(** The shape of the examples of src/__tests__/businessTime.test.ts: the
    test date goes through [colombiaTimeToUtc], then [calculateBusinessTime],
    and the result is read back through [utcToColombiaTime] as (day of week,
    days after the test date, hour, minute). *)
Definition testExample (tz : Z) (date : Date) (days hours : option Z)
    (holidays : FallbackHolidays.ColombianHolidays) : option (Z * Z * Z * Z) :=
  match BusinessTimeCalculator.calculateBusinessTime tz 30 0 (Some (BusinessTimeCalculator.colombiaTimeToUtc tz date)) days hours
          holidays with
  | Some result =>
      let resultColombia := BusinessTimeCalculator.utcToColombiaTime tz result in
      Some (DateFns.getDay tz resultColombia,
            Day (LocalTime tz resultColombia) - Day (LocalTime tz date),
            DateFns.getHours tz resultColombia, DateFns.getMinutes tz resultColombia)
  | None => None
  end.

(** Minutes since local midnight, as the source computes them. *)
Definition minutesOfDay (tz : Z) (d : Date) : Z :=
  DateFns.getHours tz d * 60 + DateFns.getMinutes tz d.

(** Number of business days among the [k] calendar days after [d]. *)
Definition businessDaysWithin (tz : Z) (holidays : FallbackHolidays.ColombianHolidays)
    (d : Date) (k : nat) : nat :=
  List.length
    (filter (fun j => BusinessTimeCalculator.isBusinessDay tz (DateFns.addDays tz d (Z.of_nat j)) holidays)
       (seq 1 k)).

(** The local calendar day of [d] is a Monday to Friday and is not listed:
    a business day as the calendar has it. *)
Definition isLocalBusinessDay (tz : Z) (holidays : FallbackHolidays.ColombianHolidays)
    (d : Date) : bool :=
  let weekDay := WeekDay (LocalTime tz d) in
  (1 <=? weekDay) && (weekDay <=? 5)
  && negb (existsb (String.eqb (toISOStringDate (LocalTime tz d))) holidays).

(** Number of such days among the [k] calendar days after [d]. *)
Definition localBusinessDaysWithin (tz : Z) (holidays : FallbackHolidays.ColombianHolidays)
    (d : Date) (k : nat) : nat :=
  List.length
    (filter (fun j => isLocalBusinessDay tz holidays (DateFns.addDays tz d (Z.of_nat j)))
       (seq 1 k)).

End Support.

(** The doubles of the kernel, to compare [JsDouble.toDouble] with. *)
Module DoubleSupport.
Import Floats.

(** The rational a finite double denotes. *)
Definition floatToQ (f : PrimFloat.float) : Q :=
  match FloatOps.Prim2SF f with
  | SpecFloat.S754_finite s m e => ((if s then -1 else 1) * inject_Z (Zpos m) * 2 ^ e)%Q
  | _ => 0%Q
  end.

(** The literal [0.1], and the largest value of a [Math.random] that draws
    52 bits: 1 - 2^-52. *)
Definition tenth : PrimFloat.float := 0x1.999999999999ap-4%float.
Definition maxRandom : PrimFloat.float := 0x1.ffffffffffffep-1%float.

(** The sum [calculateBackoffDelay] caps, on kernel doubles; [power] is
    [Math.pow(2, attempt - 1)]. *)
Definition uncappedDelay (power random : PrimFloat.float) : PrimFloat.float :=
  let exponentialDelay := (1000 * power)%float in
  let jitter := (random * tenth * exponentialDelay)%float in
  (exponentialDelay + jitter)%float.

End DoubleSupport.

Module ServiceSupport.
Import Js FallbackHolidays HolidaysService.

(** The test of the cache on entry: an entry exists and is younger than
    [CACHE_DURATION]. *)
Definition cacheIsValid (st : ServiceState) (now : Z) : bool :=
  match cache st with
  | Some _ => now - lastFetch st <? CACHE_DURATION
  | None => false
  end.

(** An attempt fails when the request rejects or resolves with a payload
    that is not an array. *)
Definition attemptFails (o : AxiosOutcome) : bool :=
  match o with
  | Resolved (PArray _) => false
  | Resolved PNotArray => true
  | Rejected _ => true
  end.

(** The error a failed attempt leaves in [lastError] (read on failed
    attempts only). *)
Definition attemptError (o : AxiosOutcome) : JsError :=
  match o with
  | Rejected reason => asError reason
  | Resolved _ => {| message := "Invalid response format from holidays service" |}
  end.

(** All attempts of a call fail. *)
Definition exhausted (net : nat -> AxiosOutcome) : Prop :=
  forall j, (j <= MAX_RETRIES)%nat -> attemptFails (net j) = true.

(** Number of requests in a trace. *)
Fixpoint gets (trace : list Event) : nat :=
  match trace with
  | [] => 0
  | EvGet _ :: rest => S (gets rest)
  | EvSleep _ :: rest => gets rest
  end.

(** The effects of attempts 0..k: a request, then for each retry its sleep
    and its request. *)
Definition retryTrace (url : string) (random : nat -> Q) (k : nat) : list Event :=
  EvGet url
  :: flat_map (fun i => [EvSleep (calculateBackoffDelay i (random i)); EvGet url])
       (seq 1 k).

(** The inputs of one call of [getColombianHolidays]. *)
Record Call := {
  callNow : Z;
  callYear : Z;
  callUrl : string;
  callNet : nat -> AxiosOutcome;
  callRandom : nat -> Q
}.

Definition call (tz : Z) (st : ServiceState) (c : Call) :=
  getColombianHolidays tz st (callNow c) (callYear c) (callUrl c) (callNet c) (callRandom c).

Definition stateAfter (tz : Z) (st : ServiceState) (c : Call) : ServiceState :=
  snd (fst (call tz st c)).

(** The static fields after a sequence of calls. *)
Definition run (tz : Z) (st : ServiceState) (calls : list Call) : ServiceState :=
  fold_left (stateAfter tz) calls st.

(** What holds of the static fields between calls: the phase is CLOSED
    below the threshold and OPEN from it on, and after a failure the cache
    was not valid at the time of that failure. *)
Definition Consistent (st : ServiceState) : Prop :=
  let cb := circuitBreaker st in
  ((state cb = CLOSED /\ 0 <= failures cb < MAX_FAILURES)
   \/ (state cb = OPEN /\ MAX_FAILURES <= failures cb))
  /\ (0 < failures cb -> cacheIsValid st (lastFailureTime cb) = false).

(** [lo <= year <= hi], false for NaN. *)
Definition inYearRange (year : option Z) (lo hi : Z) : bool :=
  match year with
  | Some y => (lo <=? y) && (y <=? hi)
  | None => false
  end.

(** Sample inputs. *)
Definition sampleState : ServiceState :=
  {| cache := Some ["2025-01-01"%string];
     lastFetch := 1000;
     circuitBreaker := {| failures := 0; lastFailureTime := 0; state := CLOSED |} |}.

Definition alwaysRejects : nat -> AxiosOutcome := fun _ => Rejected ThrownOther.

Definition secondAnswers : nat -> AxiosOutcome :=
  fun k => match k with
           | O => Resolved PNotArray
           | _ => Resolved (PArray ["2025-01-01"%string])
           end.

Definition failingCall (t : Z) : Call :=
  {| callNow := t; callYear := 2025; callUrl := "u"; callNet := alwaysRejects;
     callRandom := fun _ => 0%Q |}.

(** Total time slept in a trace, in ms. *)
Fixpoint slept (trace : list Event) : Q :=
  match trace with
  | [] => 0
  | EvSleep ms :: rest => ms + slept rest
  | EvGet _ :: rest => slept rest
  end.

(** The year an entry is printed with, and whether it is a first of January. *)
Definition printedYear (holiday : string) : option Z :=
  digitsValue 0 (list_ascii_of_string (substring 0 4 holiday)).

Definition isNewYear (holiday : string) : bool :=
  String.eqb (substring 4 6 holiday) "-01-01".

(** The year [holidayYear] gives in a zone west of UTC by less than a day. *)
Definition yearWestOfUtc (holiday : string) : option Z :=
  option_map (fun y => if isNewYear holiday then y - 1 else y) (printedYear holiday).

End ServiceSupport.

Module ValidationSupport.
Import Js Types ValidationService.

(** [digitsAtLeast w] prints [w] digits. *)
Definition digitsOk (w : nat) (z : Z) : bool :=
  matchAtoms (repeat Digit w) (list_ascii_of_string (digitsAtLeast w (Z.to_N z))).

Section Platform.
Variable NumberIsNaN : string -> bool.
Variable parseInt10 : string -> JsNumber.
Variable newDate : string -> option Date.

(** What the checks of one count admit: absent, or a string that
    [Number] reads as a number and [parseInt] does not read as negative. *)
Definition countAccepted (v : option QueryValue) (parsed : option JsNumber) : Prop :=
  match v with
  | None => parsed = None
  | Some (QString s) =>
      NumberIsNaN s = false /\ ltZero (parseInt10 s) = false
      /\ parsed = Some (parseInt10 s)
  | Some QOther => False
  end.

(** What the checks of the date admit: absent, or a string of the format
    that [new Date] reads as a valid date. *)
Definition dateAccepted (v : option QueryValue) (parsed : option Date) : Prop :=
  match v with
  | None => parsed = None
  | Some (QString s) =>
      iso8601Regex s = true /\ exists d, newDate s = Some d /\ parsed = Some d
  | Some QOther => False
  end.

End Platform.

End ValidationSupport.

(** ** Proofs *)

(** *** The calendar and the printed date *)

Module JsFacts.
Import Js Support.

Example civilFromDays_epoch : civilFromDays 0 = (1970, 1, 1).
Proof. reflexivity. Qed.

Example toISOStringDate_sample :
  toISOStringDate 1744902000000 = "2025-04-17"%string.
Proof. vm_compute. reflexivity. Qed.

Example parseDateOnly_sample :
  parseDateOnly "2025-04-17" = Some 1744848000000.
Proof. vm_compute. reflexivity. Qed.

Lemma allFrom_spec P n : forall z k,
  allFrom P n z = true -> z <= k < z + Z.of_nat n -> P k = true.
Proof.
  induction n as [|n IH]; intros z k Hall Hk; [lia|].
  cbn [allFrom] in Hall. destruct (P z) eqn:Hz; [|discriminate].
  destruct (Z.eq_dec k z) as [->|Hne]; [exact Hz|].
  apply (IH (z + 1)); [exact Hall|lia].
Qed.

(** Checked on each of the 146097 days of an era. *)
Lemma eraDayOk_all doe : 0 <= doe < 146097 -> eraDayOk doe = true.
Proof.
  intros H. apply (allFrom_spec eraDayOk (Z.to_nat 146097) 0).
  - vm_compute; reflexivity.
  - lia.
Qed.

Ltac era_facts z :=
  unfold civilFromDays;
  set (z' := z + 719468);
  let Hdoe := fresh "Hdoe" in
  assert (Hdoe : 0 <= z' mod 146097 < 146097) by (apply Z.mod_pos_bound; lia);
  let Hok := fresh "Hok" in
  pose proof (eraDayOk_all _ Hdoe) as Hok;
  let Hdm := fresh "Hdm" in
  pose proof (Z.div_mod z' 146097 ltac:(lia)) as Hdm;
  set (era := z' / 146097) in *;
  set (doe := z' mod 146097) in *;
  unfold eraDayOk in Hok;
  set (yoe := (doe - doe / 1460 + doe / 36524 - doe / 146096) / 365) in *;
  set (doy := doe - (365 * yoe + yoe / 4 - yoe / 100)) in *;
  set (mp := (5 * doy + 2) / 153) in *;
  set (d := doy - (153 * mp + 2) / 5 + 1) in *;
  repeat rewrite andb_true_iff in Hok;
  destruct Hok as [[[[[Hy0 Hy1] Hm0] Hm1] Hd0] Hd1];
  apply Z.leb_le in Hy0, Hy1, Hm0, Hm1, Hd0, Hd1.

Lemma civilFromDays_range z :
  let '(_, m, d) := civilFromDays z in 1 <= m <= 12 /\ 1 <= d <= 31.
Proof.
  era_facts z.
  destruct (mp <? 10) eqn:E; [apply Z.ltb_lt in E | apply Z.ltb_ge in E]; lia.
Qed.

(** [daysFromCivil] undoes [civilFromDays]: distinct days have distinct
    calendar dates. *)
Lemma daysFromCivil_civilFromDays z :
  let '(y, m, d) := civilFromDays z in daysFromCivil y m d = z.
Proof.
  era_facts z.
  unfold daysFromCivil.
  set (m := if mp <? 10 then mp + 3 else mp - 9).
  assert (Hm : (if m <=? 2
                then yoe + era * 400 + (if m <=? 2 then 1 else 0) - 1
                else yoe + era * 400 + (if m <=? 2 then 1 else 0))
               = yoe + era * 400).
  { subst m. destruct (mp <? 10) eqn:E; [apply Z.ltb_lt in E | apply Z.ltb_ge in E].
    - destruct (mp + 3 <=? 2) eqn:E2; [apply Z.leb_le in E2; lia | lia].
    - destruct (mp - 9 <=? 2) eqn:E2; [lia | apply Z.leb_gt in E2; lia]. }
  rewrite Hm.
  assert (Hmp : (if 2 <? m then m - 3 else m + 9) = mp).
  { subst m. destruct (mp <? 10) eqn:E; [apply Z.ltb_lt in E | apply Z.ltb_ge in E].
    - destruct (2 <? mp + 3) eqn:E2; [lia | apply Z.ltb_ge in E2; lia].
    - destruct (2 <? mp - 9) eqn:E2; [apply Z.ltb_lt in E2; lia | lia]. }
  rewrite Hmp.
  assert (Hera : (yoe + era * 400) / 400 = era).
  { rewrite Z.div_add by lia. rewrite Z.div_small by lia. lia. }
  assert (Hyoe : (yoe + era * 400) mod 400 = yoe).
  { rewrite Z.mod_add by lia. apply Z.mod_small. lia. }
  rewrite Hera, Hyoe.
  subst d doy z'. lia.
Qed.

Lemma civilFromDays_inj z1 z2 : civilFromDays z1 = civilFromDays z2 -> z1 = z2.
Proof.
  intros H.
  pose proof (daysFromCivil_civilFromDays z1) as H1.
  pose proof (daysFromCivil_civilFromDays z2) as H2.
  rewrite H in H1. destruct (civilFromDays z2) as [[y m] d]. congruence.
Qed.

Lemma of_uint_zeros k u : N.of_uint (Nat.iter k D0 u) = N.of_uint u.
Proof. induction k as [|k IH]; [reflexivity|exact IH]. Qed.

(** A padded numeral determines its number: parse it back. *)
Lemma digitsAtLeast_inj w1 w2 n1 n2 :
  digitsAtLeast w1 n1 = digitsAtLeast w2 n2 -> n1 = n2.
Proof.
  unfold digitsAtLeast. intros H.
  apply (f_equal NilEmpty.uint_of_string) in H.
  rewrite !NilEmpty.usu in H. injection H as H.
  apply (f_equal N.of_uint) in H.
  rewrite !of_uint_zeros, !DecimalN.Unsigned.of_to in H. exact H.
Qed.

Lemma string_of_uint_no_sign u c s :
  NilEmpty.string_of_uint u = String c s -> c <> "-"%char /\ c <> "+"%char.
Proof.
  destruct u; cbn; intros H; try discriminate;
    injection H as <- _; split; discriminate.
Qed.

Lemma isoYear_inj y1 y2 : isoYear y1 = isoYear y2 -> y1 = y2.
Proof.
  unfold isoYear.
  destruct ((0 <=? y1) && (y1 <=? 9999)) eqn:R1;
  destruct ((0 <=? y2) && (y2 <=? 9999)) eqn:R2.
  - intros H. apply digitsAtLeast_inj in H.
    apply andb_true_iff in R1, R2. lia.
  - intros H. unfold digitsAtLeast in H.
    destruct (y2 <? 0); apply string_of_uint_no_sign in H; tauto.
  - intros H. symmetry in H. unfold digitsAtLeast in H.
    destruct (y1 <? 0); apply string_of_uint_no_sign in H; tauto.
  - apply andb_false_iff in R1, R2.
    destruct (y1 <? 0) eqn:S1; destruct (y2 <? 0) eqn:S2; intros H;
      try discriminate; injection H as H; apply digitsAtLeast_inj in H; lia.
Qed.

Lemma length_append_string s : forall t,
  String.length (s ++ t) = (String.length s + String.length t)%nat.
Proof. induction s as [|c s IH]; intros t; cbn; [reflexivity|now rewrite IH]. Qed.

Lemma append_inj_suffix s1 : forall s2 t1 t2,
  String.length t1 = String.length t2 ->
  (s1 ++ t1)%string = (s2 ++ t2)%string -> s1 = s2 /\ t1 = t2.
Proof.
  induction s1 as [|c s1 IH]; intros [|c2 s2] t1 t2 Hlen H; cbn in H.
  - auto.
  - subst t1. cbn in Hlen. rewrite length_append_string in Hlen. lia.
  - subst t2. cbn in Hlen. rewrite length_append_string in Hlen. lia.
  - injection H as -> H. destruct (IH _ _ _ Hlen H) as [-> ->]. auto.
Qed.

Lemma length_digitsAtLeast_2 n :
  (n < 100)%N -> String.length (digitsAtLeast 2 n) = 2%nat.
Proof.
  intros H.
  assert (Hall : forallb
                   (fun k => Nat.eqb (String.length (digitsAtLeast 2 (N.of_nat k))) 2)
                   (seq 0 100) = true) by (vm_compute; reflexivity).
  rewrite forallb_forall in Hall.
  specialize (Hall (N.to_nat n)).
  rewrite N2Nat.id in Hall. apply Nat.eqb_eq, Hall, in_seq. lia.
Qed.

(** The printed date determines the UTC day. *)
Lemma toISOStringDate_inj t1 t2 :
  toISOStringDate t1 = toISOStringDate t2 -> Day t1 = Day t2.
Proof.
  unfold toISOStringDate. intros H.
  apply civilFromDays_inj.
  pose proof (civilFromDays_range (Day t1)) as R1.
  pose proof (civilFromDays_range (Day t2)) as R2.
  destruct (civilFromDays (Day t1)) as [[y1 m1] d1].
  destruct (civilFromDays (Day t2)) as [[y2 m2] d2].
  assert (L : forall m d, 1 <= m <= 12 -> 1 <= d <= 31 ->
              String.length ("-" ++ digitsAtLeast 2 (Z.to_N m) ++ "-"
                               ++ digitsAtLeast 2 (Z.to_N d)) = 6%nat).
  { intros m d Hm Hd. cbn [append String.length].
    rewrite length_append_string. cbn [append String.length].
    rewrite !length_digitsAtLeast_2 by lia. reflexivity. }
  apply append_inj_suffix in H; [|rewrite !L by tauto; reflexivity].
  destruct H as [Hy H]. apply isoYear_inj in Hy.
  cbn [append] in H. injection H as H.
  apply append_inj_suffix in H.
  2:{ cbn [append String.length]. rewrite !length_digitsAtLeast_2 by lia. reflexivity. }
  destruct H as [Hm H]. cbn [append] in H. injection H as Hd.
  apply digitsAtLeast_inj in Hm, Hd.
  f_equal; [f_equal|]; lia.
Qed.

End JsFacts.

(** *** Rounding to the nearest double *)

Module DoubleFacts.
Import JsDouble.

Lemma two_pos (e : Z) : (0 < 2 ^ e)%Q.
Proof. apply Qpower_0_lt. reflexivity. Qed.

Lemma two_mono (a b : Z) : a <= b -> (2 ^ a <= 2 ^ b)%Q.
Proof. intros H. apply Qpower_le_compat_l; [exact H|discriminate]. Qed.

Lemma two_plus (a b : Z) : (2 ^ (a + b) == 2 ^ a * 2 ^ b)%Q.
Proof. apply Qpower_plus. discriminate. Qed.

Lemma two_inject (n : Z) : 0 <= n -> (inject_Z (2 ^ n) == 2 ^ n)%Q.
Proof. intros H. rewrite Zpower_Qpower by exact H. reflexivity. Qed.

Lemma mul_le_l (x y z : Q) : (0 <= z)%Q -> (x <= y)%Q -> (z * x <= z * y)%Q.
Proof. intros Hz H. rewrite !(Qmult_comm z). apply Qmult_le_compat_r; assumption. Qed.

Lemma log2_bounds (n : Z) : 0 < n ->
  (2 ^ Z.log2 n <= inject_Z n)%Q /\ (inject_Z n < 2 ^ (Z.log2 n + 1))%Q.
Proof.
  intros Hn. pose proof (Z.log2_spec n Hn) as [H1 H2].
  pose proof (Z.log2_nonneg n) as H0.
  rewrite <- !two_inject by lia. rewrite <- Zle_Qle, <- Zlt_Qlt.
  replace (Z.log2 n + 1) with (Z.succ (Z.log2 n)) by lia. split; assumption.
Qed.

Lemma quotient_between (X D A PA PA1 PB PB1 PE1 PE0 : Q) :
  (0 < X)%Q -> (X * D == A)%Q ->
  (PA <= A)%Q -> (A < PA1)%Q -> (PB <= D)%Q -> (D < PB1)%Q ->
  (0 < PB)%Q -> (0 < PB1)%Q ->
  (PA1 == PE1 * PB)%Q -> (PA == PE0 * PB1)%Q ->
  (X < PE1)%Q /\ (PE0 <= X)%Q.
Proof.
  intros Hx Hxd Ha1 Ha2 Hb1 Hb2 Pb Pb1 E1 E0. split.
  - destruct (Qlt_le_dec X PE1) as [H|H]; [exact H|exfalso].
    assert (H1 : (PE1 * PB <= X * PB)%Q) by (apply Qmult_le_compat_r; lra).
    assert (H2 : (X * PB <= X * D)%Q) by (apply mul_le_l; lra).
    lra.
  - destruct (Qlt_le_dec X PE0) as [H|H]; [exfalso|exact H].
    assert (H1 : (X * D <= X * PB1)%Q) by (apply mul_le_l; lra).
    assert (H2 : (X * PB1 < PE0 * PB1)%Q) by (apply Qmult_lt_compat_r; lra).
    lra.
Qed.

Lemma binade_spec (x : Q) :
  (0 < x)%Q -> (2 ^ binade x <= x)%Q /\ (x < 2 ^ (binade x + 1))%Q.
Proof.
  intros Hx. unfold binade.
  set (a := Z.log2 (Qnum x)). set (b := Z.log2 (Zpos (Qden x))).
  assert (Hn : 0 < Qnum x) by (destruct x as [n d]; unfold Qlt in Hx; cbn in *; lia).
  destruct (log2_bounds (Qnum x) Hn) as [Ha1 Ha2]. fold a in Ha1, Ha2.
  destruct (log2_bounds (Zpos (Qden x)) ltac:(lia)) as [Hb1 Hb2]. fold b in Hb1, Hb2.
  assert (Hxd : (x * inject_Z (Zpos (Qden x)) == inject_Z (Qnum x))%Q).
  { destruct x as [n d]. cbn [Qnum Qden]. unfold Qeq, Qmult, inject_Z. cbn. lia. }
  assert (E1 : (2 ^ (a + 1) == 2 ^ (a - b + 1) * 2 ^ b)%Q).
  { rewrite <- two_plus. replace (a - b + 1 + b) with (a + 1) by lia. reflexivity. }
  assert (E0 : (2 ^ a == 2 ^ (a - b - 1) * 2 ^ (b + 1))%Q).
  { rewrite <- two_plus. replace (a - b - 1 + (b + 1)) with a by lia. reflexivity. }
  destruct (quotient_between _ _ _ _ _ _ _ _ _ Hx Hxd Ha1 Ha2 Hb1 Hb2
              (two_pos b) (two_pos (b + 1)) E1 E0) as [Hup Hlo].
  destruct (Qle_bool (2 ^ (a - b)) x) eqn:E.
  - apply Qle_bool_iff in E. split; [exact E|exact Hup].
  - split; [exact Hlo|].
    replace (a - b - 1 + 1) with (a - b) by lia.
    destruct (Qlt_le_dec x (2 ^ (a - b))) as [H|H]; [exact H|].
    apply Qle_bool_iff in H. congruence.
Qed.

Lemma binade_mono (x y : Q) : (0 < x)%Q -> (x <= y)%Q -> binade x <= binade y.
Proof.
  intros Hx Hxy.
  destruct (binade_spec x Hx) as [Hx1 _].
  destruct (binade_spec y ltac:(lra)) as [_ Hy2].
  destruct (Z_le_gt_dec (binade x) (binade y)) as [H|H]; [exact H|exfalso].
  pose proof (two_mono (binade y + 1) (binade x) ltac:(lia)). lra.
Qed.

Lemma roundHalfEven_floor (q : Q) :
  Qfloor q <= roundHalfEven q <= Qfloor q + 1.
Proof.
  unfold roundHalfEven. destruct (q - inject_Z (Qfloor q) ?= 1 # 2)%Q; [|lia|lia].
  destruct (Z.even (Qfloor q)); lia.
Qed.

Lemma roundHalfEven_ge (q : Q) (n : Z) : (inject_Z n <= q)%Q -> n <= roundHalfEven q.
Proof.
  intros H. pose proof (roundHalfEven_floor q).
  assert (n <= Qfloor q).
  { rewrite <- (Qfloor_Z n). apply Qfloor_resp_le. exact H. }
  lia.
Qed.

Lemma roundHalfEven_le (q : Q) (n : Z) : (q <= inject_Z n)%Q -> roundHalfEven q <= n.
Proof.
  intros H. pose proof (roundHalfEven_floor q) as Hr.
  assert (Hf : Qfloor q <= n).
  { rewrite <- (Qfloor_Z n). apply Qfloor_resp_le. exact H. }
  destruct (Z.eq_dec (Qfloor q) n) as [E|E]; [|lia].
  unfold roundHalfEven. pose proof (Qfloor_le q) as Hfl. rewrite E in *.
  assert (Hq : (q - inject_Z n == 0)%Q) by lra.
  destruct (q - inject_Z n ?= 1 # 2)%Q eqn:C.
  - apply Qeq_alt in C. lra.
  - lia.
  - apply Qgt_alt in C. lra.
Qed.

Lemma roundHalfEven_mono (q1 q2 : Q) :
  (q1 <= q2)%Q -> roundHalfEven q1 <= roundHalfEven q2.
Proof.
  intros H. pose proof (Qfloor_resp_le _ _ H) as Hf.
  pose proof (roundHalfEven_floor q1) as H1. pose proof (roundHalfEven_floor q2) as H2.
  destruct (Z.eq_dec (Qfloor q1) (Qfloor q2)) as [E|E]; [|lia].
  unfold roundHalfEven. rewrite <- E.
  set (f := Qfloor q1) in *.
  assert (R1 : match (q1 - inject_Z f ?= 1 # 2)%Q with
               | Eq => (q1 - inject_Z f == 1 # 2)%Q
               | Lt => (q1 - inject_Z f < 1 # 2)%Q
               | Gt => (1 # 2 < q1 - inject_Z f)%Q
               end).
  { destruct (q1 - inject_Z f ?= 1 # 2)%Q eqn:C;
      [apply Qeq_alt|apply Qlt_alt|apply Qgt_alt]; exact C. }
  assert (R2 : match (q2 - inject_Z f ?= 1 # 2)%Q with
               | Eq => (q2 - inject_Z f == 1 # 2)%Q
               | Lt => (q2 - inject_Z f < 1 # 2)%Q
               | Gt => (1 # 2 < q2 - inject_Z f)%Q
               end).
  { destruct (q2 - inject_Z f ?= 1 # 2)%Q eqn:C;
      [apply Qeq_alt|apply Qlt_alt|apply Qgt_alt]; exact C. }
  destruct (q1 - inject_Z f ?= 1 # 2)%Q; destruct (q2 - inject_Z f ?= 1 # 2)%Q;
    try destruct (Z.even f); try lia; exfalso; lra.
Qed.

Lemma toDouble_nonneg (x : Q) : (0 <= toDouble x)%Q.
Proof.
  unfold toDouble. destruct (Qle_bool x 0) eqn:E; [lra|].
  assert (Hx : (0 < x)%Q).
  { destruct (Qlt_le_dec 0 x) as [H|H]; [exact H|]. apply Qle_bool_iff in H. congruence. }
  cbv zeta. set (p := Z.max (binade x) (-1022) - 52).
  pose proof (two_pos p) as Pp.
  assert (0 <= roundHalfEven (x / 2 ^ p)).
  { apply roundHalfEven_ge. change (inject_Z 0) with 0%Q.
    apply Qle_shift_div_l; [exact Pp|]. lra. }
  assert (0 <= inject_Z (roundHalfEven (x / 2 ^ p)))%Q by (rewrite <- (Zle_Qle 0); assumption).
  nra.
Qed.

(** Rounding is monotone. *)
Lemma toDouble_mono (x y : Q) : (x <= y)%Q -> (toDouble x <= toDouble y)%Q.
Proof.
  intros Hxy. unfold toDouble at 1. destruct (Qle_bool x 0) eqn:Ex; [apply toDouble_nonneg|].
  assert (Hx : (0 < x)%Q).
  { destruct (Qlt_le_dec 0 x) as [H|H]; [exact H|]. apply Qle_bool_iff in H. congruence. }
  assert (Hy : (0 < y)%Q) by lra.
  unfold toDouble. destruct (Qle_bool y 0) eqn:Ey; [apply Qle_bool_iff in Ey; lra|].
  cbv zeta.
  pose proof (binade_mono x y Hx Hxy) as Hb.
  set (px := Z.max (binade x) (-1022) - 52). set (py := Z.max (binade y) (-1022) - 52).
  assert (Hp : px <= py) by (subst px py; lia).
  pose proof (two_pos px) as Ppx. pose proof (two_pos py) as Ppy.
  destruct (Z.eq_dec px py) as [E|E].
  - rewrite <- E.
    assert (Hq : (x / 2 ^ px <= y / 2 ^ px)%Q).
    { apply Qle_shift_div_l; [exact Ppx|].
      unfold Qdiv. rewrite <- Qmult_assoc, (Qmult_comm (/ _)), Qmult_inv_r by lra. lra. }
    apply roundHalfEven_mono in Hq. rewrite Zle_Qle in Hq.
    apply Qmult_le_compat_r; [exact Hq|lra].
  - (* the binade of [y] is higher *)
    destruct (binade_spec x Hx) as [_ Hx2]. destruct (binade_spec y Hy) as [Hy1 _].
    assert (Hbx : binade x + 1 <= px + 53) by (subst px; lia).
    assert (Hby : binade y = py + 52) by (subst px py; lia).
    (* fl x <= 2^(px+53) *)
    assert (Hfx : (inject_Z (roundHalfEven (x / 2 ^ px)) * 2 ^ px <= 2 ^ (px + 53))%Q).
    { assert (Hr : roundHalfEven (x / 2 ^ px) <= 2 ^ 53).
      { apply roundHalfEven_le. apply Qle_shift_div_r; [exact Ppx|].
        rewrite two_inject by lia. rewrite <- two_plus.
        pose proof (two_mono (binade x + 1) (53 + px) ltac:(lia)). lra. }
      rewrite Zle_Qle in Hr. rewrite two_inject in Hr by lia.
      rewrite (Z.add_comm px 53), two_plus.
      apply Qmult_le_compat_r; [exact Hr|lra]. }
    assert (Hfy : (2 ^ (py + 52) <= inject_Z (roundHalfEven (y / 2 ^ py)) * 2 ^ py)%Q).
    { assert (Hr : 2 ^ 52 <= roundHalfEven (y / 2 ^ py)).
      { apply roundHalfEven_ge. apply Qle_shift_div_l; [exact Ppy|].
        rewrite two_inject by lia. rewrite <- two_plus.
        rewrite Hby in Hy1. rewrite (Z.add_comm 52 py). exact Hy1. }
      rewrite Zle_Qle in Hr. rewrite two_inject in Hr by lia.
      rewrite (Z.add_comm py 52), two_plus.
      apply Qmult_le_compat_r; [exact Hr|lra]. }
    pose proof (two_mono (px + 53) (py + 52) ltac:(lia)). lra.
Qed.

Lemma toDouble_comp (x y : Q) : (x == y)%Q -> (toDouble x == toDouble y)%Q.
Proof.
  intros H. apply Qle_antisym; apply toDouble_mono; lra.
Qed.

Example toDouble_samples :
  (toDouble 1000 == 1000)%Q
  /\ (toDouble (toDouble (1 # 10)) == toDouble (1 # 10))%Q
  /\ (toDouble (toDouble (1 # 10) * 1000) == 100)%Q
  /\ (toDouble (1000 + 100) == 1100)%Q
  /\ (toDouble (1 # 10) == 3602879701896397 # 36028797018963968)%Q.
Proof. vm_compute. repeat split; reflexivity. Qed.

#[global] Instance toDouble_Proper : Proper (Qeq ==> Qeq) toDouble.
Proof. intros x y H. apply toDouble_comp. exact H. Qed.

Module KernelDoubles.
Import Floats DoubleSupport.

(** [toDouble] agrees with the doubles of the kernel on the operations of
    [calculateBackoffDelay]: the literal 0.1, and the delay before retries
    1, 2 and 3 for three values of [Math.random]. *)
Example toDouble_agrees_with_binary64 :
  let delay := fun e r =>
    toDouble (e + toDouble (toDouble (floatToQ r * toDouble (1 # 10)) * e)) in
  (floatToQ tenth == toDouble (1 # 10))%Q
  /\ (floatToQ maxRandom == 1 - (1 # 2) ^ 52)%Q
  /\ (floatToQ (uncappedDelay 1 maxRandom) == delay 1000 maxRandom)%Q
  /\ (floatToQ (uncappedDelay 2 maxRandom) == delay 2000 maxRandom)%Q
  /\ (floatToQ (uncappedDelay 4 maxRandom) == delay 4000 maxRandom)%Q
  /\ (floatToQ (uncappedDelay 1 0x1p-1) == delay 1000 0x1p-1%float)%Q
  /\ (floatToQ (uncappedDelay 2 0x1.23456789abcdep-1)
      == delay 2000 0x1.23456789abcdep-1%float)%Q
  /\ (floatToQ (uncappedDelay 4 0x1.5bf0a8b145769p-3)
      == delay 4000 0x1.5bf0a8b145769p-3%float)%Q
  /\ (floatToQ (uncappedDelay 1 maxRandom) == 1100)%Q.
Proof. vm_compute. repeat split; reflexivity. Qed.

End KernelDoubles.

End DoubleFacts.

(** *** date-fns on a constant offset, and the search for a business day *)

Module CalendarFacts.
Import Js DateFns FallbackHolidays BusinessTimeCalculator JsFacts Support.

Ltac fields :=
  unfold setHours, setMinutes, setHoursField, setMinutesField, addDays, subDays,
    addMinutes, getHours, getMinutes, getSeconds, getMilliseconds, getDay,
    LocalTime, UTC, MakeDate, MakeTime, Day, TimeWithinDay, WeekDay,
    HourFromTime, MinFromTime, SecFromTime, msFromTime,
    msPerDay, msPerHour, msPerMinute, msPerSecond in *.
Ltac fields_lia := fields; Z.div_mod_to_equations; lia.

Section LocalZone.
Variable tz : Z.

Lemma addDays_shift d n : addDays tz d n = d + n * msPerDay.
Proof. fields_lia. Qed.

Lemma subDays_shift d n : subDays tz d n = d - n * msPerDay.
Proof. unfold subDays. rewrite addDays_shift. lia. Qed.

Lemma Day_shift t n : Day (t + n * msPerDay) = Day t + n.
Proof. unfold Day. apply Z.div_add. unfold msPerDay. lia. Qed.

Lemma WeekDay_shift t n : WeekDay (t + n * msPerDay) = (WeekDay t + n) mod 7.
Proof. unfold WeekDay. rewrite Day_shift. rewrite Zplus_mod_idemp_l. f_equal. lia. Qed.

Lemma isBusinessDay_true d H :
  isBusinessDay tz d H = true <->
  (getDay tz d <> 0 /\ getDay tz d <> 6 /\ ~ In (toISOStringDate d) H).
Proof.
  unfold isBusinessDay, HolidaysService.isHoliday.
  destruct (getDay tz d =? 0) eqn:E0; [apply Z.eqb_eq in E0|apply Z.eqb_neq in E0];
  destruct (getDay tz d =? 6) eqn:E6; [apply Z.eqb_eq in E6|apply Z.eqb_neq in E6|apply Z.eqb_eq in E6|apply Z.eqb_neq in E6]; cbn [orb];
    try (split; [discriminate | tauto]).
  rewrite negb_true_iff. split.
  - intros Hex. repeat split; try assumption. intros Hin.
    assert (existsb (String.eqb (toISOStringDate d)) H = true).
    { apply existsb_exists. exists (toISOStringDate d). split; [exact Hin|apply String.eqb_refl]. }
    congruence.
  - intros (_ & _ & Hn). destruct (existsb _ H) eqn:E; [|reflexivity].
    apply existsb_exists in E. destruct E as (s & Hin & Heq).
    apply String.eqb_eq in Heq. subst s. contradiction.
Qed.

(** Stepping by whole days in direction [s], a business day lies within
    [enoughFuel H] steps: the Wednesdays met on the way print distinct dates,
    so they cannot all be listed in [H]. *)
Lemma business_day_within (s : Z) d H :
  s = 1 \/ s = -1 ->
  exists k : nat, (k <= 7 * List.length H + 6)%nat /\
    isBusinessDay tz (d + s * Z.of_nat k * msPerDay) H = true.
Proof.
  intros Hs.
  set (k0 := (s * (3 - (Day (d + tz) + 4))) mod 7).
  assert (Hk0 : 0 <= k0 < 7) by (apply Z.mod_pos_bound; lia).
  set (cand := fun j : nat => d + s * (k0 + 7 * Z.of_nat j) * msPerDay).
  assert (Hwd : forall j, getDay tz (cand j) = 3).
  { intros j. unfold getDay, LocalTime, cand.
    replace (d + s * (k0 + 7 * Z.of_nat j) * msPerDay + tz)
      with ((d + tz) + (s * (k0 + 7 * Z.of_nat j)) * msPerDay) by lia.
    unfold WeekDay. rewrite Day_shift. subst k0.
    destruct Hs as [-> | ->]; Z.div_mod_to_equations; lia. }
  destruct (existsb (fun j => isBusinessDay tz (cand j) H) (seq 0 (S (List.length H)))) eqn:Ex.
  - apply existsb_exists in Ex. destruct Ex as (j & Hj & Hb).
    apply in_seq in Hj.
    exists (Z.to_nat (k0 + 7 * Z.of_nat j)). split; [lia|].
    rewrite Z2Nat.id by lia. exact Hb.
  - exfalso.
    assert (Hall : forall j, (j < S (List.length H))%nat -> In (toISOStringDate (cand j)) H).
    { intros j Hj.
      destruct (in_dec string_dec (toISOStringDate (cand j)) H) as [Hin|Hnin]; [exact Hin|].
      assert (isBusinessDay tz (cand j) H = true).
      { apply isBusinessDay_true. rewrite Hwd. repeat split; try lia. exact Hnin. }
      assert (existsb (fun j => isBusinessDay tz (cand j) H) (seq 0 (S (List.length H))) = true).
      { apply existsb_exists. exists j. split; [apply in_seq; lia|assumption]. }
      congruence. }
    assert (Hnd : NoDup (map (fun j => toISOStringDate (cand j)) (seq 0 (S (List.length H))))).
    { apply NoDup_map_NoDup_ForallPairs; [|apply seq_NoDup].
      intros i j _ _ Heq. apply toISOStringDate_inj in Heq.
      unfold cand in Heq.
      replace (d + s * (k0 + 7 * Z.of_nat i) * msPerDay)
        with (d + (s * (k0 + 7 * Z.of_nat i)) * msPerDay) in Heq by lia.
      replace (d + s * (k0 + 7 * Z.of_nat j) * msPerDay)
        with (d + (s * (k0 + 7 * Z.of_nat j)) * msPerDay) in Heq by lia.
      rewrite !Day_shift in Heq. destruct Hs as [-> | ->]; lia. }
    apply NoDup_incl_length with (l' := H) in Hnd.
    + rewrite length_map, length_seq in Hnd. lia.
    + intros x Hx. apply in_map_iff in Hx. destruct Hx as (j & <- & Hj).
      apply Hall. apply in_seq in Hj. lia.
Qed.


Lemma whileNotBusinessDay_least (s : Z) step H :
  (forall d, step d = d + s * msPerDay) ->
  forall fuel d k, (k <= fuel)%nat ->
    isBusinessDay tz (d + s * Z.of_nat k * msPerDay) H = true ->
    exists k' : nat, (k' <= k)%nat /\
      whileNotBusinessDay tz fuel step H d = Some (d + s * Z.of_nat k' * msPerDay) /\
      isBusinessDay tz (d + s * Z.of_nat k' * msPerDay) H = true /\
      forall j : nat, (j < k')%nat ->
        isBusinessDay tz (d + s * Z.of_nat j * msPerDay) H = false.
Proof.
  intros Hstep.
  assert (H0 : forall d, d + s * Z.of_nat 0 * msPerDay = d) by (intros; lia).
  induction fuel as [|fuel IH]; intros d k Hk Hb.
  - assert (k = 0%nat) by lia. subst k. rewrite H0 in Hb.
    exists 0%nat. cbn [whileNotBusinessDay]. rewrite H0, Hb.
    split; [lia|]. split; [reflexivity|]. split; [reflexivity|].
    intros j Hj; lia.
  - cbn [whileNotBusinessDay]. destruct (isBusinessDay tz d H) eqn:Hd.
    + exists 0%nat. rewrite H0.
      split; [lia|]. split; [reflexivity|]. split; [exact Hd|].
      intros j Hj; lia.
    + destruct k as [|k]; [rewrite H0 in Hb; congruence|].
      destruct (IH (step d) k ltac:(lia)) as (k' & Hk' & Hw & Hb' & Hmin).
      { rewrite Hstep. rewrite <- Hb. f_equal. lia. }
      exists (S k'). rewrite Hstep in Hw, Hb', Hmin.
      replace (d + s * Z.of_nat (S k') * msPerDay)
        with (d + s * msPerDay + s * Z.of_nat k' * msPerDay) by lia.
      split; [lia|]. split; [rewrite Hstep; exact Hw|]. split; [exact Hb'|].
      intros [|j] Hj.
      * rewrite H0. exact Hd.
      * rewrite <- (Hmin j ltac:(lia)). f_equal. lia.
Qed.

Lemma moveToPrevBusinessDay_while H : forall fuel d w m r,
  moveToPrevBusinessDay tz fuel H (d, w, m, r) =
  match whileNotBusinessDay tz fuel (fun d => subDays tz d 1) H d with
  | None => None
  | Some d' =>
      Some (if isBusinessDay tz d H then (d, w, m, r)
            else (d', true, true, "Moved to next business day (weekend/holiday)"%string))
  end.
Proof.
  induction fuel as [|fuel IH]; intros d w m r; cbn [moveToPrevBusinessDay whileNotBusinessDay].
  - destruct (isBusinessDay tz d H); reflexivity.
  - destruct (isBusinessDay tz d H) eqn:Hd; [reflexivity|].
    rewrite IH.
    destruct (whileNotBusinessDay tz fuel _ H (subDays tz d 1)) as [d'|] eqn:Hw; [|reflexivity].
    destruct (isBusinessDay tz (subDays tz d 1) H) eqn:Hd1; [|reflexivity].
    destruct fuel; cbn [whileNotBusinessDay] in Hw; rewrite Hd1 in Hw; congruence.
Qed.

(** Stepping back from [d], the search ends on the nearest business day at
    or before [d]. *)
Lemma stepBack_result d H fuel :
  (enoughFuel H <= fuel)%nat ->
  exists k : nat,
    whileNotBusinessDay tz fuel (fun d => subDays tz d 1) H d = Some (subDays tz d (Z.of_nat k)) /\
    isBusinessDay tz (subDays tz d (Z.of_nat k)) H = true /\
    forall j : nat, (j < k)%nat -> isBusinessDay tz (subDays tz d (Z.of_nat j)) H = false.
Proof.
  intros Hf.
  destruct (business_day_within (-1) d H ltac:(auto)) as (k & Hk & Hb).
  destruct (whileNotBusinessDay_least (-1) (fun d => subDays tz d 1) H
              ltac:(intros; cbv beta; rewrite subDays_shift; lia) fuel d k
              ltac:(unfold enoughFuel in Hf; lia) Hb)
    as (k' & _ & Hw & Hb' & Hmin).
  exists k'. rewrite subDays_shift.
  replace (d - Z.of_nat k' * msPerDay) with (d + -1 * Z.of_nat k' * msPerDay) by lia.
  split; [exact Hw|]. split; [exact Hb'|].
  intros j Hj. rewrite subDays_shift. rewrite <- (Hmin j Hj). f_equal. lia.
Qed.

End LocalZone.

End CalendarFacts.

(** *** src/businessTime.ts *)

Module BusinessTimeFacts.
Import Js DateFns DateFnsTz FallbackHolidays BusinessTimeCalculator.
Import JsFacts Support CalendarFacts.

Section LocalZone.
Variable tz : Z.

Lemma adjust_on_business_day fuel d H :
  isBusinessDay tz d H = true ->
  moveToPrevBusinessDay tz fuel H (d, false, false, ""%string) = Some (d, false, false, ""%string).
Proof. intros Hb. destruct fuel; cbn [moveToPrevBusinessDay]; rewrite Hb; reflexivity. Qed.

(** C6. A date on Monday to Friday that [isHoliday] does not find in the
    holiday list, with minutes of day in [8*60, 12*60) or [13*60, 17*60), is
    returned as it is, with [wasAdjusted = false]. *)
Theorem adjust_within_working_hours fuel d H :
  1 <= getDay tz d <= 5 ->
  HolidaysService.isHoliday d H = false ->
  (8 * 60 <= getHours tz d * 60 + getMinutes tz d < 12 * 60 \/
   13 * 60 <= getHours tz d * 60 + getMinutes tz d < 17 * 60) ->
  adjustToPrevBusinessTime tz fuel d H =
    Some {| date := d; wasAdjusted := false; reason := "" |}.
Proof.
  intros Hwd Hh Hm.
  assert (Hb : isBusinessDay tz d H = true).
  { unfold isBusinessDay. rewrite Hh.
    destruct (getDay tz d =? 0) eqn:E0; [apply Z.eqb_eq in E0; lia|].
    destruct (getDay tz d =? 6) eqn:E6; [apply Z.eqb_eq in E6; lia|]. reflexivity. }
  unfold adjustToPrevBusinessTime. rewrite (adjust_on_business_day fuel d H Hb).
  cbn [start end_ lunchStart lunchEnd WORKING_HOURS].
  set (t := getHours tz d * 60 + getMinutes tz d) in *.
  destruct (t <? 8 * 60) eqn:E1; [apply Z.ltb_lt in E1; lia|].
  destruct ((12 * 60 <=? t) && (t <? 13 * 60)) eqn:E2.
  { apply andb_true_iff in E2. destruct E2 as [A B]. apply Z.leb_le in A. apply Z.ltb_lt in B. lia. }
  destruct (17 * 60 <=? t) eqn:E3; [apply Z.leb_le in E3; lia|].
  reflexivity.
Qed.

Lemma setMinutes_same d m : getMinutes tz d = m -> setMinutes tz d m = d.
Proof. intros <-. fields_lia. Qed.

Lemma setHours_same d h : getHours tz d = h -> setHours tz d h = d.
Proof. intros <-. fields_lia. Qed.

Lemma minutes_of_day_split d h :
  0 <= h < 24 ->
  getHours tz d * 60 + getMinutes tz d = h * 60 ->
  getHours tz d = h /\ getMinutes tz d = 0.
Proof. intros Hh. fields. intros. Z.div_mod_to_equations. lia. Qed.

(** C10. On a business day at exactly 12:00 (minutes of day equal to
    [lunchStart * 60]) the returned date is the input, and yet
    [wasAdjusted = true]. *)
Theorem adjust_at_lunch_start fuel d H :
  isBusinessDay tz d H = true ->
  getHours tz d * 60 + getMinutes tz d = lunchStart WORKING_HOURS * 60 ->
  exists r, adjustToPrevBusinessTime tz fuel d H = Some r /\
            date r = d /\ wasAdjusted r = true.
Proof.
  intros Hb Ht. cbn [lunchStart WORKING_HOURS] in Ht.
  unfold adjustToPrevBusinessTime. rewrite (adjust_on_business_day fuel d H Hb).
  cbn [start end_ lunchStart lunchEnd WORKING_HOURS].
  destruct (minutes_of_day_split d 12 ltac:(lia) Ht) as [Hh Hm].
  rewrite Ht. cbn -[setHours setMinutes].
  eexists. split; [reflexivity|]. cbn [date wasAdjusted]. split; [|reflexivity].
  rewrite (setMinutes_same d 0 Hm). apply setHours_same. exact Hh.
Qed.

(** C9. Zero identity: with a count of zero [addBusinessDays] and
    [addBusinessHours] return their start date itself; no loop runs and no
    adjustment is applied. *)
Theorem zero_identity fuel x H :
  addBusinessDays tz fuel x 0 H = Some x /\ addBusinessHours tz fuel x 0 H = Some x.
Proof. split; reflexivity. Qed.

Lemma setMinutes_fields d m :
  0 <= m < 60 ->
  Day (LocalTime tz (setMinutes tz d m)) = Day (LocalTime tz d) /\
  getHours tz (setMinutes tz d m) = getHours tz d /\
  getMinutes tz (setMinutes tz d m) = m /\
  getSeconds tz (setMinutes tz d m) = getSeconds tz d /\
  getMilliseconds tz (setMinutes tz d m) = getMilliseconds tz d.
Proof. intros Hm. fields. repeat split; Z.div_mod_to_equations; lia. Qed.

Lemma setHours_fields d h :
  0 <= h < 24 ->
  Day (LocalTime tz (setHours tz d h)) = Day (LocalTime tz d) /\
  getHours tz (setHours tz d h) = h /\
  getMinutes tz (setHours tz d h) = getMinutes tz d /\
  getSeconds tz (setHours tz d h) = getSeconds tz d /\
  getMilliseconds tz (setHours tz d h) = getMilliseconds tz d.
Proof. intros Hm. fields. repeat split; Z.div_mod_to_equations; lia. Qed.

Lemma fields_after_snap d h :
  0 <= h < 24 ->
  let r := setHours tz (setMinutes tz d 0) h in
  Day (LocalTime tz r) = Day (LocalTime tz d) /\
  getHours tz r = h /\ getMinutes tz r = 0 /\
  getSeconds tz r = getSeconds tz d /\ getMilliseconds tz r = getMilliseconds tz d.
Proof.
  intros Hh r. subst r.
  destruct (setMinutes_fields d 0 ltac:(lia)) as (A1 & A2 & A3 & A4 & A5).
  destruct (setHours_fields (setMinutes tz d 0) h Hh) as (B1 & B2 & B3 & B4 & B5).
  repeat split; congruence.
Qed.


Lemma subDays_fields d n :
  Day (LocalTime tz (subDays tz d n)) = Day (LocalTime tz d) - n /\
  getHours tz (subDays tz d n) = getHours tz d /\
  getMinutes tz (subDays tz d n) = getMinutes tz d /\
  getSeconds tz (subDays tz d n) = getSeconds tz d /\
  getMilliseconds tz (subDays tz d n) = getMilliseconds tz d.
Proof. rewrite subDays_shift. fields. repeat split; Z.div_mod_to_equations; lia. Qed.

Lemma subDays_0 d : subDays tz d 0 = d.
Proof. rewrite subDays_shift. lia. Qed.

(** The first branch of the adjustment: the date returned from a day that is
    not a business day. *)
Lemma adjust_moved_back fuel d H :
  isBusinessDay tz d H = false ->
  (enoughFuel H <= fuel)%nat ->
  exists k : nat,
    (1 <= k)%nat /\
    isBusinessDay tz (subDays tz d (Z.of_nat k)) H = true /\
    (forall j : nat, (j < k)%nat ->
       isBusinessDay tz (subDays tz d (Z.of_nat j)) H = false) /\
    adjustToPrevBusinessTime tz fuel d H =
      Some {| date := setHours tz (setMinutes tz (subDays tz d (Z.of_nat k)) 0) 17;
              wasAdjusted := true;
              reason := "Moved to next business day (weekend/holiday)" |}.
Proof.
  intros Hd Hf.
  destruct (stepBack_result tz d H fuel Hf) as (k & Hw & Hb & Hmin).
  assert (Hk : (1 <= k)%nat).
  { destruct k; [|lia]. cbn [Z.of_nat] in Hb. rewrite subDays_0 in Hb. congruence. }
  exists k. split; [exact Hk|]. split; [exact Hb|]. split; [exact Hmin|].
  unfold adjustToPrevBusinessTime.
  rewrite moveToPrevBusinessDay_while, Hw, Hd. reflexivity.
Qed.

(** From a date that [isBusinessDay] rejects, in any zone: the adjustment
    steps back day by day to the nearest earlier date, [k >= 1] days back,
    that [isBusinessDay] accepts, and returns it with hour 17 and minute 0
    and [wasAdjusted = true]; the seconds and milliseconds of the input are
    kept. *)
Lemma adjust_non_business_day fuel d H :
  isBusinessDay tz d H = false ->
  (enoughFuel H <= fuel)%nat ->
  exists (k : nat) (r : TimeAdjustment),
    (1 <= k)%nat /\
    isBusinessDay tz (subDays tz d (Z.of_nat k)) H = true /\
    (forall j : nat, (j < k)%nat ->
       isBusinessDay tz (subDays tz d (Z.of_nat j)) H = false) /\
    adjustToPrevBusinessTime tz fuel d H = Some r /\
    wasAdjusted r = true /\
    date r = setHours tz (setMinutes tz (subDays tz d (Z.of_nat k)) 0) 17 /\
    Day (LocalTime tz (date r)) = Day (LocalTime tz d) - Z.of_nat k /\
    getHours tz (date r) = 17 /\ getMinutes tz (date r) = 0 /\
    getSeconds tz (date r) = getSeconds tz d /\
    getMilliseconds tz (date r) = getMilliseconds tz d.
Proof.
  intros Hd Hf.
  destruct (adjust_moved_back fuel d H Hd Hf) as (k & Hk & Hb & Hmin & Hr).
  exists k. eexists. split; [exact Hk|]. split; [exact Hb|]. split; [exact Hmin|].
  split; [exact Hr|]. cbn [date wasAdjusted].
  split; [reflexivity|]. split; [reflexivity|].
  destruct (fields_after_snap (subDays tz d (Z.of_nat k)) 17 ltac:(lia))
    as (A1 & A2 & A3 & A4 & A5).
  destruct (subDays_fields d (Z.of_nat k)) as (B1 & B2 & B3 & B4 & B5).
  repeat split; congruence.
Qed.

(** On a business day, a time within working hours, 12:00 or 17:00 (to the
    minute) is left where it is, in any zone. *)
Lemma adjust_fixed fuel d H :
  isBusinessDay tz d H = true ->
  (8 * 60 <= getHours tz d * 60 + getMinutes tz d <= 12 * 60 \/
   13 * 60 <= getHours tz d * 60 + getMinutes tz d <= 17 * 60) ->
  exists r, adjustToPrevBusinessTime tz fuel d H = Some r /\ date r = d.
Proof.
  intros Hb Ht.
  unfold adjustToPrevBusinessTime. rewrite (adjust_on_business_day fuel d H Hb).
  cbn [start end_ lunchStart lunchEnd WORKING_HOURS].
  set (t := getHours tz d * 60 + getMinutes tz d) in *.
  destruct (t <? 8 * 60) eqn:E1; [apply Z.ltb_lt in E1; lia|].
  destruct ((12 * 60 <=? t) && (t <? 13 * 60)) eqn:E2.
  { apply andb_true_iff in E2. destruct E2 as [A B].
    apply Z.leb_le in A. apply Z.ltb_lt in B.
    assert (Ht12 : t = 12 * 60) by lia.
    destruct (minutes_of_day_split d 12 ltac:(lia) Ht12) as [Hh Hm].
    eexists. split; [reflexivity|]. cbn [date].
    rewrite (setMinutes_same d 0 Hm). apply setHours_same. exact Hh. }
  destruct (17 * 60 <=? t) eqn:E3.
  { apply Z.leb_le in E3.
    assert (Ht17 : t = 17 * 60) by lia.
    destruct (minutes_of_day_split d 17 ltac:(lia) Ht17) as [Hh Hm].
    eexists. split; [reflexivity|]. cbn [date].
    rewrite (setMinutes_same d 0 Hm). apply setHours_same. exact Hh. }
  eexists. split; reflexivity.
Qed.

(** [isWithinWorkingHours] is the test on minutes of day of C6. *)
Lemma isWithinWorkingHours_true d :
  isWithinWorkingHours tz d = true <->
  (8 * 60 <= getHours tz d * 60 + getMinutes tz d < 12 * 60 \/
   13 * 60 <= getHours tz d * 60 + getMinutes tz d < 17 * 60).
Proof.
  unfold isWithinWorkingHours. cbn [start end_ lunchStart lunchEnd WORKING_HOURS].
  rewrite orb_true_iff, !andb_true_iff, !Z.leb_le, !Z.ltb_lt. tauto.
Qed.

(** Between 08:00 and 17:00 local, in a zone from UTC-7 to UTC+8, the day
    [toISOString] prints is the local calendar day. *)
Lemma holiday_test_reads_local_day d :
  -7 * msPerHour <= tz <= 8 * msPerHour ->
  8 * 60 <= getHours tz d * 60 + getMinutes tz d < 17 * 60 ->
  toISOStringDate d = toISOStringDate (LocalTime tz d).
Proof.
  intros Htz Hm. unfold toISOStringDate.
  replace (Day (LocalTime tz d)) with (Day d); [reflexivity|].
  fields. Z.div_mod_to_equations. lia.
Qed.
(** More fuel does not change a result. *)
Lemma whileNotBusinessDay_mono step H : forall fuel fuel' d r,
  (fuel <= fuel')%nat ->
  whileNotBusinessDay tz fuel step H d = Some r ->
  whileNotBusinessDay tz fuel' step H d = Some r.
Proof.
  induction fuel as [|fuel IH]; intros fuel' d r Hle Hw.
  - cbn [whileNotBusinessDay] in Hw.
    destruct (isBusinessDay tz d H) eqn:Hb; [|discriminate].
    destruct fuel'; cbn [whileNotBusinessDay]; rewrite Hb; exact Hw.
  - destruct fuel' as [|fuel']; [lia|].
    cbn [whileNotBusinessDay] in *.
    destruct (isBusinessDay tz d H); [exact Hw|].
    apply (IH fuel'); [lia|exact Hw].
Qed.

Lemma adjustToPrevBusinessTime_unfold fuel d H :
  adjustToPrevBusinessTime tz fuel d H =
  match whileNotBusinessDay tz fuel (fun d => subDays tz d 1) H d with
  | None => None
  | Some d' =>
      if isBusinessDay tz d H then
        let totalMinutes := getHours tz d * 60 + getMinutes tz d in
        if totalMinutes <? 8 * 60 then
          match whileNotBusinessDay tz fuel (fun d => subDays tz d 1) H
                  (setHours tz (setMinutes tz (subDays tz d 1) 0) 17) with
          | None => None
          | Some d'' =>
              Some {| date := d''; wasAdjusted := true;
                      reason := "Adjusted to previoius business day end (5:00 PM)" |}
          end
        else if (12 * 60 <=? totalMinutes) && (totalMinutes <? 13 * 60) then
          Some {| date := setHours tz (setMinutes tz d 0) 12; wasAdjusted := true;
                  reason := "Adjusted to start of lunch break (12:00 PM)" |}
        else if 17 * 60 <=? totalMinutes then
          Some {| date := setHours tz (setMinutes tz d 0) 17; wasAdjusted := true;
                  reason := "Adjusted to end of business day (after hours)" |}
        else Some {| date := d; wasAdjusted := false; reason := "" |}
      else
        Some {| date := setHours tz (setMinutes tz d' 0) 17; wasAdjusted := true;
                reason := "Moved to next business day (weekend/holiday)" |}
  end.
Proof.
  unfold adjustToPrevBusinessTime. rewrite moveToPrevBusinessDay_while.
  destruct (whileNotBusinessDay tz fuel _ H d) as [d'|]; [|reflexivity].
  destruct (isBusinessDay tz d H); reflexivity.
Qed.

Lemma adjustToPrevBusinessTime_mono H fuel fuel' d r :
  (fuel <= fuel')%nat ->
  adjustToPrevBusinessTime tz fuel d H = Some r ->
  adjustToPrevBusinessTime tz fuel' d H = Some r.
Proof.
  intros Hle. rewrite !adjustToPrevBusinessTime_unfold.
  destruct (whileNotBusinessDay tz fuel _ H d) as [d'|] eqn:Hw; [|discriminate].
  rewrite (whileNotBusinessDay_mono _ H fuel fuel' d d' Hle Hw).
  destruct (isBusinessDay tz d H); [|exact (fun e => e)].
  clear Hw. cbv zeta. destruct (_ <? _); [|exact (fun e => e)].
  destruct (whileNotBusinessDay tz fuel _ H _) as [d''|] eqn:Hw'; [|discriminate].
  rewrite (whileNotBusinessDay_mono _ H fuel fuel' _ d'' Hle Hw').
  exact (fun e => e).
Qed.

Lemma addBusinessDaysLoop_mono H : forall fuel fuel' d n r,
  (fuel <= fuel')%nat ->
  addBusinessDaysLoop tz fuel H d n = Some r ->
  addBusinessDaysLoop tz fuel' H d n = Some r.
Proof.
  induction fuel as [|fuel IH]; intros fuel' d n r Hle Hw.
  - cbn [addBusinessDaysLoop] in Hw.
    destruct (0 <? n) eqn:Hn; [discriminate|].
    destruct fuel'; cbn [addBusinessDaysLoop]; rewrite Hn; exact Hw.
  - destruct fuel' as [|fuel']; [lia|].
    cbn [addBusinessDaysLoop] in *.
    destruct (0 <? n); [|exact Hw].
    apply (IH fuel'); [lia|exact Hw].
Qed.

Lemma addBusinessHoursLoop_mono H : forall fuel fuel' d n r,
  (fuel <= fuel')%nat ->
  addBusinessHoursLoop tz fuel H d n = Some r ->
  addBusinessHoursLoop tz fuel' H d n = Some r.
Proof.
  induction fuel as [|fuel IH]; intros fuel' d n r Hle Hw.
  - cbn [addBusinessHoursLoop] in Hw.
    destruct (0 <? n) eqn:Hn; [discriminate|].
    destruct fuel'; cbn [addBusinessHoursLoop]; rewrite Hn; exact Hw.
  - destruct fuel' as [|fuel']; [lia|].
    cbn [addBusinessHoursLoop] in *.
    destruct (0 <? n); [|exact Hw].
    destruct (adjustToPrevBusinessTime tz (S fuel) d H) as [a|] eqn:Ha; [|discriminate].
    rewrite (adjustToPrevBusinessTime_mono H (S fuel) (S fuel') d a Hle Ha).
    destruct (n <=? _).
    + apply (IH fuel'); [lia|exact Hw].
    + destruct (whileNotBusinessDay tz (S fuel) _ H _) as [c|] eqn:Hc; [|discriminate].
      rewrite (whileNotBusinessDay_mono _ H (S fuel) (S fuel') _ c Hle Hc).
      apply (IH fuel'); [lia|exact Hw].
Qed.

Lemma calculateBusinessTime_mono fuel fuel' now startDate days hours H r :
  (fuel <= fuel')%nat ->
  calculateBusinessTime tz fuel now startDate days hours H = Some r ->
  calculateBusinessTime tz fuel' now startDate days hours H = Some r.
Proof.
  intros Hle. unfold calculateBusinessTime.
  destruct (adjustToPrevBusinessTime tz fuel _ H) as [a|] eqn:Ha; [|discriminate].
  rewrite (adjustToPrevBusinessTime_mono H fuel fuel' _ a Hle Ha).
  destruct (positive days) as [n|].
  - unfold addBusinessDays.
    destruct (n =? 0).
    + destruct (positive hours) as [m|]; [|exact (fun e => e)].
      unfold addBusinessHours. destruct (m =? 0); [exact (fun e => e)|].
      destruct (addBusinessHoursLoop tz fuel H _ _) as [c|] eqn:Hc; [|discriminate].
      rewrite (addBusinessHoursLoop_mono H fuel fuel' _ _ c Hle Hc). exact (fun e => e).
    + destruct (addBusinessDaysLoop tz fuel H _ _) as [b|] eqn:Hb; [|discriminate].
      rewrite (addBusinessDaysLoop_mono H fuel fuel' _ _ b Hle Hb).
      destruct (positive hours) as [m|]; [|exact (fun e => e)].
      unfold addBusinessHours. destruct (m =? 0); [exact (fun e => e)|].
      destruct (addBusinessHoursLoop tz fuel H _ _) as [c|] eqn:Hc; [|discriminate].
      rewrite (addBusinessHoursLoop_mono H fuel fuel' _ _ c Hle Hc). exact (fun e => e).
  - destruct (positive hours) as [m|]; [|exact (fun e => e)].
    unfold addBusinessHours. destruct (m =? 0); [exact (fun e => e)|].
    destruct (addBusinessHoursLoop tz fuel H _ _) as [c|] eqn:Hc; [|discriminate].
    rewrite (addBusinessHoursLoop_mono H fuel fuel' _ _ c Hle Hc). exact (fun e => e).
Qed.
End LocalZone.

(** In a process whose zone is UTC the holiday test reads the same calendar
    day as the weekday test. *)
Lemma isBusinessDay_utc_same_day d1 d2 H :
  Day (LocalTime 0 d1) = Day (LocalTime 0 d2) ->
  isBusinessDay 0 d1 H = isBusinessDay 0 d2 H.
Proof.
  unfold LocalTime. rewrite !Z.add_0_r. intros Hd.
  unfold isBusinessDay, HolidaysService.isHoliday, getDay, LocalTime, WeekDay,
    toISOStringDate.
  rewrite !Z.add_0_r, Hd. reflexivity.
Qed.

(** X4. In a process whose zone is UTC, [adjustToPrevBusinessTime] is
    idempotent: adjusting its result again gives the same date, for every
    input and holiday list. *)
Theorem adjust_idempotent_utc fuel x H :
  (enoughFuel H <= fuel)%nat ->
  exists r r',
    adjustToPrevBusinessTime 0 fuel x H = Some r /\
    adjustToPrevBusinessTime 0 fuel (date r) H = Some r' /\
    date r' = date r.
Proof.
  intros Hf.
  assert (Fix : forall r, adjustToPrevBusinessTime 0 fuel x H = Some r ->
            isBusinessDay 0 (date r) H = true ->
            (8 * 60 <= getHours 0 (date r) * 60 + getMinutes 0 (date r) <= 12 * 60 \/
             13 * 60 <= getHours 0 (date r) * 60 + getMinutes 0 (date r) <= 17 * 60) ->
            exists r r',
              adjustToPrevBusinessTime 0 fuel x H = Some r /\
              adjustToPrevBusinessTime 0 fuel (date r) H = Some r' /\
              date r' = date r).
  { intros r Hr Hb Ht.
    destruct (adjust_fixed 0 fuel (date r) H Hb Ht) as (r' & Hr' & Hd').
    exists r, r'. split; [exact Hr|]. split; [exact Hr'|exact Hd']. }
  destruct (isBusinessDay 0 x H) eqn:Hx.
  - (* on a business day *)
    pose proof (adjust_on_business_day 0 fuel x H Hx) as Hmove.
    assert (Hadj : forall r, adjustToPrevBusinessTime 0 fuel x H = r ->
              adjustToPrevBusinessTime 0 fuel x H = r) by auto.
    unfold adjustToPrevBusinessTime at 1 in Hadj. rewrite Hmove in Hadj.
    cbn [start end_ lunchStart lunchEnd WORKING_HOURS] in Hadj.
    set (t := getHours 0 x * 60 + getMinutes 0 x) in *.
    destruct (t <? 8 * 60) eqn:E1.
    { (* before the start of the day *)
      set (y := setHours 0 (setMinutes 0 (subDays 0 x 1) 0) 17) in *.
      destruct (stepBack_result 0 y H fuel Hf) as (k & Hw & Hb & _).
      destruct (fields_after_snap 0 (subDays 0 x 1) 17 ltac:(lia)) as (_ & A2 & A3 & _).
      destruct (subDays_fields 0 y (Z.of_nat k)) as (_ & B2 & B3 & _).
      fold y in A2, A3. rewrite Hw in Hadj.
      apply (Fix _ (Hadj _ eq_refl)); cbn [date]; [exact Hb|].
      rewrite B2, B3, A2, A3; lia. }
    destruct ((12 * 60 <=? t) && (t <? 13 * 60)) eqn:E2.
    { destruct (fields_after_snap 0 x 12 ltac:(lia)) as (A1 & A2 & A3 & _).
      apply (Fix _ (Hadj _ eq_refl)); cbn [date].
      - rewrite (isBusinessDay_utc_same_day _ x H A1); exact Hx.
      - rewrite A2, A3; lia. }
    destruct (17 * 60 <=? t) eqn:E3.
    { destruct (fields_after_snap 0 x 17 ltac:(lia)) as (A1 & A2 & A3 & _).
      apply (Fix _ (Hadj _ eq_refl)); cbn [date].
      - rewrite (isBusinessDay_utc_same_day _ x H A1); exact Hx.
      - rewrite A2, A3; lia. }
    apply Z.ltb_ge in E1. apply Z.leb_gt in E3.
    apply andb_false_iff in E2.
    apply (Fix _ (Hadj _ eq_refl)); cbn [date]; [exact Hx|].
    fold t. destruct E2 as [E2|E2]; [apply Z.leb_gt in E2|apply Z.ltb_ge in E2]; lia.
  - (* not on a business day *)
    destruct (adjust_moved_back 0 fuel x H Hx Hf) as (k & _ & Hb & _ & Hr).
    destruct (fields_after_snap 0 (subDays 0 x (Z.of_nat k)) 17 ltac:(lia))
      as (A1 & A2 & A3 & _).
    apply (Fix _ Hr); cbn [date].
    + rewrite (isBusinessDay_utc_same_day _ _ H A1). exact Hb.
    + rewrite A2, A3. lia.
Qed.

(** The examples of the test suite presuppose a process in UTC-5: there
    they give the expected values, in a UTC process they do not. *)
Example test_suite_zone :
  let mockHolidays := ["2025-04-17"; "2025-04-18"; "2025-12-25"]%string in
  (* Example 3: Tuesday 3 PM + 1 day + 4 hours, expected Thursday 10 AM *)
  testExample bogotaOffset (instant 2025 9 16 20 0 0) (Some 1) (Some 4) mockHolidays
    = Some (4, 2, 10, 0)
  /\ testExample 0 (instant 2025 9 16 20 0 0) (Some 1) (Some 4) mockHolidays
    = Some (4, 2, 12, 0)
  (* Example 9: 5 days + 4 hours over the Easter holidays, expected the 21st at 3 PM *)
  /\ testExample bogotaOffset (instant 2025 4 10 15 0 0) (Some 5) (Some 4) mockHolidays
    = Some (1, 11, 15, 0)
  /\ testExample 0 (instant 2025 4 10 15 0 0) (Some 5) (Some 4) mockHolidays
    = Some (2, 12, 10, 0).
Proof. vm_compute. repeat split; reflexivity. Qed.

(** C5. Evaluation at a failing input.  In a process whose zone is UTC-5
    (the zone the examples of the test suite are written for), with Good
    Friday 2025-04-18 in the holiday list, Saturday 2025-04-19 20:00 is
    adjusted to Friday 2025-04-18 17:00: at 20:00 local [toISOString] prints
    the next UTC day, so the holiday test of that Friday read "2025-04-19".
    Adjusting the result again moves it to Thursday 2025-04-17 17:00. *)
Theorem adjust_twice_differs_west_of_utc :
  let tz := bogotaOffset in
  let holidays := ["2025-04-18"%string] in
  let x := civil tz 2025 4 19 20 0 0 in
  let once := civil tz 2025 4 18 17 0 0 in
  let twice := civil tz 2025 4 17 17 0 0 in
  option_map date (adjustToPrevBusinessTime tz (enoughFuel holidays) x holidays)
    = Some once
  /\ option_map date (adjustToPrevBusinessTime tz (enoughFuel holidays) once holidays)
    = Some twice
  /\ once <> twice
  /\ HolidaysService.isHoliday once holidays = true.
Proof. vm_compute. repeat split; try reflexivity. discriminate. Qed.

(** C7. Evaluation at failing inputs.  In a process whose zone is UTC-5,
    with Good Friday 2025-04-18 in the holiday list:
    - from Saturday 2025-04-19 at 20:00 the stepping back stops after one
      day, on Good Friday: at 20:00 local [toISOString] prints the next UTC
      day, "2025-04-19", which is not listed.  The date returned is Good
      Friday at 17:00, with [wasAdjusted = true]; its calendar date is the
      listed holiday, and [isBusinessDay] itself rejects it;
    - from Good Friday at 20:00, a date on a holiday, no step back is made at
      all: the date is taken for a business day after hours and set to 17:00
      of the holiday.
    And in any zone the seconds are kept: in a UTC process Saturday
    2025-08-02 at 14:00:30 gives Friday at 17:00:30, not 17:00:00. *)
Theorem adjust_returns_holiday_west_of_utc :
  let tz := bogotaOffset in
  let holidays := ["2025-04-18"%string] in
  let saturdayEvening := civil tz 2025 4 19 20 0 0 in
  let fridayEvening := civil tz 2025 4 18 20 0 0 in
  let fridayAtFive := civil tz 2025 4 18 17 0 0 in
  (getDay tz saturdayEvening = 6
   /\ adjustToPrevBusinessTime tz (enoughFuel holidays) saturdayEvening holidays
      = Some {| date := fridayAtFive; wasAdjusted := true;
                reason := "Moved to next business day (weekend/holiday)" |}
   /\ In (toISOStringDate (LocalTime tz fridayAtFive)) holidays
   /\ isBusinessDay tz fridayAtFive holidays = false)
  /\ (In (toISOStringDate (LocalTime tz fridayEvening)) holidays
      /\ adjustToPrevBusinessTime tz (enoughFuel holidays) fridayEvening holidays
         = Some {| date := fridayAtFive; wasAdjusted := true;
                   reason := "Adjusted to end of business day (after hours)" |})
  /\ (getDay 0 (civil 0 2025 8 2 14 0 30) = 6
      /\ option_map date
           (adjustToPrevBusinessTime 0 (enoughFuel []) (civil 0 2025 8 2 14 0 30) [])
         = Some (civil 0 2025 8 1 17 0 30)
      /\ civil 0 2025 8 1 17 0 30 <> civil 0 2025 8 1 17 0 0).
Proof.
  vm_compute.
  repeat split; try reflexivity; try (left; reflexivity); discriminate.
Qed.

(** C8. With 2025-04-17 and 2025-04-18 in the holiday list, start instant
    2025-04-10T15:00:00Z (Thursday 10:00 in Colombia), 5 days and 4 hours
    give 2025-04-21T20:00:00Z, which is 2025-04-21 15:00 in Colombia.  This
    holds in every process zone whose offset is a multiple of 15 minutes
    from UTC-12:00 to UTC+10:00 (UTC-5 is [q = -20], UTC is [q = 0]). *)
Theorem calculateBusinessTime_holiday_scenario (q : Z) (fuel : nat) (now : Date) :
  -48 <= q <= 40 ->
  (11 <= fuel)%nat ->
  let holidays := ["2025-04-17"%string; "2025-04-18"%string] in
  let startDate := instant 2025 4 10 15 0 0 in
  let result := instant 2025 4 21 20 0 0 in
  calculateBusinessTime (q * (15 * msPerMinute)) fuel now (Some startDate)
    (Some 5) (Some 4) holidays = Some result
  /\ LocalTime bogotaOffset startDate = instant 2025 4 10 10 0 0
  /\ WeekDay (LocalTime bogotaOffset startDate) = 4
  /\ LocalTime bogotaOffset result = instant 2025 4 21 15 0 0.
Proof.
  intros Hq Hfuel holidays startDate result.
  split; [|repeat split; reflexivity].
  apply (calculateBusinessTime_mono _ 11 fuel); [exact Hfuel|].
  change (calculateBusinessTime (q * (15 * msPerMinute)) 11 0 (Some startDate)
            (Some 5) (Some 4) holidays = Some result).
  pose (check := fun q =>
    match calculateBusinessTime (q * (15 * msPerMinute)) 11 0 (Some startDate)
            (Some 5) (Some 4) holidays with
    | Some r => r =? result
    | None => false
    end).
  assert (Hall : allFrom check 89 (-48) = true) by (vm_compute; reflexivity).
  pose proof (allFrom_spec check 89 (-48) q Hall ltac:(lia)) as Hc.
  unfold check in Hc.
  destruct (calculateBusinessTime (q * (15 * msPerMinute)) 11 0 (Some startDate)
              (Some 5) (Some 4) holidays) as [r|]; [|discriminate].
  apply Z.eqb_eq in Hc. congruence.
Qed.

(** The theorems above at sample inputs. *)

Lemma adjust_within_working_hours_witness :
  let d := civil 0 2025 8 4 9 30 0 in
  let holidays := ["2025-04-17"%string] in
  1 <= getDay 0 d <= 5
  /\ HolidaysService.isHoliday d holidays = false
  /\ 8 * 60 <= getHours 0 d * 60 + getMinutes 0 d < 12 * 60
  /\ adjustToPrevBusinessTime 0 0 d holidays
     = Some {| date := d; wasAdjusted := false; reason := "" |}.
Proof.
  intros d holidays.
  assert (Hd : 1 <= getDay 0 d <= 5) by (vm_compute; split; discriminate).
  assert (Hh : HolidaysService.isHoliday d holidays = false) by reflexivity.
  assert (Hm : 8 * 60 <= getHours 0 d * 60 + getMinutes 0 d < 12 * 60)
    by (vm_compute; split; [discriminate|reflexivity]).
  split; [exact Hd|]. split; [exact Hh|]. split; [exact Hm|].
  exact (adjust_within_working_hours 0 0%nat d holidays Hd Hh (or_introl Hm)).
Defined.

Lemma adjust_at_lunch_start_witness :
  let d := civil 0 2025 8 4 12 0 0 in
  isBusinessDay 0 d [] = true
  /\ getHours 0 d * 60 + getMinutes 0 d = lunchStart WORKING_HOURS * 60
  /\ exists r, adjustToPrevBusinessTime 0 0 d [] = Some r
               /\ date r = d /\ wasAdjusted r = true.
Proof.
  intros d.
  assert (Hb : isBusinessDay 0 d [] = true) by reflexivity.
  assert (Ht : getHours 0 d * 60 + getMinutes 0 d = lunchStart WORKING_HOURS * 60)
    by reflexivity.
  split; [exact Hb|]. split; [exact Ht|].
  exact (adjust_at_lunch_start 0 0%nat d [] Hb Ht).
Defined.

Lemma adjust_non_business_day_witness :
  let d := civil 0 2025 8 2 14 0 30 in
  isBusinessDay 0 d [] = false
  /\ (enoughFuel [] <= 6)%nat
  /\ exists (k : nat) (r : TimeAdjustment),
       (1 <= k)%nat /\
       isBusinessDay 0 (subDays 0 d (Z.of_nat k)) [] = true /\
       (forall j : nat, (j < k)%nat ->
          isBusinessDay 0 (subDays 0 d (Z.of_nat j)) [] = false) /\
       adjustToPrevBusinessTime 0 6 d [] = Some r /\
       wasAdjusted r = true /\
       date r = setHours 0 (setMinutes 0 (subDays 0 d (Z.of_nat k)) 0) 17 /\
       Day (LocalTime 0 (date r)) = Day (LocalTime 0 d) - Z.of_nat k /\
       getHours 0 (date r) = 17 /\ getMinutes 0 (date r) = 0 /\
       getSeconds 0 (date r) = getSeconds 0 d /\
       getMilliseconds 0 (date r) = getMilliseconds 0 d.
Proof.
  intros d.
  assert (Hb : isBusinessDay 0 d [] = false) by reflexivity.
  assert (Hf : (enoughFuel [] <= 6)%nat) by (vm_compute; apply le_n).
  split; [exact Hb|]. split; [exact Hf|].
  exact (adjust_non_business_day 0 6%nat d [] Hb Hf).
Defined.

Lemma calculateBusinessTime_holiday_scenario_witness :
  -48 <= -20 <= 40
  /\ (11 <= 11)%nat
  /\ calculateBusinessTime (-20 * (15 * msPerMinute)) 11 0
       (Some (instant 2025 4 10 15 0 0)) (Some 5) (Some 4)
       ["2025-04-17"%string; "2025-04-18"%string]
     = Some (instant 2025 4 21 20 0 0).
Proof.
  assert (Hq : -48 <= -20 <= 40) by lia.
  assert (Hf : (11 <= 11)%nat) by apply le_n.
  split; [exact Hq|]. split; [exact Hf|].
  exact (proj1 (calculateBusinessTime_holiday_scenario (-20) 11%nat 0 Hq Hf)).
Defined.

End BusinessTimeFacts.

(** *** src/holidays.ts *)

Module HolidaysFacts.
Import Js JsDouble FallbackHolidays HolidaysService Support ServiceSupport.
Import DoubleFacts.

Section Fetch.
Variable url : string.
Variable net : nat -> AxiosOutcome.
Variable random : nat -> Q.

Lemma retryTrace_S k :
  retryTrace url random (S k) =
  retryTrace url random k ++ [EvSleep (calculateBackoffDelay (S k) (random (S k))); EvGet url].
Proof.
  unfold retryTrace. rewrite seq_S, flat_map_app. cbn [flat_map]. rewrite app_nil_r.
  cbn [Nat.add]. rewrite app_comm_cons. reflexivity.
Qed.

Lemma gets_app t1 t2 : gets (t1 ++ t2) = (gets t1 + gets t2)%nat.
Proof. induction t1 as [|[q|u] t1 IH]; cbn; [reflexivity|exact IH|now rewrite IH]. Qed.

Lemma gets_retryTrace k : gets (retryTrace url random k) = S k.
Proof.
  induction k as [|k IH]; [reflexivity|].
  rewrite retryTrace_S, gets_app, IH. cbn. lia.
Qed.

Lemma fetchAttempts_exhausted : forall remaining attempt lastError trace,
  (forall j, (attempt <= j < attempt + remaining)%nat -> attemptFails (net j) = true) ->
  (0 < remaining)%nat ->
  fetchAttempts url net random remaining attempt lastError trace =
    (Throws (ThrownError (attemptError (net (attempt + remaining - 1)%nat))),
     trace ++ (if (0 <? attempt)%nat then [EvSleep (calculateBackoffDelay attempt (random attempt))] else [])
       ++ EvGet url :: flat_map (fun i => [EvSleep (calculateBackoffDelay i (random i)); EvGet url])
            (seq (S attempt) (remaining - 1))).
Proof.
  induction remaining as [|remaining IH]; intros attempt lastError trace Hfail Hpos; [lia|].
  cbn [fetchAttempts].
  pose proof (Hfail attempt ltac:(lia)) as Ha.
  set (trace1 := (if (0 <? attempt)%nat then trace ++ [EvSleep (calculateBackoffDelay attempt (random attempt))] else trace) ++ [EvGet url]).
  assert (Htr : trace1 = trace ++ (if (0 <? attempt)%nat then [EvSleep (calculateBackoffDelay attempt (random attempt))] else []) ++ [EvGet url]).
  { subst trace1. destruct (0 <? attempt)%nat; [rewrite <- app_assoc|]; reflexivity. }
  destruct remaining as [|remaining].
  - (* last attempt *)
    replace (attempt + 1 - 1)%nat with attempt by lia.
    cbn [Nat.sub seq flat_map].
    destruct (net attempt) as [[data|]|reason] eqn:En; cbn in Ha; try discriminate;
      cbn [fetchAttempts attemptError asError]; rewrite Htr; reflexivity.
  - assert (Hrest : forall e,
      fetchAttempts url net random (S remaining) (S attempt) e trace1 =
      (Throws (ThrownError (attemptError (net (attempt + S (S remaining) - 1)%nat))),
       trace ++ (if (0 <? attempt)%nat then [EvSleep (calculateBackoffDelay attempt (random attempt))] else [])
         ++ EvGet url :: flat_map (fun i => [EvSleep (calculateBackoffDelay i (random i)); EvGet url])
              (seq (S attempt) (S (S remaining) - 1)))).
    { intros e. rewrite IH; [|intros j Hj; apply Hfail; lia|lia].
      replace (S attempt + S remaining - 1)%nat with (attempt + S (S remaining) - 1)%nat by lia.
      f_equal. rewrite Htr. cbn [Nat.ltb Nat.leb].
      replace (S (S remaining) - 1)%nat with (S remaining) by lia.
      replace (S remaining - 1)%nat with remaining by lia.
      cbn [seq flat_map]. rewrite <- !app_assoc. cbn [app]. reflexivity. }
    destruct (net attempt) as [[data|]|reason] eqn:En; cbn in Ha; try discriminate; apply Hrest.
Qed.

Lemma fetchAttempts_success : forall remaining attempt lastError trace k data,
  (attempt <= k < attempt + remaining)%nat ->
  (forall j, (attempt <= j < k)%nat -> attemptFails (net j) = true) ->
  net k = Resolved (PArray data) ->
  fetchAttempts url net random remaining attempt lastError trace =
    (Returns data,
     trace ++ (if (0 <? attempt)%nat then [EvSleep (calculateBackoffDelay attempt (random attempt))] else [])
       ++ EvGet url :: flat_map (fun i => [EvSleep (calculateBackoffDelay i (random i)); EvGet url])
            (seq (S attempt) (k - attempt))).
Proof.
  induction remaining as [|remaining IH]; intros attempt lastError trace k data Hk Hfail Hok; [lia|].
  cbn [fetchAttempts].
  set (trace1 := (if (0 <? attempt)%nat then trace ++ [EvSleep (calculateBackoffDelay attempt (random attempt))] else trace) ++ [EvGet url]).
  assert (Htr : trace1 = trace ++ (if (0 <? attempt)%nat then [EvSleep (calculateBackoffDelay attempt (random attempt))] else []) ++ [EvGet url]).
  { subst trace1. destruct (0 <? attempt)%nat; [rewrite <- app_assoc|]; reflexivity. }
  destruct (Nat.eq_dec k attempt) as [->|Hne].
  - rewrite Hok. rewrite Htr. replace (attempt - attempt)%nat with 0%nat by lia. reflexivity.
  - pose proof (Hfail attempt ltac:(lia)) as Ha.
    assert (Hrest : forall e,
      fetchAttempts url net random remaining (S attempt) e trace1 =
      (Returns data,
       trace ++ (if (0 <? attempt)%nat then [EvSleep (calculateBackoffDelay attempt (random attempt))] else [])
         ++ EvGet url :: flat_map (fun i => [EvSleep (calculateBackoffDelay i (random i)); EvGet url])
              (seq (S attempt) (k - attempt)))).
    { intros e. rewrite (IH (S attempt) e trace1 k data); [|lia|intros j Hj; apply Hfail; lia|exact Hok].
      f_equal. rewrite Htr. cbn [Nat.ltb Nat.leb].
      replace (k - attempt)%nat with (S (k - S attempt)) by lia.
      cbn [seq flat_map]. rewrite <- !app_assoc. cbn [app]. reflexivity. }
    destruct (net attempt) as [[data'|]|reason] eqn:En; cbn in Ha; try discriminate; apply Hrest.
Qed.

Lemma fetchAttempts_gets : forall remaining attempt lastError trace,
  (gets (snd (fetchAttempts url net random remaining attempt lastError trace))
   <= gets trace + remaining)%nat.
Proof.
  induction remaining as [|remaining IH]; intros attempt lastError trace; cbn [fetchAttempts snd]; [lia|].
  set (trace1 := (if (0 <? attempt)%nat then trace ++ [EvSleep (calculateBackoffDelay attempt (random attempt))] else trace) ++ [EvGet url]).
  assert (Hg : gets trace1 = S (gets trace)).
  { subst trace1. destruct (0 <? attempt)%nat; rewrite !gets_app; cbn; lia. }
  destruct (net attempt) as [[data|]|reason]; cbn [snd];
    [lia | eapply Nat.le_trans; [apply IH|lia] | eapply Nat.le_trans; [apply IH|lia]].
Qed.

End Fetch.

(** The sum of a delay [e] and its jitter lies between [e] and [e * 1.1],
    both bounds included, when [e], the rounded tenth of [e] and [e * 1.1]
    are doubles. *)
Lemma delay_between (e r : Q) :
  (0 <= e)%Q ->
  (toDouble e == e)%Q ->
  (toDouble (toDouble (1 # 10) * e) == e * (1 # 10))%Q ->
  (toDouble (e + e * (1 # 10)) == e * (11 # 10))%Q ->
  (0 <= r)%Q -> (r < 1)%Q ->
  let jitter := toDouble (toDouble (r * toDouble (1 # 10)) * e) in
  (e <= toDouble (e + jitter))%Q /\ (toDouble (e + jitter) <= e * (11 # 10))%Q.
Proof.
  intros He Hde Hj Hs Hr0 Hr1 jitter.
  set (c := toDouble (1 # 10)) in *.
  assert (Hc : (0 <= c)%Q) by apply toDouble_nonneg.
  assert (Hcc : (toDouble c == c)%Q) by (vm_compute; reflexivity).
  assert (Hp : (toDouble (r * c) <= c)%Q).
  { rewrite <- Hcc at 2. apply toDouble_mono.
    rewrite <- (Qmult_1_l c) at 2. apply Qmult_le_compat_r; [lra|exact Hc]. }
  assert (Hj0 : (0 <= jitter)%Q) by apply toDouble_nonneg.
  assert (Hj1 : (jitter <= e * (1 # 10))%Q).
  { rewrite <- Hj. apply toDouble_mono. apply Qmult_le_compat_r; [exact Hp|exact He]. }
  split.
  - rewrite <- Hde at 1. apply toDouble_mono. lra.
  - rewrite <- Hs. apply toDouble_mono. lra.
Qed.

(** The delays of the three retries lie between 1000 * 2^(k-1) and
    1100 * 2^(k-1), both included, so below the cap. *)
Lemma backoff_retry_bounds (k : nat) (r : Q) :
  (1 <= k <= MAX_RETRIES)%nat -> (0 <= r)%Q -> (r < 1)%Q ->
  (inject_Z (1000 * 2 ^ (Z.of_nat k - 1)) <= calculateBackoffDelay k r)%Q
  /\ (calculateBackoffDelay k r <= inject_Z (1100 * 2 ^ (Z.of_nat k - 1)))%Q.
Proof.
  unfold MAX_RETRIES. intros Hk Hr0 Hr1.
  assert (Hcase : k = 1%nat \/ k = 2%nat \/ k = 3%nat) by lia.
  assert (G : forall e : Z,
            0 <= e <= 4000 ->
            (toDouble (inject_Z BASE_DELAY * 2 ^ (Z.of_nat k - 1)) == inject_Z e)%Q ->
            (toDouble (inject_Z e) == inject_Z e)%Q ->
            (toDouble (toDouble (1 # 10) * inject_Z e) == inject_Z e * (1 # 10))%Q ->
            (toDouble (inject_Z e + inject_Z e * (1 # 10)) == inject_Z e * (11 # 10))%Q ->
            (inject_Z e <= calculateBackoffDelay k r)%Q
            /\ (calculateBackoffDelay k r <= inject_Z e * (11 # 10))%Q).
  { intros e He H1 H2 H3 H4. unfold calculateBackoffDelay. cbv zeta. rewrite H1.
    assert (He0 : (0 <= inject_Z e)%Q) by (rewrite <- (Zle_Qle 0); lia).
    assert (He1 : (inject_Z e <= inject_Z 4000)%Q) by (rewrite <- Zle_Qle; lia).
    destruct (delay_between (inject_Z e) r He0 H2 H3 H4 Hr0 Hr1) as [A B].
    cbv zeta in A, B.
    rewrite Q.min_l by (unfold inject_Z in *; lra).
    split; assumption. }
  destruct Hcase as [-> | [-> | ->]].
  - destruct (G 1000 ltac:(lia) ltac:(vm_compute; reflexivity) ltac:(vm_compute; reflexivity)
                ltac:(vm_compute; reflexivity) ltac:(vm_compute; reflexivity)) as [A B].
    split; [exact A|]. eapply Qle_trans; [exact B|]. vm_compute. discriminate.
  - destruct (G 2000 ltac:(lia) ltac:(vm_compute; reflexivity) ltac:(vm_compute; reflexivity)
                ltac:(vm_compute; reflexivity) ltac:(vm_compute; reflexivity)) as [A B].
    split; [exact A|]. eapply Qle_trans; [exact B|]. vm_compute. discriminate.
  - destruct (G 4000 ltac:(lia) ltac:(vm_compute; reflexivity) ltac:(vm_compute; reflexivity)
                ltac:(vm_compute; reflexivity) ltac:(vm_compute; reflexivity)) as [A B].
    split; [exact A|]. eapply Qle_trans; [exact B|]. vm_compute. discriminate.
Qed.

(** The delay of a retry in the terms of the formula: the jitter is the
    relative excess of the delay over the exponential delay. *)
Lemma backoff_delay_formula (k : nat) (r : Q) :
  (1 <= k <= MAX_RETRIES)%nat -> (0 <= r)%Q -> (r < 1)%Q ->
  exists j : Q, (0 <= j)%Q /\ (j <= 1 # 10)%Q /\
    (calculateBackoffDelay k r ==
     Qmin (inject_Z 10000) (inject_Z 1000 * inject_Z (2 ^ (Z.of_nat k - 1)) * (1 + j)))%Q.
Proof.
  intros Hk Hr0 Hr1.
  destruct (backoff_retry_bounds k r Hk Hr0 Hr1) as [A B].
  set (e := (inject_Z 1000 * inject_Z (2 ^ (Z.of_nat k - 1)))%Q).
  assert (He : (1000 <= e)%Q /\ (e <= 4000)%Q).
  { subst e. unfold MAX_RETRIES in Hk.
    assert (Hcase : k = 1%nat \/ k = 2%nat \/ k = 3%nat) by lia.
    destruct Hcase as [-> | [-> | ->]]; vm_compute; split; discriminate. }
  assert (Ea : (inject_Z (1000 * 2 ^ (Z.of_nat k - 1)) == e)%Q)
    by (subst e; rewrite inject_Z_mult; reflexivity).
  assert (Eb : (inject_Z (1100 * 2 ^ (Z.of_nat k - 1)) == e * (11 # 10))%Q).
  { subst e. rewrite inject_Z_mult.
    assert (E : (inject_Z 1100 == inject_Z 1000 * (11 # 10))%Q) by reflexivity.
    rewrite E. ring. }
  rewrite Ea in A. rewrite Eb in B.
  set (x := calculateBackoffDelay k r) in *.
  exists (x / e - 1)%Q.
  assert (Hdiv : (e * (x / e) == x)%Q) by (apply Qmult_div_r; lra).
  assert (Hq : (1 <= x / e)%Q /\ (x / e <= 11 # 10)%Q).
  { split.
    - apply Qle_shift_div_l; lra.
    - apply Qle_shift_div_r; lra. }
  split; [lra|]. split; [lra|].
  assert (Hx : (e * (1 + (x / e - 1)) == x)%Q) by (rewrite <- Hdiv at 2; ring).
  rewrite Hx. rewrite Q.min_r; [reflexivity|]. unfold inject_Z. lra.
Qed.

Section Service.
Variable tz : Z.

Lemma cacheIsValid_later st t now :
  cacheIsValid st t = false -> t <= now -> cacheIsValid st now = false.
Proof.
  unfold cacheIsValid. destruct (cache st); [|reflexivity].
  intros H Hle. apply Z.ltb_ge in H. apply Z.ltb_ge. lia.
Qed.

Lemma getColombianHolidays_unfold st now year url net random :
  getColombianHolidays tz st now year url net random =
  if cacheIsValid st now then
    (Returns {| holidays := match cache st with Some c => c | None => [] end;
                status := HEALTHY; source := CACHE;
                lastUpdated := Some (lastFetch st) |}, st, [])
  else
    let st0 := snd (isCircuitOpen st now) in
    if fst (isCircuitOpen st now) then (Returns (getFallbackResult tz year), st0, [])
    else
      match fetchWithRetry url net random with
      | (Returns fetched, trace) =>
          (Returns {| holidays := fetched; status := HEALTHY; source := API;
                      lastUpdated := Some now |},
           {| cache := Some fetched; lastFetch := now;
              circuitBreaker := circuitBreaker (resetCircuitBreaker st0) |}, trace)
      | (Throws _, trace) =>
          (Returns (match cache st0 with
                    | Some cached =>
                        {| holidays := cached; status := DEGRADED; source := CACHE;
                           lastUpdated := Some (lastFetch st0) |}
                    | None => getFallbackResult tz year
                    end), recordFailure st0 now, trace)
      end.
Proof.
  unfold getColombianHolidays, cacheIsValid.
  destruct (cache st) as [c|] eqn:Ec.
  - destruct (now - lastFetch st <? CACHE_DURATION); [reflexivity|].
    destruct (isCircuitOpen st now) as [o st0]. cbn [fst snd].
    destruct o; [reflexivity|].
    destruct (fetchWithRetry url net random) as [[f|e] tr]; [reflexivity|].
    unfold recordFailure at 1. cbn [cache lastFetch].
    destruct (cache st0); reflexivity.
  - destruct (isCircuitOpen st now) as [o st0]. cbn [fst snd].
    destruct o; [reflexivity|].
    destruct (fetchWithRetry url net random) as [[f|e] tr]; [reflexivity|].
    unfold recordFailure at 1. cbn [cache lastFetch].
    destruct (cache st0); reflexivity.
Qed.

(** C2. A call made while a cache entry exists and [now - lastFetch] is
    below 24 hours returns the cached list as HEALTHY/CACHE with the fetch
    instant, performs no effect (no request, no sleep) and leaves the static
    fields as they were. *)
Theorem cache_hit st now year url net random cached :
  cache st = Some cached ->
  now - lastFetch st < CACHE_DURATION ->
  getColombianHolidays tz st now year url net random =
    (Returns {| holidays := cached; status := HEALTHY; source := CACHE;
                lastUpdated := Some (lastFetch st) |}, st, []).
Proof.
  intros Hc Hlt. unfold getColombianHolidays. rewrite Hc.
  apply Z.ltb_lt in Hlt. rewrite Hlt. reflexivity.
Qed.

Lemma isCircuitOpen_cache st now :
  cache (snd (isCircuitOpen st now)) = cache st /\
  lastFetch (snd (isCircuitOpen st now)) = lastFetch st /\
  failures (circuitBreaker (snd (isCircuitOpen st now))) = failures (circuitBreaker st) /\
  lastFailureTime (circuitBreaker (snd (isCircuitOpen st now))) = lastFailureTime (circuitBreaker st).
Proof.
  unfold isCircuitOpen. destruct (state (circuitBreaker st));
    try destruct (CIRCUIT_TIMEOUT <? now - lastFailureTime (circuitBreaker st));
    cbn; auto.
Qed.

Lemma getFallbackHolidays_range year :
  0 < year ->
  getFallbackHolidays tz (Some year) (Some (year + 1)) =
  filter (fun h => inYearRange (holidayYear tz h) year (year + 1))
    FALLBACK_COLOMBIAN_HOLIDAYS.
Proof.
  intros Hy. unfold getFallbackHolidays, falsy.
  destruct (year =? 0) eqn:E0; [apply Z.eqb_eq in E0; lia|].
  destruct (year + 1 =? 0) eqn:E1; [apply Z.eqb_eq in E1; lia|].
  cbn [andb orb]. apply filter_ext. intros h.
  unfold inYearRange, geNum, leNum. destruct (holidayYear tz h); reflexivity.
Qed.


Lemma fetchWithRetry_exhausted url net random :
  exhausted net ->
  fetchWithRetry url net random =
    (Throws (ThrownError (attemptError (net 3%nat))), retryTrace url random 3).
Proof.
  intros Hex. unfold fetchWithRetry.
  rewrite (fetchAttempts_exhausted url net random (MAX_RETRIES + 1) 0 None []);
    [reflexivity| |unfold MAX_RETRIES; lia].
  intros j Hj. apply Hex. unfold MAX_RETRIES in *. lia.
Qed.

(** The promise never rejects.  When the fetch is attempted and all
    attempts fail, the failure count is incremented, the failure time is
    set to [now] and the phase is OPEN once the count is at least 3; the
    result is the cache entry as DEGRADED/CACHE if there is one (even a stale
    one), otherwise what [getFallbackHolidays] keeps of the table by the test
    of [holidayYear], as FAILED/FALLBACK with no update time. *)
Lemma fetch_exhausted st now year url net random :
  (exists r st' trace,
     getColombianHolidays tz st now year url net random = (Returns r, st', trace))
  /\ (cacheIsValid st now = false ->
      fst (isCircuitOpen st now) = false ->
      exhausted net ->
      0 < year ->
      let st0 := snd (isCircuitOpen st now) in
      let count := failures (circuitBreaker st) + 1 in
      getColombianHolidays tz st now year url net random =
        (Returns
           match cache st with
           | Some cached =>
               {| holidays := cached; status := DEGRADED; source := CACHE;
                  lastUpdated := Some (lastFetch st) |}
           | None =>
               {| holidays :=
                    filter (fun h => inYearRange (holidayYear tz h) year (year + 1))
                      FALLBACK_COLOMBIAN_HOLIDAYS;
                  status := FAILED; source := FALLBACK; lastUpdated := None |}
           end,
         {| cache := cache st; lastFetch := lastFetch st;
            circuitBreaker :=
              {| failures := count;
                 lastFailureTime := now;
                 state := if MAX_FAILURES <=? count then OPEN
                          else state (circuitBreaker st0) |} |},
         retryTrace url random 3)).
Proof.
  split.
  - rewrite getColombianHolidays_unfold.
    destruct (cacheIsValid st now); [eauto|]. cbv zeta.
    destruct (fst (isCircuitOpen st now)); [eauto|].
    destruct (fetchWithRetry url net random) as [[f|e] tr]; eauto.
  - intros Hc Ho Hex Hy st0 count.
    rewrite getColombianHolidays_unfold, Hc. cbv zeta. rewrite Ho.
    rewrite (fetchWithRetry_exhausted url net random Hex).
    destruct (isCircuitOpen_cache st now) as (Ec & El & Ef & Et).
    fold st0 in Ec, El, Ef, Et. fold st0.
    unfold recordFailure. rewrite Ec, El, Ef.
    unfold getFallbackResult. rewrite (getFallbackHolidays_range year Hy).
    subst count. destruct (cache st); reflexivity.
Qed.

Lemma consistent_initial : Consistent initialState.
Proof.
  unfold Consistent, initialState, MAX_FAILURES; cbn. split; [left; split; [reflexivity|lia]|lia].
Qed.

Lemma consistent_step st now year url net random :
  Consistent st ->
  Consistent (snd (fst (getColombianHolidays tz st now year url net random))).
Proof.
  intros Hcons. pose proof Hcons as [Hph Hst]. rewrite getColombianHolidays_unfold.
  destruct (cacheIsValid st now) eqn:Hc; [exact Hcons|]. cbv zeta.
  destruct (isCircuitOpen_cache st now) as (Ec & El & Ef & Et).
  destruct (fst (isCircuitOpen st now)) eqn:Ho.
  { (* short circuit: the state is untouched *)
    cbn [fst snd]. clear - Hcons Ho. unfold isCircuitOpen in *.
    destruct (state (circuitBreaker st));
      try destruct (CIRCUIT_TIMEOUT <? now - lastFailureTime (circuitBreaker st));
      cbn [fst snd] in *; try discriminate; exact Hcons. }
  destruct (fetchWithRetry url net random) as [[f|e] tr]; cbn [fst snd].
  - unfold Consistent, resetCircuitBreaker, MAX_FAILURES; cbn. split; [left; split; [reflexivity|lia]|lia].
  - unfold Consistent, recordFailure. cbn [circuitBreaker failures lastFailureTime state].
    rewrite Ef. split.
    + unfold MAX_FAILURES in *.
      destruct (3 <=? failures (circuitBreaker st) + 1) eqn:E;
        [apply Z.leb_le in E; right; split; [reflexivity|lia]|apply Z.leb_gt in E].
      destruct Hph as [[Hs Hf]|[Hs Hf]]; [|lia].
      left. split; [|lia].
      unfold isCircuitOpen. rewrite Hs. exact Hs.
    + intros _. unfold cacheIsValid in *. cbn [cache lastFetch]. rewrite Ec, El. exact Hc.
Qed.

Lemma consistent_open_stale st now :
  Consistent st -> state (circuitBreaker st) = OPEN ->
  lastFailureTime (circuitBreaker st) <= now ->
  cacheIsValid st now = false.
Proof.
  intros [Hph Hst] Ho Hle.
  apply (cacheIsValid_later st (lastFailureTime (circuitBreaker st))); [|exact Hle].
  apply Hst. unfold MAX_FAILURES in *. destruct Hph as [[Hs _]|[_ Hf]]; [congruence|lia].
Qed.

End Service.

Lemma consistent_run tz calls : forall st,
  Consistent st -> Consistent (run tz st calls).
Proof.
  induction calls as [|c calls IH]; intros st Hst; [exact Hst|].
  cbn [run fold_left]. apply IH. apply consistent_step. exact Hst.
Qed.

(** C4, amended.  [fetchWithRetry] makes at most 4 requests; it returns the
    payload of the first attempt that does not fail, after that many
    retries, each preceded by its sleep; when all 4 attempts fail it throws
    the error of the last one; and the sleep before retry [k] (1, 2 or 3) is
    min(10000, 1000 * 2^(k-1) * (1 + j)) for a jitter [j] from 0 to 1/10,
    both included, whenever [Math.random] is in [0, 1): the delay is
    computed in doubles, and rounding can bring the jitter to a full
    tenth. *)
Theorem fetchWithRetry_attempts url net random :
  (gets (snd (fetchWithRetry url net random)) <= 4)%nat
  /\ (forall k data,
        (k <= 3)%nat ->
        (forall j, (j < k)%nat -> attemptFails (net j) = true) ->
        net k = Resolved (PArray data) ->
        fetchWithRetry url net random = (Returns data, retryTrace url random k))
  /\ (exhausted net ->
        fetchWithRetry url net random =
          (Throws (ThrownError (attemptError (net 3%nat))), retryTrace url random 3))
  /\ (forall k,
        (1 <= k <= MAX_RETRIES)%nat -> (0 <= random k)%Q -> (random k < 1)%Q ->
        exists j : Q, (0 <= j)%Q /\ (j <= 1 # 10)%Q /\
          (calculateBackoffDelay k (random k) ==
           Qmin (inject_Z 10000)
             (inject_Z 1000 * inject_Z (2 ^ (Z.of_nat k - 1)) * (1 + j)))%Q).
Proof.
  split; [|split; [|split]].
  - unfold fetchWithRetry.
    pose proof (fetchAttempts_gets url net random (MAX_RETRIES + 1) 0 None []) as H.
    exact H.
  - intros k data Hk Hfail Hok. unfold fetchWithRetry.
    rewrite (fetchAttempts_success url net random (MAX_RETRIES + 1) 0 None [] k data);
      [|unfold MAX_RETRIES; lia|intros j Hj; apply Hfail; lia|exact Hok].
    rewrite Nat.sub_0_r. reflexivity.
  - apply fetchWithRetry_exhausted.
  - intros k. apply backoff_delay_formula.
Qed.

(** C4 as stated fails when [Math.random()] is 1 - 2^-52, the largest value
    of a generator that draws 52 bits: the sleeps before the three retries
    are exactly 1100, 2200 and 4400 ms, a jitter of a full tenth, and no
    jitter below a tenth gives 1100 ms. *)
Lemma backoff_jitter_reaches_a_tenth :
  let r := (1 - (1 # 2) ^ 52)%Q in
  (0 <= r)%Q /\ (r < 1)%Q
  /\ (calculateBackoffDelay 1 r == inject_Z 1100)%Q
  /\ (calculateBackoffDelay 2 r == inject_Z 2200)%Q
  /\ (calculateBackoffDelay 3 r == inject_Z 4400)%Q
  /\ forall j : Q, (0 <= j)%Q -> (j < 1 # 10)%Q ->
       ~ (calculateBackoffDelay 1 r ==
          Qmin (inject_Z 10000) (inject_Z 1000 * inject_Z (2 ^ (Z.of_nat 1 - 1)) * (1 + j)))%Q.
Proof.
  cbv zeta.
  assert (E : (calculateBackoffDelay 1 (1 - (1 # 2) ^ 52) == inject_Z 1100)%Q)
    by (vm_compute; reflexivity).
  split; [vm_compute; discriminate|]. split; [vm_compute; reflexivity|].
  split; [exact E|]. split; [vm_compute; reflexivity|]. split; [vm_compute; reflexivity|].
  intros j Hj0 Hj1. rewrite E.
  change (inject_Z (2 ^ (Z.of_nat 1 - 1))) with 1%Q.
  intros Heq.
  pose proof (Q.le_min_r (inject_Z 10000) (inject_Z 1000 * 1 * (1 + j))) as Hm.
  rewrite <- Heq in Hm. unfold inject_Z in Hm. lra.
Qed.

Lemma failing_call_closed tz st c :
  cache st = None ->
  state (circuitBreaker st) = CLOSED ->
  exhausted (callNet c) ->
  stateAfter tz st c = recordFailure st (callNow c).
Proof.
  intros Hc Hs Hex. unfold stateAfter, call.
  rewrite getColombianHolidays_unfold.
  unfold cacheIsValid, isCircuitOpen. rewrite Hc, Hs. cbv zeta. cbn [fst snd].
  rewrite (fetchWithRetry_exhausted _ _ _ Hex). reflexivity.
Qed.

(** C1, amended.  From CLOSED with 0 failures, three calls in a row whose
    fetch is exhausted bring the count to 1, 2, 3 and the phase to OPEN on the
    third.  In every state reached from the start: a call whose fetch is
    exhausted increments the count, records [now], and leaves the phase OPEN
    exactly when the count is at least 3; while OPEN a call at most 5
    minutes after the last failure returns the fallback result with no
    effect; a call strictly more than 5 minutes after it goes to
    HALF_OPEN and runs one fetch cycle, ending CLOSED with count 0 on
    success, OPEN with the count incremented and the timer restarted on
    failure. *)
Theorem circuit_breaker_transitions tz :
  (state (circuitBreaker initialState) = CLOSED
   /\ failures (circuitBreaker initialState) = 0)
  /\ (forall c1 c2 c3,
        exhausted (callNet c1) -> exhausted (callNet c2) -> exhausted (callNet c3) ->
        let cb1 := circuitBreaker (run tz initialState [c1]) in
        let cb2 := circuitBreaker (run tz initialState [c1; c2]) in
        let cb3 := circuitBreaker (run tz initialState [c1; c2; c3]) in
        (failures cb1 = 1 /\ state cb1 = CLOSED /\ lastFailureTime cb1 = callNow c1)
        /\ (failures cb2 = 2 /\ state cb2 = CLOSED /\ lastFailureTime cb2 = callNow c2)
        /\ (failures cb3 = 3 /\ state cb3 = OPEN /\ lastFailureTime cb3 = callNow c3))
  /\ (forall calls now year url net random,
        let st := run tz initialState calls in
        let cb := circuitBreaker st in
        let out := getColombianHolidays tz st now year url net random in
        let cb' := circuitBreaker (snd (fst out)) in
        (cacheIsValid st now = false ->
         fst (isCircuitOpen st now) = false ->
         exhausted net ->
         failures cb' = failures cb + 1
         /\ lastFailureTime cb' = now
         /\ (state cb' = OPEN <-> MAX_FAILURES <= failures cb'))
        /\ (state cb = OPEN ->
            lastFailureTime cb <= now ->
            now - lastFailureTime cb <= CIRCUIT_TIMEOUT ->
            out = (Returns (getFallbackResult tz year), st, []))
        /\ (state cb = OPEN ->
            CIRCUIT_TIMEOUT < now - lastFailureTime cb ->
            state (circuitBreaker (snd (isCircuitOpen st now))) = HALF_OPEN
            /\ snd out = snd (fetchWithRetry url net random)
            /\ match fst (fetchWithRetry url net random) with
               | Returns _ => state cb' = CLOSED /\ failures cb' = 0
               | Throws _ =>
                   state cb' = OPEN
                   /\ failures cb' = failures cb + 1
                   /\ lastFailureTime cb' = now
               end)).
Proof.
  split; [split; reflexivity|]. split.
  - intros c1 c2 c3 H1 H2 H3.
    cbn [run fold_left].
    rewrite !failing_call_closed by (assumption || reflexivity).
    cbv zeta. cbn. repeat split; reflexivity.
  - intros calls now year url net random st cb out cb'.
    assert (Hcons : Consistent st) by (apply consistent_run, consistent_initial).
    pose proof Hcons as [Hph Hst].
    destruct (isCircuitOpen_cache st now) as (Ec & El & Ef & Et).
    fold cb in Hph, Hst, Ef, Et.
    split; [|split].
    + intros Hc Ho Hex. subst cb' out.
      rewrite getColombianHolidays_unfold, Hc. cbv zeta. rewrite Ho.
      rewrite (fetchWithRetry_exhausted url net random Hex). cbn [fst snd].
      unfold recordFailure. cbn [circuitBreaker failures lastFailureTime state].
      rewrite Ef. split; [reflexivity|]. split; [reflexivity|].
      unfold MAX_FAILURES in *.
      destruct (3 <=? failures cb + 1) eqn:E;
        [apply Z.leb_le in E; tauto|apply Z.leb_gt in E].
      destruct Hph as [[Hs Hf]|[Hs Hf]]; [|lia].
      unfold isCircuitOpen. fold cb. rewrite Hs. cbn [snd]. fold cb. rewrite Hs.
      split; [discriminate|lia].
    + intros Ho Hle Hto. subst out.
      rewrite getColombianHolidays_unfold.
      rewrite (consistent_open_stale st now Hcons Ho Hle). cbv zeta.
      unfold isCircuitOpen. fold cb. rewrite Ho.
      apply Z.ltb_ge in Hto. rewrite Hto. reflexivity.
    + intros Ho Hto.
      assert (Hle : lastFailureTime cb <= now) by (unfold CIRCUIT_TIMEOUT in Hto; lia).
      assert (Hopen : isCircuitOpen st now =
                (false, {| cache := cache st; lastFetch := lastFetch st;
                           circuitBreaker :=
                             {| failures := failures cb;
                                lastFailureTime := lastFailureTime cb;
                                state := HALF_OPEN |} |})).
      { unfold isCircuitOpen. fold cb. rewrite Ho.
        apply Z.ltb_lt in Hto. rewrite Hto. reflexivity. }
      subst cb' out.
      rewrite getColombianHolidays_unfold.
      rewrite (consistent_open_stale st now Hcons Ho Hle). cbv zeta.
      rewrite Hopen. cbn [fst snd circuitBreaker state].
      split; [reflexivity|].
      destruct (fetchWithRetry url net random) as [[f|e] tr]; cbn [fst snd].
      * split; [reflexivity|]. split; reflexivity.
      * split; [reflexivity|].
        unfold recordFailure. cbn [circuitBreaker failures lastFailureTime state].
        unfold MAX_FAILURES in *.
        destruct Hph as [[Hs Hf]|[Hs Hf]]; [congruence|].
        destruct (3 <=? failures cb + 1) eqn:E; [|apply Z.leb_gt in E; lia].
        repeat split; reflexivity.
Qed.

(** C3. Evaluation at a failing input.  In a process whose zone is UTC-5,
    with no cache and the circuit CLOSED, a call on 16 June 2025 whose four
    attempts fail records the failure and resolves with FAILED/FALLBACK and
    no update time, but its list is not the table filtered to the years
    2025 and 2026: the entry "2025-01-01" of the table is missing.
    [new Date("2025-01-01")] is midnight UTC, which is 19:00 of 31 December
    2024 in the zone, so [getFullYear] gives 2024 for it.  In a UTC process
    the same call returns the entry. *)
Theorem fallback_omits_new_year_west_of_utc :
  let now := instant 2025 6 16 15 0 0 in
  let west := DateFnsTz.bogotaOffset in
  let callIn := fun tz =>
    getColombianHolidays tz initialState now (getFullYear tz now) "u"
      alwaysRejects (fun _ => 0%Q) in
  (getFullYear west now = 2025 /\ exhausted alwaysRejects)
  /\ fst (callIn west) =
       (Returns {| holidays :=
                     ["2025-01-06"; "2025-03-24"; "2025-04-17"; "2025-04-18";
                      "2025-05-01"; "2025-06-02"; "2025-06-23"; "2025-06-30";
                      "2025-06-30"; "2025-07-20"; "2025-08-07"; "2025-08-18";
                      "2025-10-13"; "2025-11-03"; "2025-11-17"; "2025-12-08";
                      "2025-12-25"]%string;
                   status := FAILED; source := FALLBACK; lastUpdated := None |},
        {| cache := None; lastFetch := 0;
           circuitBreaker :=
             {| failures := 1; lastFailureTime := now; state := CLOSED |} |})
  /\ (In "2025-01-01"%string FALLBACK_COLOMBIAN_HOLIDAYS
      /\ printedYear "2025-01-01" = Some 2025
      /\ holidayYear west "2025-01-01" = Some 2024)
  /\ (forall r, fst (fst (callIn west)) = Returns r ->
        ~ In "2025-01-01"%string (holidays r))
  /\ (exists r, fst (fst (callIn 0)) = Returns r
        /\ In "2025-01-01"%string (holidays r)).
Proof.
  cbv zeta.
  split; [split; [vm_compute; reflexivity|intros j _; reflexivity]|].
  assert (E : fst (getColombianHolidays DateFnsTz.bogotaOffset initialState
                     (instant 2025 6 16 15 0 0)
                     (getFullYear DateFnsTz.bogotaOffset (instant 2025 6 16 15 0 0)) "u"
                     alwaysRejects (fun _ => 0%Q)) =
       (Returns {| holidays :=
                     ["2025-01-06"; "2025-03-24"; "2025-04-17"; "2025-04-18";
                      "2025-05-01"; "2025-06-02"; "2025-06-23"; "2025-06-30";
                      "2025-06-30"; "2025-07-20"; "2025-08-07"; "2025-08-18";
                      "2025-10-13"; "2025-11-03"; "2025-11-17"; "2025-12-08";
                      "2025-12-25"]%string;
                   status := FAILED; source := FALLBACK; lastUpdated := None |},
        {| cache := None; lastFetch := 0;
           circuitBreaker :=
             {| failures := 1; lastFailureTime := instant 2025 6 16 15 0 0;
                state := CLOSED |} |})) by (vm_compute; reflexivity).
  split; [exact E|].
  split; [split; [vm_compute; tauto|split; vm_compute; reflexivity]|].
  split.
  - intros r Hr. rewrite E in Hr. cbn [fst] in Hr. injection Hr as <-. cbn [holidays].
    intros Hin. repeat (destruct Hin as [Hin|Hin]; [discriminate Hin|]). exact Hin.
  - eexists. split; [vm_compute; reflexivity|]. left. reflexivity.
Qed.

(** C1 as stated fails at exactly 5 minutes: the circuit is still OPEN and
    no request is made, even though the source would answer. *)
Lemma circuit_open_at_exactly_five_minutes :
  let failing := fun _ : nat => Rejected ThrownOther in
  let answering := fun _ : nat => Resolved (PArray ["2025-01-01"%string]) in
  let c := fun t net =>
    {| callNow := t; callYear := 2025; callUrl := "u"%string; callNet := net;
       callRandom := fun _ => 0%Q |} in
  let st := run 0 initialState [c 0 failing; c 0 failing; c 0 failing] in
  state (circuitBreaker st) = OPEN
  /\ 300000 - lastFailureTime (circuitBreaker st) = 5 * 60 * 1000
  /\ snd (call 0 st (c 300000 answering)) = []
  /\ state (circuitBreaker (stateAfter 0 st (c 300000 answering))) = OPEN.
Proof. vm_compute. repeat split; reflexivity. Qed.

(** The theorems above at sample inputs. *)

Lemma cache_hit_witness :
  cache sampleState = Some ["2025-01-01"%string]
  /\ 5000 - lastFetch sampleState < CACHE_DURATION
  /\ getColombianHolidays 0 sampleState 5000 2025 "u" alwaysRejects (fun _ => 0%Q)
     = (Returns {| holidays := ["2025-01-01"%string]; status := HEALTHY;
                   source := CACHE; lastUpdated := Some 1000 |}, sampleState, []).
Proof.
  assert (Hc : cache sampleState = Some ["2025-01-01"%string]) by reflexivity.
  assert (Hl : 5000 - lastFetch sampleState < CACHE_DURATION) by reflexivity.
  split; [exact Hc|]. split; [exact Hl|].
  exact (cache_hit 0 sampleState 5000 2025 "u"%string alwaysRejects (fun _ => 0%Q) _ Hc Hl).
Defined.

Lemma alwaysRejects_exhausted : exhausted alwaysRejects.
Proof. intros j _. reflexivity. Defined.

Lemma fetch_exhausted_witness :
  let now := 1000 + CACHE_DURATION in
  cacheIsValid sampleState now = false
  /\ fst (isCircuitOpen sampleState now) = false
  /\ exhausted alwaysRejects
  /\ 0 < 2025
  /\ getColombianHolidays 0 sampleState now 2025 "u" alwaysRejects (fun _ => 0%Q)
     = (Returns {| holidays := ["2025-01-01"%string]; status := DEGRADED;
                   source := CACHE; lastUpdated := Some 1000 |},
        {| cache := Some ["2025-01-01"%string]; lastFetch := 1000;
           circuitBreaker :=
             {| failures := 1; lastFailureTime := now; state := CLOSED |} |},
        retryTrace "u" (fun _ => 0%Q) 3).
Proof.
  intros now.
  assert (Hc : cacheIsValid sampleState now = false) by reflexivity.
  assert (Ho : fst (isCircuitOpen sampleState now) = false) by reflexivity.
  assert (Hy : 0 < 2025) by reflexivity.
  split; [exact Hc|]. split; [exact Ho|]. split; [exact alwaysRejects_exhausted|].
  split; [exact Hy|].
  exact (proj2 (fetch_exhausted 0 sampleState now 2025 "u"%string alwaysRejects
                  (fun _ => 0%Q)) Hc Ho alwaysRejects_exhausted Hy).
Defined.

Lemma fetchWithRetry_attempts_witness :
  (forall j, (j < 1)%nat -> attemptFails (secondAnswers j) = true)
  /\ secondAnswers 1%nat = Resolved (PArray ["2025-01-01"%string])
  /\ fetchWithRetry "u" secondAnswers (fun _ => 1 # 2)
     = (Returns ["2025-01-01"%string],
        [EvGet "u"; EvSleep (calculateBackoffDelay 1 (1 # 2)); EvGet "u"])
  /\ exhausted alwaysRejects
  /\ fetchWithRetry "u" alwaysRejects (fun _ => 1 # 2)
     = (Throws (ThrownError {| message := "Unknown error" |}),
        retryTrace "u" (fun _ => 1 # 2) 3)
  /\ (1 <= 1 <= MAX_RETRIES)%nat /\ (0 <= 1 # 2)%Q /\ (1 # 2 < 1)%Q
  /\ exists j : Q, (0 <= j)%Q /\ (j <= 1 # 10)%Q /\
       (calculateBackoffDelay 1 (1 # 2) ==
        Qmin (inject_Z 10000) (inject_Z 1000 * inject_Z (2 ^ (Z.of_nat 1 - 1)) * (1 + j)))%Q.
Proof.
  assert (Hf : forall j, (j < 1)%nat -> attemptFails (secondAnswers j) = true).
  { intros [|j] Hj; [reflexivity|]. exfalso. inversion Hj as [|m Hm]. inversion Hm. }
  assert (Hk : (1 <= 1 <= MAX_RETRIES)%nat) by (unfold MAX_RETRIES; lia).
  assert (Hr0 : (0 <= 1 # 2)%Q) by (vm_compute; discriminate).
  assert (Hr1 : (1 # 2 < 1)%Q) by (vm_compute; reflexivity).
  split; [exact Hf|]. split; [reflexivity|].
  split.
  - exact (proj1 (proj2 (fetchWithRetry_attempts "u"%string secondAnswers (fun _ => 1 # 2)))
             1%nat _ (le_S _ _ (le_S _ _ (le_n 1))) Hf eq_refl).
  - split; [exact alwaysRejects_exhausted|].
    split.
    + exact (proj1 (proj2 (proj2 (fetchWithRetry_attempts "u"%string alwaysRejects (fun _ => 1 # 2))))
               alwaysRejects_exhausted).
    + split; [exact Hk|]. split; [exact Hr0|]. split; [exact Hr1|].
      exact (proj2 (proj2 (proj2 (fetchWithRetry_attempts "u"%string alwaysRejects (fun _ => 1 # 2))))
               1%nat Hk Hr0 Hr1).
Defined.

Lemma circuit_breaker_transitions_witness :
  exhausted (callNet (failingCall 10))
  /\ (let cb1 := circuitBreaker (run 0 initialState [failingCall 10]) in
      let cb2 := circuitBreaker (run 0 initialState [failingCall 10; failingCall 20]) in
      let cb3 := circuitBreaker
                   (run 0 initialState [failingCall 10; failingCall 20; failingCall 30]) in
      (failures cb1 = 1 /\ state cb1 = CLOSED /\ lastFailureTime cb1 = 10)
      /\ (failures cb2 = 2 /\ state cb2 = CLOSED /\ lastFailureTime cb2 = 20)
      /\ (failures cb3 = 3 /\ state cb3 = OPEN /\ lastFailureTime cb3 = 30)).
Proof.
  split; [exact alwaysRejects_exhausted|].
  exact (proj1 (proj2 (circuit_breaker_transitions 0))
           (failingCall 10) (failingCall 20) (failingCall 30)
           alwaysRejects_exhausted alwaysRejects_exhausted alwaysRejects_exhausted).
Defined.

End HolidaysFacts.

(** *** src/businessTime.ts: what the calculator returns *)

Module BusinessTimeExtra.
Import Js DateFns DateFnsTz FallbackHolidays BusinessTimeCalculator.
Import JsFacts Support CalendarFacts BusinessTimeFacts.

Section LocalZone.
Variable tz : Z.

(** Setting the clock back to a full hour of the same day does not move a
    date forward; on an earlier day it moves it back. *)
Lemma snap_not_later d h :
  0 <= h < 24 -> h * 60 <= getHours tz d * 60 + getMinutes tz d ->
  setHours tz (setMinutes tz d 0) h <= d.
Proof. intros Hh. fields. intros. Z.div_mod_to_equations. lia. Qed.

Lemma snap_prev_day_earlier d k h :
  0 <= h < 24 -> 1 <= k ->
  setHours tz (setMinutes tz (subDays tz d k) 0) h < d.
Proof. intros Hh Hk. rewrite subDays_shift. fields. Z.div_mod_to_equations. lia. Qed.

Lemma getDay_range d : 0 <= getDay tz d < 7.
Proof. unfold getDay, WeekDay. apply Z.mod_pos_bound. lia. Qed.

Lemma getDay_same_day d1 d2 :
  Day (LocalTime tz d1) = Day (LocalTime tz d2) -> getDay tz d1 = getDay tz d2.
Proof. unfold getDay, WeekDay. intros ->. reflexivity. Qed.

Lemma isBusinessDay_weekday d H :
  isBusinessDay tz d H = true -> 1 <= getDay tz d <= 5.
Proof.
  intros Hb. apply isBusinessDay_true in Hb. destruct Hb as (H0 & H6 & _).
  pose proof (getDay_range d). lia.
Qed.

Lemma minutes_range d : 0 <= getHours tz d * 60 + getMinutes tz d < 1440.
Proof. fields. Z.div_mod_to_equations. lia. Qed.

(** The five ways the adjustment ends, each with its result. *)
Lemma adjust_cases fuel d H :
  (enoughFuel H <= fuel)%nat ->
  let m := getHours tz d * 60 + getMinutes tz d in
  (isBusinessDay tz d H = false /\
   exists k : nat, (1 <= k)%nat /\
     isBusinessDay tz (subDays tz d (Z.of_nat k)) H = true /\
     adjustToPrevBusinessTime tz fuel d H =
       Some {| date := setHours tz (setMinutes tz (subDays tz d (Z.of_nat k)) 0) 17;
               wasAdjusted := true;
               reason := "Moved to next business day (weekend/holiday)" |})
  \/ (isBusinessDay tz d H = true /\ m < 8 * 60 /\
      exists k : nat,
        let y := setHours tz (setMinutes tz (subDays tz d 1) 0) 17 in
        isBusinessDay tz (subDays tz y (Z.of_nat k)) H = true /\
        adjustToPrevBusinessTime tz fuel d H =
          Some {| date := subDays tz y (Z.of_nat k); wasAdjusted := true;
                  reason := "Adjusted to previoius business day end (5:00 PM)" |})
  \/ (isBusinessDay tz d H = true /\ 12 * 60 <= m < 13 * 60 /\
      adjustToPrevBusinessTime tz fuel d H =
        Some {| date := setHours tz (setMinutes tz d 0) 12; wasAdjusted := true;
                reason := "Adjusted to start of lunch break (12:00 PM)" |})
  \/ (isBusinessDay tz d H = true /\ 17 * 60 <= m /\
      adjustToPrevBusinessTime tz fuel d H =
        Some {| date := setHours tz (setMinutes tz d 0) 17; wasAdjusted := true;
                reason := "Adjusted to end of business day (after hours)" |})
  \/ (isBusinessDay tz d H = true /\
      (8 * 60 <= m < 12 * 60 \/ 13 * 60 <= m < 17 * 60) /\
      adjustToPrevBusinessTime tz fuel d H =
        Some {| date := d; wasAdjusted := false; reason := "" |}).
Proof.
  intros Hf m.
  destruct (isBusinessDay tz d H) eqn:Hb.
  - right.
    destruct (stepBack_result tz d H fuel Hf) as (k0 & Hw0 & _).
    rewrite adjustToPrevBusinessTime_unfold, Hw0, Hb. cbv zeta. fold m.
    destruct (m <? 8 * 60) eqn:E1.
    { left. apply Z.ltb_lt in E1. split; [reflexivity|]. split; [exact E1|].
      destruct (stepBack_result tz (setHours tz (setMinutes tz (subDays tz d 1) 0) 17)
                  H fuel Hf) as (k & Hw & Hk & _).
      exists k. cbv zeta. split; [exact Hk|]. rewrite Hw. reflexivity. }
    apply Z.ltb_ge in E1. right.
    destruct ((12 * 60 <=? m) && (m <? 13 * 60)) eqn:E2.
    { left. apply andb_true_iff in E2. destruct E2 as [A B].
      apply Z.leb_le in A. apply Z.ltb_lt in B. repeat split; auto. }
    right.
    destruct (17 * 60 <=? m) eqn:E3.
    { left. apply Z.leb_le in E3. repeat split; auto. }
    right. apply Z.leb_gt in E3. apply andb_false_iff in E2.
    split; [reflexivity|]. split; [|reflexivity].
    destruct E2 as [E2|E2]; [apply Z.leb_gt in E2|apply Z.ltb_ge in E2]; lia.
  - left. split; [reflexivity|].
    destruct (adjust_moved_back tz fuel d H Hb Hf) as (k & Hk & Hbk & _ & Hr).
    exists k. repeat split; assumption.
Qed.

(** Where the adjustment lands, whichever way it ends. *)
Lemma adjust_result_facts fuel d H :
  (enoughFuel H <= fuel)%nat ->
  exists r,
    adjustToPrevBusinessTime tz fuel d H = Some r
    /\ date r <= d
    /\ 1 <= getDay tz (date r) <= 5
    /\ (8 * 60 <= getHours tz (date r) * 60 + getMinutes tz (date r) <= 12 * 60
        \/ 13 * 60 <= getHours tz (date r) * 60 + getMinutes tz (date r) <= 17 * 60).
Proof.
  intros Hf.
  destruct (adjust_cases fuel d H Hf)
    as [(Hb & k & Hk & Hbk & Hr)
       |[(Hb & Hm & k & Hbk & Hr)
        |[(Hb & Hm & Hr)|[(Hb & Hm & Hr)|(Hb & Hm & Hr)]]]];
    eexists; (split; [exact Hr|]); cbn [date].
  - destruct (fields_after_snap tz (subDays tz d (Z.of_nat k)) 17 ltac:(lia))
      as (A1 & A2 & A3 & _).
    split; [apply Z.lt_le_incl, snap_prev_day_earlier; lia|].
    split; [|rewrite A2, A3; lia].
    rewrite (getDay_same_day _ _ A1). apply (isBusinessDay_weekday _ H Hbk).
  - set (y := setHours tz (setMinutes tz (subDays tz d 1) 0) 17) in *.
    destruct (fields_after_snap tz (subDays tz d 1) 17 ltac:(lia)) as (_ & A2 & A3 & _).
    destruct (subDays_fields tz y (Z.of_nat k)) as (_ & B2 & B3 & _).
    fold y in A2, A3.
    split.
    + rewrite subDays_shift.
      pose proof (snap_prev_day_earlier d 1 17 ltac:(lia) ltac:(lia)) as Hy.
      fold y in Hy. unfold msPerDay. lia.
    + split; [apply (isBusinessDay_weekday _ H Hbk)|].
      rewrite B2, B3, A2, A3. lia.
  - destruct (fields_after_snap tz d 12 ltac:(lia)) as (A1 & A2 & A3 & _).
    split; [apply snap_not_later; lia|].
    split; [|rewrite A2, A3; lia].
    rewrite (getDay_same_day _ _ A1). apply (isBusinessDay_weekday _ H Hb).
  - destruct (fields_after_snap tz d 17 ltac:(lia)) as (A1 & A2 & A3 & _).
    split; [apply snap_not_later; lia|].
    split; [|rewrite A2, A3; lia].
    rewrite (getDay_same_day _ _ A1). apply (isBusinessDay_weekday _ H Hb).
  - split; [lia|]. split; [apply (isBusinessDay_weekday _ H Hb)|lia].
Qed.

(** X3. [adjustToPrevBusinessTime] reports [wasAdjusted = false] exactly
    when its input is on a business day within working hours, and it then
    returns the input itself. *)
Theorem adjust_unadjusted_iff fuel d H r :
  (enoughFuel H <= fuel)%nat ->
  adjustToPrevBusinessTime tz fuel d H = Some r ->
  (wasAdjusted r = false <->
     isBusinessDay tz d H = true /\ isWithinWorkingHours tz d = true)
  /\ (wasAdjusted r = false -> date r = d).
Proof.
  intros Hf Hr0.
  destruct (adjust_cases fuel d H Hf)
    as [(Hb & k & Hk & Hbk & Hr)
       |[(Hb & Hm & k & Hbk & Hr)
        |[(Hb & Hm & Hr)|[(Hb & Hm & Hr)|(Hb & Hm & Hr)]]]];
    rewrite Hr in Hr0; injection Hr0 as <-; cbn [date wasAdjusted];
    rewrite isWithinWorkingHours_true.
  - rewrite Hb. split; [split; [discriminate|intros [? _]; discriminate]|discriminate].
  - split; [split; [discriminate|intros [_ ?]; lia]|discriminate].
  - split; [split; [discriminate|intros [_ ?]; lia]|discriminate].
  - split; [split; [discriminate|intros [_ ?]; lia]|discriminate].
  - split; [split; auto|reflexivity].
Qed.

(** Minutes and days added to a date, read on its local fields. *)
Lemma addMinutes_fields d m :
  0 <= m -> getHours tz d * 60 + getMinutes tz d + m < 1440 ->
  Day (LocalTime tz (addMinutes d m)) = Day (LocalTime tz d)
  /\ getHours tz (addMinutes d m) * 60 + getMinutes tz (addMinutes d m)
     = getHours tz d * 60 + getMinutes tz d + m.
Proof. intros Hm. fields. intros. split; Z.div_mod_to_equations; lia. Qed.

Lemma addDays_fields d n :
  Day (LocalTime tz (addDays tz d n)) = Day (LocalTime tz d) + n /\
  getHours tz (addDays tz d n) = getHours tz d /\
  getMinutes tz (addDays tz d n) = getMinutes tz d.
Proof. rewrite addDays_shift. fields. repeat split; Z.div_mod_to_equations; lia. Qed.

Lemma addBusinessHoursLoop_zero fuel H x : addBusinessHoursLoop tz fuel H x 0 = Some x.
Proof. destruct fuel; reflexivity. Qed.

(** One iteration of the loop, from the date [c] the adjustment returns. *)
Lemma addBusinessHoursLoop_step fuel H d a rem :
  0 < rem ->
  adjustToPrevBusinessTime tz (S fuel) d H = Some a ->
  let c := date a in
  let t := getHours tz c * 60 + getMinutes tz c in
  let untilLunch := if t <? 12 * 60 then 12 * 60 - t else 0 in
  let afterLunch := if t <? 17 * 60 then 17 * 60 - Z.max t (13 * 60) else 0 in
  addBusinessHoursLoop tz (S fuel) H d rem =
  if rem <=? untilLunch + afterLunch then
    Some (if rem <=? untilLunch then addMinutes c rem
          else addMinutes (setHours tz (setMinutes tz (addMinutes c untilLunch) 0) 13)
                 (rem - untilLunch))
  else
    match whileNotBusinessDay tz (S fuel) (fun d => addDays tz d 1) H
            (setHours tz (setMinutes tz (addDays tz c 1) 0) 8) with
    | None => None
    | Some e => addBusinessHoursLoop tz fuel H e (rem - (untilLunch + afterLunch))
    end.
Proof.
  intros Hrem Ha c t untilLunch afterLunch.
  cbn [addBusinessHoursLoop].
  apply Z.ltb_lt in Hrem. rewrite Hrem, Ha.
  cbn [start end_ lunchStart lunchEnd WORKING_HOURS].
  fold c. fold t. fold untilLunch. fold afterLunch.
  destruct (rem <=? untilLunch + afterLunch); [|reflexivity].
  apply addBusinessHoursLoop_zero.
Qed.

(** The search of [addBusinessHours] for the next business day ends on the
    first business day from its start on. *)
Lemma stepForward_result d H fuel :
  (enoughFuel H <= fuel)%nat ->
  exists k : nat,
    whileNotBusinessDay tz fuel (fun d => addDays tz d 1) H d
      = Some (addDays tz d (Z.of_nat k)) /\
    isBusinessDay tz (addDays tz d (Z.of_nat k)) H = true /\
    forall j : nat, (j < k)%nat -> isBusinessDay tz (addDays tz d (Z.of_nat j)) H = false.
Proof.
  intros Hf.
  destruct (business_day_within tz 1 d H ltac:(auto)) as (k & Hk & Hb).
  destruct (whileNotBusinessDay_least tz 1 (fun d => addDays tz d 1) H
              ltac:(intros; cbv beta; rewrite addDays_shift; lia) fuel d k
              ltac:(unfold enoughFuel in Hf; lia) Hb)
    as (k' & _ & Hw & Hb' & Hmin).
  exists k'. rewrite addDays_shift.
  replace (d + Z.of_nat k' * msPerDay) with (d + 1 * Z.of_nat k' * msPerDay) by lia.
  split; [exact Hw|]. split; [exact Hb'|].
  intros j Hj. rewrite addDays_shift. rewrite <- (Hmin j Hj). f_equal. lia.
Qed.

(** The date reached when the remaining minutes fit in the current day. *)
Lemma finish_today_window c rem :
  let t := getHours tz c * 60 + getMinutes tz c in
  let untilLunch := if t <? 12 * 60 then 12 * 60 - t else 0 in
  let afterLunch := if t <? 17 * 60 then 17 * 60 - Z.max t (13 * 60) else 0 in
  (8 * 60 <= t <= 12 * 60 \/ 13 * 60 <= t <= 17 * 60) ->
  0 < rem <= untilLunch + afterLunch ->
  let r := if rem <=? untilLunch then addMinutes c rem
           else addMinutes (setHours tz (setMinutes tz (addMinutes c untilLunch) 0) 13)
                  (rem - untilLunch) in
  Day (LocalTime tz r) = Day (LocalTime tz c)
  /\ (8 * 60 < getHours tz r * 60 + getMinutes tz r <= 12 * 60
      \/ 13 * 60 < getHours tz r * 60 + getMinutes tz r <= 17 * 60).
Proof.
  intros t untilLunch afterLunch Ht Hrem r.
  assert (Hu : 0 <= untilLunch /\ t + untilLunch < 1440).
  { subst untilLunch. destruct (t <? 12 * 60) eqn:E;
      [apply Z.ltb_lt in E|apply Z.ltb_ge in E]; lia. }
  subst r. destruct (rem <=? untilLunch) eqn:E1.
  - apply Z.leb_le in E1.
    assert (Hlt : t < 12 * 60).
    { subst untilLunch. destruct (t <? 12 * 60) eqn:E; [apply Z.ltb_lt in E; lia|lia]. }
    assert (Hue : untilLunch = 12 * 60 - t).
    { subst untilLunch. apply Z.ltb_lt in Hlt. rewrite Hlt. reflexivity. }
    destruct (addMinutes_fields c rem ltac:(lia) ltac:(fold t; lia)) as (A1 & A2).
    split; [exact A1|]. rewrite A2. fold t. lia.
  - apply Z.leb_gt in E1.
    destruct (addMinutes_fields c untilLunch ltac:(lia) ltac:(fold t; lia)) as (A1 & A2).
    destruct (fields_after_snap tz (addMinutes c untilLunch) 13 ltac:(lia))
      as (B1 & B2 & B3 & _).
    set (x := setHours tz (setMinutes tz (addMinutes c untilLunch) 0) 13) in *.
    assert (Ha : rem - untilLunch <= 4 * 60).
    { subst untilLunch afterLunch.
      destruct (t <? 12 * 60) eqn:Ea; destruct (t <? 17 * 60) eqn:Eb;
        try apply Z.ltb_lt in Ea; try apply Z.ltb_ge in Ea;
        try apply Z.ltb_lt in Eb; try apply Z.ltb_ge in Eb; lia. }
    destruct (addMinutes_fields x (rem - untilLunch) ltac:(lia) ltac:(rewrite B2, B3; lia))
      as (C1 & C2).
    split; [congruence|]. rewrite C2, B2, B3. lia.
Qed.

(** [addBusinessDays] walks over the days that are not business days and
    counts the first one that is. *)
Lemma addBusinessDaysLoop_next H : forall (j : nat) fuel d n,
  0 < n -> (1 <= j)%nat ->
  (forall i : nat, (1 <= i < j)%nat ->
     isBusinessDay tz (d + Z.of_nat i * msPerDay) H = false) ->
  isBusinessDay tz (d + Z.of_nat j * msPerDay) H = true ->
  addBusinessDaysLoop tz (j + fuel) H d n =
  addBusinessDaysLoop tz fuel H (d + Z.of_nat j * msPerDay) (n - 1).
Proof.
  induction j as [|j IH]; intros fuel d n Hn Hj Hno Hyes; [lia|].
  cbn [Nat.add addBusinessDaysLoop].
  apply Z.ltb_lt in Hn. rewrite Hn. apply Z.ltb_lt in Hn.
  rewrite addDays_shift.
  destruct j as [|j].
  - replace (d + Z.of_nat 1 * msPerDay) with (d + 1 * msPerDay) in * by lia.
    rewrite Hyes. reflexivity.
  - pose proof (Hno 1%nat ltac:(lia)) as H1.
    replace (d + Z.of_nat 1 * msPerDay) with (d + 1 * msPerDay) in H1 by lia.
    rewrite H1.
    rewrite (IH fuel (d + 1 * msPerDay) n Hn ltac:(lia)).
    + f_equal. lia.
    + intros i Hi. rewrite <- (Hno (S i) ltac:(lia)). f_equal. lia.
    + rewrite <- Hyes. f_equal. lia.
Qed.

(** A business day follows within [enoughFuel H + 1] days. *)
Lemma next_business_day d H :
  exists j : nat, (1 <= j <= enoughFuel H + 1)%nat /\
    isBusinessDay tz (d + Z.of_nat j * msPerDay) H = true /\
    forall i : nat, (1 <= i < j)%nat ->
      isBusinessDay tz (d + Z.of_nat i * msPerDay) H = false.
Proof.
  destruct (business_day_within tz 1 (d + msPerDay) H ltac:(auto)) as (k & Hk & Hb).
  destruct (whileNotBusinessDay_least tz 1 (fun x => x + 1 * msPerDay) H
              ltac:(reflexivity) k (d + msPerDay) k (le_n k) Hb)
    as (k' & Hk' & _ & Hb' & Hmin).
  exists (S k'). unfold enoughFuel. split; [lia|]. split.
  - rewrite <- Hb'. f_equal. lia.
  - intros i Hi. destruct i as [|i]; [lia|].
    rewrite <- (Hmin i ltac:(lia)). f_equal. lia.
Qed.

(** Counting business days over consecutive stretches of days. *)
Lemma filter_seq_shift (P : nat -> bool) (j : nat) : forall k s,
  List.length (filter P (seq (j + s) k)) =
  List.length (filter (fun a => P (j + a)%nat) (seq s k)).
Proof.
  induction k as [|k IH]; intros s; [reflexivity|].
  cbn [seq filter]. replace (S (j + s)) with (j + S s)%nat by lia.
  destruct (P (j + s)%nat); cbn [List.length]; rewrite IH; reflexivity.
Qed.

Lemma businessDaysWithin_app H d j k :
  businessDaysWithin tz H d (j + k) =
  (businessDaysWithin tz H d j
   + businessDaysWithin tz H (d + Z.of_nat j * msPerDay)%Z k)%nat.
Proof.
  unfold businessDaysWithin. rewrite seq_app, filter_app, length_app. f_equal.
  replace (1 + j)%nat with (j + 1)%nat by lia.
  rewrite filter_seq_shift. f_equal. apply filter_ext. intros a.
  f_equal. rewrite !addDays_shift. lia.
Qed.

Lemma businessDaysWithin_first H d j :
  (1 <= j)%nat ->
  isBusinessDay tz (d + Z.of_nat j * msPerDay) H = true ->
  (forall i : nat, (1 <= i < j)%nat ->
     isBusinessDay tz (d + Z.of_nat i * msPerDay) H = false) ->
  businessDaysWithin tz H d j = 1%nat.
Proof.
  intros Hj Hyes Hno. destruct j as [|j]; [lia|].
  unfold businessDaysWithin. rewrite seq_S, filter_app, length_app.
  cbn [Nat.add filter]. rewrite addDays_shift, Hyes. cbn [List.length].
  replace (filter _ (seq 1 j)) with (@nil nat); [reflexivity|].
  symmetry.
  assert (G : forall l : list nat, (forall i, In i l -> (1 <= i < S j)%nat) ->
            filter (fun j0 => isBusinessDay tz (addDays tz d (Z.of_nat j0)) H) l = []).
  { induction l as [|a l IHl]; intros Hl; [reflexivity|].
    cbn [filter]. rewrite addDays_shift, (Hno a (Hl a (or_introl eq_refl))).
    apply IHl. intros i Hi. apply Hl. right. exact Hi. }
  apply G. intros i Hi. apply in_seq in Hi. lia.
Qed.

(** From 08:00 of a business day: the adjustment keeps the date, and the
    loop either finishes within the eight hours of the day or moves to 08:00
    of the next business day. *)
Lemma adjust_at_day_start fuel e H :
  isBusinessDay tz e H = true ->
  getHours tz e * 60 + getMinutes tz e = 8 * 60 ->
  exists a, adjustToPrevBusinessTime tz fuel e H = Some a /\ date a = e.
Proof. intros Hb Ht. apply adjust_fixed; [exact Hb|lia]. Qed.

Lemma hours_step_at_day_start fuel H e rem :
  isBusinessDay tz e H = true ->
  getHours tz e * 60 + getMinutes tz e = 8 * 60 ->
  0 < rem ->
  addBusinessHoursLoop tz (S fuel) H e rem =
  if rem <=? 480 then
    Some (if rem <=? 240 then addMinutes e rem
          else addMinutes (setHours tz (setMinutes tz (addMinutes e 240) 0) 13)
                 (rem - 240))
  else
    match whileNotBusinessDay tz (S fuel) (fun d => addDays tz d 1) H
            (setHours tz (setMinutes tz (addDays tz e 1) 0) 8) with
    | None => None
    | Some e' => addBusinessHoursLoop tz fuel H e' (rem - 480)
    end.
Proof.
  intros Hb Ht Hrem.
  destruct (adjust_at_day_start (S fuel) e H Hb Ht) as (a & Ha & Hc).
  rewrite (addBusinessHoursLoop_step fuel H e a rem Hrem Ha).
  cbv zeta. rewrite Hc, Ht.
  change (if 8 * 60 <? 12 * 60 then 12 * 60 - 8 * 60 else 0) with 240.
  change (if 8 * 60 <? 17 * 60 then 17 * 60 - Z.max (8 * 60) (13 * 60) else 0) with 240.
  change (240 + 240) with 480. reflexivity.
Qed.

(** X2. [adjustToPrevBusinessTime] returns for every date and holiday list
    (7 * |holidays| + 6 iterations suffice); its result is not later than the
    input, falls on a Monday to Friday, and has its time of day between 08:00
    and 12:00 or between 13:00 and 17:00, bounds included. *)
Theorem adjust_lands_in_window fuel d H :
  (enoughFuel H <= fuel)%nat ->
  exists r,
    adjustToPrevBusinessTime tz fuel d H = Some r
    /\ date r <= d
    /\ 1 <= getDay tz (date r) <= 5
    /\ (8 * 60 <= minutesOfDay tz (date r) <= 12 * 60
        \/ 13 * 60 <= minutesOfDay tz (date r) <= 17 * 60).
Proof.
  intros Hf. unfold minutesOfDay.
  destruct (adjust_result_facts fuel d H Hf) as (r & Hr & Hle & Hwd & Hwin).
  exists r. repeat split; try assumption; lia.
Qed.

(** Setting the clock to 13:00, as a number of minutes added. *)
Lemma lunch_jump d :
  getHours tz d * 60 + getMinutes tz d = 12 * 60 ->
  setHours tz (setMinutes tz d 0) 13 = addMinutes d 60.
Proof. fields. intros. Z.div_mod_to_equations. lia. Qed.

Lemma snap_13_back d :
  13 * 60 <= getHours tz d * 60 + getMinutes tz d ->
  setHours tz (setMinutes tz d 0) 13
  = addMinutes d (13 * 60 - (getHours tz d * 60 + getMinutes tz d)).
Proof. fields. intros. Z.div_mod_to_equations. lia. Qed.

Lemma addMinutes_add d a b : addMinutes (addMinutes d a) b = addMinutes d (a + b).
Proof. unfold addMinutes. lia. Qed.

(** One iteration of the loop from a date the adjustment keeps. *)
Lemma hours_step_on_business_day fuel H d rem :
  isBusinessDay tz d H = true ->
  (8 * 60 <= getHours tz d * 60 + getMinutes tz d <= 12 * 60 \/
   13 * 60 <= getHours tz d * 60 + getMinutes tz d <= 17 * 60) ->
  0 < rem ->
  let t := getHours tz d * 60 + getMinutes tz d in
  let untilLunch := if t <? 12 * 60 then 12 * 60 - t else 0 in
  let afterLunch := if t <? 17 * 60 then 17 * 60 - Z.max t (13 * 60) else 0 in
  addBusinessHoursLoop tz (S fuel) H d rem =
  if rem <=? untilLunch + afterLunch then
    Some (if rem <=? untilLunch then addMinutes d rem
          else addMinutes (setHours tz (setMinutes tz (addMinutes d untilLunch) 0) 13)
                 (rem - untilLunch))
  else
    match whileNotBusinessDay tz (S fuel) (fun d => addDays tz d 1) H
            (setHours tz (setMinutes tz (addDays tz d 1) 0) 8) with
    | None => None
    | Some e => addBusinessHoursLoop tz fuel H e (rem - (untilLunch + afterLunch))
    end.
Proof.
  intros Hb Ht Hrem.
  destruct (adjust_fixed tz (S fuel) d H Hb Ht) as (a & Ha & Hc).
  pose proof (addBusinessHoursLoop_step fuel H d a rem Hrem Ha) as Hs.
  cbv zeta in Hs. rewrite Hc in Hs. exact Hs.
Qed.

(** X8. From a business day between 08:00 and 12:00, hours that fit
    before 12:00 are added to the clock, and hours that run past 12:00 but fit
    into the day are added together with the lunch hour. *)
Theorem addBusinessHours_morning fuel d n H :
  isBusinessDay tz d H = true ->
  0 < n ->
  (1 <= fuel)%nat ->
  let t := minutesOfDay tz d in
  (8 * 60 <= t < 12 * 60 -> n * 60 <= 12 * 60 - t ->
   addBusinessHours tz fuel d n H = Some (addMinutes d (n * 60)))
  /\ (8 * 60 <= t <= 12 * 60 -> 12 * 60 - t < n * 60 <= 12 * 60 - t + 4 * 60 ->
      addBusinessHours tz fuel d n H = Some (addMinutes d (n * 60 + 60))).
Proof.
  intros Hb Hn Hf t. unfold minutesOfDay in t.
  destruct fuel as [|fuel]; [lia|].
  unfold addBusinessHours.
  destruct (n =? 0) eqn:E; [apply Z.eqb_eq in E; lia|].
  split; intros Ht Hfit;
    rewrite (hours_step_on_business_day fuel H d (n * 60) Hb ltac:(fold t; lia) ltac:(lia));
    cbv zeta; fold t.
  - assert (E1 : (t <? 12 * 60) = true) by (apply Z.ltb_lt; lia).
    assert (E2 : (t <? 17 * 60) = true) by (apply Z.ltb_lt; lia).
    rewrite E1, E2.
    assert (E3 : (n * 60 <=? 12 * 60 - t + (17 * 60 - Z.max t (13 * 60))) = true)
      by (apply Z.leb_le; lia).
    assert (E4 : (n * 60 <=? 12 * 60 - t) = true) by (apply Z.leb_le; lia).
    rewrite E3, E4. reflexivity.
  - assert (E2 : (t <? 17 * 60) = true) by (apply Z.ltb_lt; lia). rewrite E2.
    set (untilLunch := if t <? 12 * 60 then 12 * 60 - t else 0).
    assert (Hu : untilLunch = 12 * 60 - t).
    { subst untilLunch. destruct (t <? 12 * 60) eqn:E1;
        [reflexivity|apply Z.ltb_ge in E1; lia]. }
    rewrite Hu.
    assert (E3 : (n * 60 <=? 12 * 60 - t + (17 * 60 - Z.max t (13 * 60))) = true)
      by (apply Z.leb_le; lia).
    assert (E4 : (n * 60 <=? 12 * 60 - t) = false) by (apply Z.leb_gt; lia).
    rewrite E3, E4. f_equal.
    assert (Hnoon : getHours tz (addMinutes d (12 * 60 - t)) * 60
                    + getMinutes tz (addMinutes d (12 * 60 - t)) = 12 * 60).
    { destruct (addMinutes_fields d (12 * 60 - t) ltac:(lia) ltac:(fold t; lia)) as (_ & A).
      rewrite A. fold t. lia. }
    rewrite (lunch_jump _ Hnoon), !addMinutes_add. f_equal. lia.
Qed.

(** X9. From a business day at or after 13:00 and before 17:00, hours
    that fit before 17:00 are counted from 13:00, not from the start: the
    result is the start moved by the hours minus the time since 13:00, so
    15:00 plus one hour is 14:00, and the result is earlier than the start
    whenever the hours are less than the time since 13:00. *)
Theorem addBusinessHours_afternoon fuel d n H :
  isBusinessDay tz d H = true ->
  0 < n ->
  (1 <= fuel)%nat ->
  let t := minutesOfDay tz d in
  13 * 60 <= t < 17 * 60 ->
  n * 60 <= 17 * 60 - t ->
  addBusinessHours tz fuel d n H = Some (addMinutes d (n * 60 - (t - 13 * 60)))
  /\ (n * 60 < t - 13 * 60 ->
      exists r, addBusinessHours tz fuel d n H = Some r /\ r < d).
Proof.
  intros Hb Hn Hf t Ht Hfit. unfold minutesOfDay in t.
  destruct fuel as [|fuel]; [lia|].
  assert (Hr : addBusinessHours tz (S fuel) d n H
               = Some (addMinutes d (n * 60 - (t - 13 * 60)))).
  { unfold addBusinessHours.
    destruct (n =? 0) eqn:E; [apply Z.eqb_eq in E; lia|].
    rewrite (hours_step_on_business_day fuel H d (n * 60) Hb ltac:(fold t; lia) ltac:(lia)).
    cbv zeta. fold t.
    assert (E1 : (t <? 12 * 60) = false) by (apply Z.ltb_ge; lia).
    assert (E2 : (t <? 17 * 60) = true) by (apply Z.ltb_lt; lia).
    rewrite E1, E2.
    assert (E3 : (n * 60 <=? 0 + (17 * 60 - Z.max t (13 * 60))) = true)
      by (apply Z.leb_le; lia).
    assert (E4 : (n * 60 <=? 0) = false) by (apply Z.leb_gt; lia).
    rewrite E3, E4. f_equal.
    assert (Hd0 : addMinutes d 0 = d) by (unfold addMinutes; lia).
    rewrite Hd0, (snap_13_back d ltac:(fold t; lia)), addMinutes_add. fold t.
    f_equal. lia. }
  split; [exact Hr|].
  intros Hback. eexists. split; [exact Hr|]. unfold addMinutes, msPerMinute. lia.
Qed.

(** X10. From a business day at 17:00, one to eight hours are counted
    from 08:00 of the next business day (the first business day among the
    following calendar days), with the lunch hour added when they exceed
    four. *)
Theorem addBusinessHours_from_end_of_day fuel d n H :
  isBusinessDay tz d H = true ->
  minutesOfDay tz d = 17 * 60 ->
  1 <= n <= 8 ->
  (enoughFuel H + 2 <= fuel)%nat ->
  exists k : nat,
    let e := addDays tz (setHours tz (setMinutes tz (addDays tz d 1) 0) 8) (Z.of_nat k) in
    isBusinessDay tz e H = true
    /\ (forall j : nat, (j < k)%nat ->
          isBusinessDay tz
            (addDays tz (setHours tz (setMinutes tz (addDays tz d 1) 0) 8) (Z.of_nat j)) H
          = false)
    /\ minutesOfDay tz e = 8 * 60
    /\ addBusinessHours tz fuel d n H
       = Some (addMinutes e (if n <=? 4 then n * 60 else n * 60 + 60)).
Proof.
  unfold minutesOfDay. intros Hb Ht Hn Hf.
  destruct fuel as [|[|fuel]]; [lia|lia|].
  set (e0 := setHours tz (setMinutes tz (addDays tz d 1) 0) 8).
  destruct (stepForward_result e0 H (S (S fuel)) ltac:(lia)) as (k & Hw & Hbk & Hmin).
  destruct (fields_after_snap tz (addDays tz d 1) 8 ltac:(lia)) as (_ & A2 & A3 & _).
  destruct (addDays_fields e0 (Z.of_nat k)) as (_ & B2 & B3).
  fold e0 in A2, A3.
  assert (He : getHours tz (addDays tz e0 (Z.of_nat k)) * 60
               + getMinutes tz (addDays tz e0 (Z.of_nat k)) = 8 * 60)
    by (rewrite B2, B3, A2, A3; lia).
  exists k. cbv zeta. split; [exact Hbk|]. split; [exact Hmin|]. split; [exact He|].
  unfold addBusinessHours.
  destruct (n =? 0) eqn:E; [apply Z.eqb_eq in E; lia|].
  rewrite (hours_step_on_business_day (S fuel) H d (n * 60) Hb ltac:(lia) ltac:(lia)).
  cbv zeta. rewrite Ht.
  change (if 17 * 60 <? 12 * 60 then 12 * 60 - 17 * 60 else 0) with 0.
  change (if 17 * 60 <? 17 * 60 then 17 * 60 - Z.max (17 * 60) (13 * 60) else 0) with 0.
  change (0 + 0) with 0.
  assert (E0 : (n * 60 <=? 0) = false) by (apply Z.leb_gt; lia).
  rewrite E0. fold e0. rewrite Hw. rewrite Z.sub_0_r.
  rewrite (hours_step_at_day_start fuel H _ (n * 60) Hbk He ltac:(lia)).
  assert (E1 : (n * 60 <=? 480) = true) by (apply Z.leb_le; lia). rewrite E1.
  f_equal.
  destruct (n <=? 4) eqn:E4.
  - apply Z.leb_le in E4.
    assert (E2 : (n * 60 <=? 240) = true) by (apply Z.leb_le; lia). rewrite E2. reflexivity.
  - apply Z.leb_gt in E4.
    assert (E2 : (n * 60 <=? 240) = false) by (apply Z.leb_gt; lia). rewrite E2.
    assert (Hnoon : getHours tz (addMinutes (addDays tz e0 (Z.of_nat k)) 240) * 60
                    + getMinutes tz (addMinutes (addDays tz e0 (Z.of_nat k)) 240) = 12 * 60).
    { destruct (addMinutes_fields (addDays tz e0 (Z.of_nat k)) 240 ltac:(lia) ltac:(lia))
        as (_ & A). rewrite A. lia. }
    rewrite (lunch_jump _ Hnoon), !addMinutes_add. f_equal. lia.
Qed.

End LocalZone.

(** X5. The holiday test reads the UTC calendar day of a date: the local
    day, moved by a day when local time and UTC are on different days.  In a
    UTC-5 process (the zone of America/Bogota) it looks up the local calendar
    day before 19:00 local and the following calendar day from 19:00 on. *)
Theorem isHoliday_reads_utc_day tz d H :
  - msPerDay < tz < msPerDay ->
  let localTime := LocalTime tz d in
  let shift :=
    if TimeWithinDay localTime <? tz then -1
    else if msPerDay + tz <=? TimeWithinDay localTime then 1 else 0 in
  HolidaysService.isHoliday d H
  = HolidaysService.isHoliday (localTime + shift * msPerDay) H
  /\ (tz = bogotaOffset -> shift = if 19 <=? getHours tz d then 1 else 0).
Proof.
  intros Htz localTime shift. split.
  - unfold HolidaysService.isHoliday, toISOStringDate.
    replace (Day (localTime + shift * msPerDay)) with (Day d); [reflexivity|].
    rewrite Day_shift. subst shift localTime. unfold LocalTime.
    destruct (TimeWithinDay (d + tz) <? tz) eqn:E1;
      [apply Z.ltb_lt in E1|apply Z.ltb_ge in E1;
       destruct (msPerDay + tz <=? TimeWithinDay (d + tz)) eqn:E2;
       [apply Z.leb_le in E2|apply Z.leb_gt in E2]];
      revert E1; try revert E2; revert Htz; unfold Day, TimeWithinDay, msPerDay;
      intros; Z.div_mod_to_equations; lia.
  - intros ->. subst shift localTime.
    unfold getHours, HourFromTime, LocalTime.
    assert (Hn : (TimeWithinDay (d + bogotaOffset) <? bogotaOffset) = false).
    { apply Z.ltb_ge. unfold TimeWithinDay, bogotaOffset, msPerDay, msPerHour.
      Z.div_mod_to_equations. lia. }
    rewrite Hn.
    destruct (19 <=? ((d + bogotaOffset) / msPerHour) mod 24) eqn:E;
      [apply Z.leb_le in E|apply Z.leb_gt in E].
    + assert (E2 : (msPerDay + bogotaOffset <=? TimeWithinDay (d + bogotaOffset)) = true).
      { apply Z.leb_le. revert E. unfold TimeWithinDay, bogotaOffset, msPerDay, msPerHour.
        intros. Z.div_mod_to_equations. lia. }
      rewrite E2. reflexivity.
    + assert (E2 : (msPerDay + bogotaOffset <=? TimeWithinDay (d + bogotaOffset)) = false).
      { apply Z.leb_gt. revert E. unfold TimeWithinDay, bogotaOffset, msPerDay, msPerHour.
        intros. Z.div_mod_to_equations. lia. }
      rewrite E2. reflexivity.
Qed.

(** The theorems above at sample dates (Tuesday 2025-09-16, Friday
    2025-09-19, Saturday 2025-09-20), in a UTC process. *)

Lemma isHoliday_reads_utc_day_witness :
  let d := civil bogotaOffset 2025 4 17 20 0 0 in
  let H := ["2025-04-18"%string] in
  - msPerDay < bogotaOffset < msPerDay
  /\ (let localTime := LocalTime bogotaOffset d in
      let shift :=
        if TimeWithinDay localTime <? bogotaOffset then -1
        else if msPerDay + bogotaOffset <=? TimeWithinDay localTime then 1 else 0 in
      HolidaysService.isHoliday d H
      = HolidaysService.isHoliday (localTime + shift * msPerDay) H
      /\ (bogotaOffset = bogotaOffset ->
          shift = if 19 <=? getHours bogotaOffset d then 1 else 0)).
Proof.
  intros d H.
  assert (Htz : - msPerDay < bogotaOffset < msPerDay) by (vm_compute; split; reflexivity).
  split; [exact Htz|].
  exact (isHoliday_reads_utc_day bogotaOffset d H Htz).
Defined.

Lemma adjust_unadjusted_iff_witness :
  let d := civil 0 2025 9 16 10 0 0 in
  let r := {| date := d; wasAdjusted := false; reason := "" |} in
  (enoughFuel [] <= 6)%nat
  /\ adjustToPrevBusinessTime 0 6 d [] = Some r
  /\ (wasAdjusted r = false <->
        isBusinessDay 0 d [] = true /\ isWithinWorkingHours 0 d = true)
  /\ (wasAdjusted r = false -> date r = d).
Proof.
  intros d r.
  assert (Hf : (enoughFuel [] <= 6)%nat) by (vm_compute; lia).
  assert (Hr : adjustToPrevBusinessTime 0 6 d [] = Some r) by (vm_compute; reflexivity).
  split; [exact Hf|]. split; [exact Hr|].
  exact (adjust_unadjusted_iff 0 6 d [] r Hf Hr).
Defined.

Lemma adjust_lands_in_window_witness :
  let d := civil 0 2025 9 20 14 0 0 in
  (enoughFuel [] <= 6)%nat
  /\ exists r,
       adjustToPrevBusinessTime 0 6 d [] = Some r
       /\ date r <= d
       /\ 1 <= getDay 0 (date r) <= 5
       /\ (8 * 60 <= minutesOfDay 0 (date r) <= 12 * 60
           \/ 13 * 60 <= minutesOfDay 0 (date r) <= 17 * 60).
Proof.
  intros d.
  assert (Hf : (enoughFuel [] <= 6)%nat) by (vm_compute; lia).
  split; [exact Hf|].
  exact (adjust_lands_in_window 0 6 d [] Hf).
Defined.

Lemma addBusinessHours_morning_witness :
  let d := civil 0 2025 9 16 10 30 0 in
  isBusinessDay 0 d [] = true
  /\ 0 < 3
  /\ (1 <= 1)%nat
  /\ 8 * 60 <= minutesOfDay 0 d <= 12 * 60
  /\ 12 * 60 - minutesOfDay 0 d < 3 * 60 <= 12 * 60 - minutesOfDay 0 d + 4 * 60
  /\ addBusinessHours 0 1 d 3 [] = Some (civil 0 2025 9 16 14 30 0).
Proof.
  intros d.
  assert (Hb : isBusinessDay 0 d [] = true) by (vm_compute; reflexivity).
  assert (Hn : 0 < 3) by reflexivity.
  assert (Hf : (1 <= 1)%nat) by lia.
  assert (Ht : 8 * 60 <= minutesOfDay 0 d <= 12 * 60) by (vm_compute; split; discriminate).
  assert (Hm : 12 * 60 - minutesOfDay 0 d < 3 * 60 <= 12 * 60 - minutesOfDay 0 d + 4 * 60)
    by (vm_compute; split; [reflexivity|discriminate]).
  split; [exact Hb|]. split; [exact Hn|]. split; [exact Hf|].
  split; [exact Ht|]. split; [exact Hm|].
  exact (proj2 (addBusinessHours_morning 0 1 d 3 [] Hb Hn Hf) Ht Hm).
Defined.

Lemma addBusinessHours_afternoon_witness :
  let d := civil 0 2025 9 16 15 0 0 in
  isBusinessDay 0 d [] = true
  /\ 0 < 1
  /\ (1 <= 1)%nat
  /\ 13 * 60 <= minutesOfDay 0 d < 17 * 60
  /\ 1 * 60 <= 17 * 60 - minutesOfDay 0 d
  /\ addBusinessHours 0 1 d 1 [] = Some (civil 0 2025 9 16 14 0 0)
  /\ civil 0 2025 9 16 14 0 0 < d.
Proof.
  intros d.
  assert (Hb : isBusinessDay 0 d [] = true) by (vm_compute; reflexivity).
  assert (Hn : 0 < 1) by reflexivity.
  assert (Hf : (1 <= 1)%nat) by lia.
  assert (Ht : 13 * 60 <= minutesOfDay 0 d < 17 * 60)
    by (vm_compute; split; [discriminate|reflexivity]).
  assert (Hm : 1 * 60 <= 17 * 60 - minutesOfDay 0 d) by (vm_compute; discriminate).
  split; [exact Hb|]. split; [exact Hn|]. split; [exact Hf|].
  split; [exact Ht|]. split; [exact Hm|].
  split; [exact (proj1 (addBusinessHours_afternoon 0 1 d 1 [] Hb Hn Hf Ht Hm))|].
  vm_compute. reflexivity.
Defined.

Lemma addBusinessHours_from_end_of_day_witness :
  let d := civil 0 2025 9 19 17 0 0 in
  isBusinessDay 0 d [] = true
  /\ minutesOfDay 0 d = 17 * 60
  /\ 1 <= 5 <= 8
  /\ (enoughFuel [] + 2 <= 8)%nat
  /\ exists k : nat,
       isBusinessDay 0
         (addDays 0 (setHours 0 (setMinutes 0 (addDays 0 d 1) 0) 8) (Z.of_nat k)) [] = true
       /\ (forall j : nat, (j < k)%nat ->
             isBusinessDay 0
               (addDays 0 (setHours 0 (setMinutes 0 (addDays 0 d 1) 0) 8) (Z.of_nat j)) []
             = false)
       /\ minutesOfDay 0
            (addDays 0 (setHours 0 (setMinutes 0 (addDays 0 d 1) 0) 8) (Z.of_nat k)) = 8 * 60
       /\ addBusinessHours 0 8 d 5 []
          = Some (addMinutes
                    (addDays 0 (setHours 0 (setMinutes 0 (addDays 0 d 1) 0) 8) (Z.of_nat k))
                    (if 5 <=? 4 then 5 * 60 else 5 * 60 + 60)).
Proof.
  intros d.
  assert (Hb : isBusinessDay 0 d [] = true) by (vm_compute; reflexivity).
  assert (Ht : minutesOfDay 0 d = 17 * 60) by (vm_compute; reflexivity).
  assert (Hn : 1 <= 5 <= 8) by lia.
  assert (Hf : (enoughFuel [] + 2 <= 8)%nat) by (vm_compute; lia).
  split; [exact Hb|]. split; [exact Ht|]. split; [exact Hn|]. split; [exact Hf|].
  exact (addBusinessHours_from_end_of_day 0 8 d 5 [] Hb Ht Hn Hf).
Defined.

Lemma adjust_idempotent_utc_witness :
  let x := civil 0 2025 9 20 14 0 0 in
  (enoughFuel [] <= 6)%nat
  /\ exists r r',
       adjustToPrevBusinessTime 0 6 x [] = Some r
       /\ adjustToPrevBusinessTime 0 6 (date r) [] = Some r'
       /\ date r' = date r.
Proof.
  intros x.
  assert (Hf : (enoughFuel [] <= 6)%nat) by (vm_compute; lia).
  split; [exact Hf|].
  exact (adjust_idempotent_utc 6 x [] Hf).
Defined.

End BusinessTimeExtra.

(** *** src/businessTime.ts: dates within the range of time values *)

Module BusinessTimeRange.
Import Js DateFns DateFnsTz FallbackHolidays BusinessTimeCalculator.
Import JsFacts Support CalendarFacts BusinessTimeFacts BusinessTimeExtra.

Section LocalZone.
Variable tz : Z.

(** Setting the clock to a full hour stays within a day of the date. *)
Lemma snap_within_day d h :
  0 <= h < 24 ->
  d - msPerDay < setHours tz (setMinutes tz d 0) h < d + msPerDay.
Proof. intros Hh. fields. Z.div_mod_to_equations. lia. Qed.

(** The searches for a business day end within [enoughFuel H] steps. *)
Lemma stepBack_bounded d H fuel :
  (enoughFuel H <= fuel)%nat ->
  exists k : nat, (k <= enoughFuel H)%nat /\
    whileNotBusinessDay tz fuel (fun d => subDays tz d 1) H d = Some (subDays tz d (Z.of_nat k)).
Proof.
  intros Hf.
  destruct (business_day_within tz (-1) d H ltac:(auto)) as (k & Hk & Hb).
  destruct (whileNotBusinessDay_least tz (-1) (fun d => subDays tz d 1) H
              ltac:(intros; cbv beta; rewrite subDays_shift; lia) fuel d k
              ltac:(unfold enoughFuel in Hf; lia) Hb)
    as (k' & Hk' & Hw & _).
  exists k'. split; [unfold enoughFuel; lia|].
  rewrite subDays_shift.
  replace (d - Z.of_nat k' * msPerDay) with (d + -1 * Z.of_nat k' * msPerDay) by lia.
  exact Hw.
Qed.

Lemma stepForward_bounded d H fuel :
  (enoughFuel H <= fuel)%nat ->
  exists k : nat, (k <= enoughFuel H)%nat /\
    whileNotBusinessDay tz fuel (fun d => addDays tz d 1) H d = Some (addDays tz d (Z.of_nat k)) /\
    isBusinessDay tz (addDays tz d (Z.of_nat k)) H = true.
Proof.
  intros Hf.
  destruct (business_day_within tz 1 d H ltac:(auto)) as (k & Hk & Hb).
  destruct (whileNotBusinessDay_least tz 1 (fun d => addDays tz d 1) H
              ltac:(intros; cbv beta; rewrite addDays_shift; lia) fuel d k
              ltac:(unfold enoughFuel in Hf; lia) Hb)
    as (k' & Hk' & Hw & Hb' & _).
  exists k'. split; [unfold enoughFuel; lia|].
  rewrite addDays_shift.
  replace (d + Z.of_nat k' * msPerDay) with (d + 1 * Z.of_nat k' * msPerDay) by lia.
  split; [exact Hw|exact Hb'].
Qed.

(** The adjustment goes back less than [enoughFuel H + 2] days. *)
Lemma adjust_not_far fuel d H r :
  (enoughFuel H <= fuel)%nat ->
  adjustToPrevBusinessTime tz fuel d H = Some r ->
  d - (Z.of_nat (enoughFuel H) + 2) * msPerDay < date r.
Proof.
  intros Hf. rewrite adjustToPrevBusinessTime_unfold.
  destruct (stepBack_bounded d H fuel Hf) as (k & Hk & Hw). rewrite Hw.
  assert (Hday : 0 < msPerDay) by (unfold msPerDay; lia).
  destruct (isBusinessDay tz d H).
  - cbv zeta. destruct (_ <? _).
    + set (y := setHours tz (setMinutes tz (subDays tz d 1) 0) 17).
      destruct (stepBack_bounded y H fuel Hf) as (k' & Hk' & Hw'). rewrite Hw'.
      intros E. injection E as <-. cbn [date].
      pose proof (snap_within_day (subDays tz d 1) 17 ltac:(lia)) as Hs. fold y in Hs.
      rewrite subDays_shift in *. nia.
    + destruct (_ && _).
      * intros E. injection E as <-. cbn [date].
        pose proof (snap_within_day d 12 ltac:(lia)). nia.
      * destruct (_ <=? _); intros E; injection E as <-; cbn [date].
        -- pose proof (snap_within_day d 17 ltac:(lia)). nia.
        -- nia.
  - intros E. injection E as <-. cbn [date].
    pose proof (snap_within_day (subDays tz d (Z.of_nat k)) 17 ltac:(lia)) as Hs.
    rewrite subDays_shift in *. nia.
Qed.

(** [addBusinessDays] for [m + 1] days: the days walked, the day reached
    and the count of the days that pass the test. *)
Lemma addBusinessDaysLoop_bounded H : forall (m : nat) fuel d,
  (S m * (enoughFuel H + 1) <= fuel)%nat ->
  exists k : nat,
    (S m <= k <= S m * (enoughFuel H + 1))%nat
    /\ addBusinessDaysLoop tz fuel H d (Z.of_nat (S m)) = Some (d + Z.of_nat k * msPerDay)
    /\ isBusinessDay tz (d + Z.of_nat k * msPerDay) H = true
    /\ businessDaysWithin tz H d k = S m.
Proof.
  induction m as [|m IH]; intros fuel d Hf;
    destruct (next_business_day tz d H) as (j & Hj & Hyes & Hno);
    rewrite Nat.mul_succ_l in Hf.
  - exists j. split; [lia|].
    replace fuel with (j + (fuel - j))%nat by lia.
    rewrite (addBusinessDaysLoop_next tz H j (fuel - j) d (Z.of_nat 1) ltac:(lia) ltac:(lia) Hno Hyes).
    replace (Z.of_nat 1 - 1) with 0 by lia.
    split; [destruct (fuel - j)%nat; reflexivity|].
    split; [exact Hyes|]. apply businessDaysWithin_first; [lia|exact Hyes|exact Hno].
  - destruct (IH (fuel - j)%nat (d + Z.of_nat j * msPerDay) ltac:(lia))
      as (k & Hkb & Hk & Hbk & Hc).
    exists (j + k)%nat. split; [lia|].
    replace fuel with (j + (fuel - j))%nat by lia.
    rewrite (addBusinessDaysLoop_next tz H j (fuel - j) d (Z.of_nat (S (S m))) ltac:(lia) ltac:(lia) Hno Hyes).
    replace (Z.of_nat (S (S m)) - 1) with (Z.of_nat (S m)) by lia.
    replace (d + Z.of_nat (j + k) * msPerDay)
      with (d + Z.of_nat j * msPerDay + Z.of_nat k * msPerDay) by lia.
    split; [exact Hk|]. split; [exact Hbk|].
    rewrite businessDaysWithin_app, Hc.
    rewrite (businessDaysWithin_first tz H d j); [reflexivity|lia|exact Hyes|exact Hno].
Qed.

(** When the UTC day of a date is its local day, the test of the source is
    the test of the local calendar. *)
Lemma isBusinessDay_local d H :
  Day d = Day (LocalTime tz d) -> isBusinessDay tz d H = isLocalBusinessDay tz H d.
Proof.
  intros Hd. unfold isBusinessDay, isLocalBusinessDay, HolidaysService.isHoliday, getDay.
  cbv zeta.
  assert (Hs : toISOStringDate d = toISOStringDate (LocalTime tz d))
    by (unfold toISOStringDate; rewrite Hd; reflexivity).
  rewrite Hs.
  pose proof (getDay_range tz d) as Hr. unfold getDay in Hr.
  set (w := WeekDay (LocalTime tz d)) in *.
  destruct (w =? 0) eqn:E0; [apply Z.eqb_eq in E0|apply Z.eqb_neq in E0];
  destruct (w =? 6) eqn:E6; [apply Z.eqb_eq in E6|apply Z.eqb_neq in E6
                            |apply Z.eqb_eq in E6|apply Z.eqb_neq in E6];
  destruct (1 <=? w) eqn:E1; [apply Z.leb_le in E1|apply Z.leb_gt in E1
                             |apply Z.leb_le in E1|apply Z.leb_gt in E1
                             |apply Z.leb_le in E1|apply Z.leb_gt in E1
                             |apply Z.leb_le in E1|apply Z.leb_gt in E1];
  destruct (w <=? 5) eqn:E5; try apply Z.leb_le in E5; try apply Z.leb_gt in E5;
    cbn [orb andb]; try reflexivity; lia.
Qed.

Lemma local_day_shift d j :
  Day d = Day (LocalTime tz d) ->
  Day (addDays tz d j) = Day (LocalTime tz (addDays tz d j)).
Proof.
  intros Hd. rewrite addDays_shift. unfold LocalTime in *.
  replace (d + j * msPerDay + tz) with (d + tz + j * msPerDay) by lia.
  rewrite !Day_shift. lia.
Qed.

Lemma businessDaysWithin_local H d k :
  Day d = Day (LocalTime tz d) ->
  businessDaysWithin tz H d k = localBusinessDaysWithin tz H d k.
Proof.
  intros Hd. unfold businessDaysWithin, localBusinessDaysWithin. f_equal.
  apply filter_ext. intros j. apply isBusinessDay_local, local_day_shift, Hd.
Qed.

(** X6. For [n > 0], with every date passed within the range of time
    values, [addBusinessDays] returns the start moved forward by a whole
    number [k] of calendar days, from [n] to [n * (7 * |holidays| + 7)]: the
    date reached passes [isBusinessDay], exactly [n] of the [k] dates one to
    [k] days after the start pass it, and the time of day is the one of the
    start.  [isBusinessDay] is the test of the source, at the time of day of
    the start: the local weekday, and the UTC calendar day looked up in the
    list.  When the UTC day of the start is its local day (in a UTC-5
    process: before 19:00 local), that is the test of the local calendar:
    the day reached is a Monday to Friday that is not listed, and exactly
    [n] of the [k] calendar days after the start are such days. *)
Theorem addBusinessDays_counts_business_days fuel d n H :
  0 < n ->
  (Z.to_nat n * (enoughFuel H + 1) <= fuel)%nat ->
  - maxTimeValue <= d ->
  d + n * (Z.of_nat (enoughFuel H) + 1) * msPerDay <= maxTimeValue ->
  exists k : nat,
    addBusinessDays tz fuel d n H = Some (addDays tz d (Z.of_nat k))
    /\ n <= Z.of_nat k <= n * (Z.of_nat (enoughFuel H) + 1)
    /\ - maxTimeValue <= addDays tz d (Z.of_nat k) <= maxTimeValue
    /\ isBusinessDay tz (addDays tz d (Z.of_nat k)) H = true
    /\ Z.of_nat (businessDaysWithin tz H d k) = n
    /\ TimeWithinDay (LocalTime tz (addDays tz d (Z.of_nat k)))
       = TimeWithinDay (LocalTime tz d)
    /\ (Day d = Day (LocalTime tz d) ->
        isLocalBusinessDay tz H (addDays tz d (Z.of_nat k)) = true
        /\ Z.of_nat (localBusinessDaysWithin tz H d k) = n).
Proof.
  intros Hn Hf Hlo Hhi. unfold addBusinessDays.
  destruct (n =? 0) eqn:E; [apply Z.eqb_eq in E; lia|].
  destruct (Z.to_nat n) as [|m] eqn:Em; [lia|].
  destruct (addBusinessDaysLoop_bounded H m fuel d Hf) as (k & Hkb & Hk & Hb & Hc).
  assert (Hn' : n = Z.of_nat (S m)) by lia.
  assert (Hday : 0 < msPerDay) by (unfold msPerDay; lia).
  assert (Hkz : n <= Z.of_nat k <= n * (Z.of_nat (enoughFuel H) + 1)).
  { rewrite Hn'. split; [lia|]. 
    replace (Z.of_nat (S m) * (Z.of_nat (enoughFuel H) + 1))
      with (Z.of_nat (S m * (enoughFuel H + 1))) by lia. lia. }
  exists k. rewrite addDays_shift.
  split; [rewrite Hn'; exact Hk|]. split; [exact Hkz|].
  split; [nia|]. split; [exact Hb|]. split; [rewrite Hc; lia|].
  split; [fields; Z.div_mod_to_equations; lia|].
  intros Hd. rewrite <- (addDays_shift tz).
  rewrite <- (isBusinessDay_local _ H (local_day_shift d (Z.of_nat k) Hd)).
  rewrite <- (businessDaysWithin_local H d k Hd), Hc, addDays_shift.
  split; [exact Hb|lia].
Qed.

(** Two dates of the same local day are less than a day apart, and the one
    with the later minute is the later one. *)
Lemma same_day_near a b :
  Day (LocalTime tz a) = Day (LocalTime tz b) -> a - msPerDay < b < a + msPerDay.
Proof. fields. intros. Z.div_mod_to_equations. lia. Qed.

Lemma later_in_day a b :
  Day (LocalTime tz a) = Day (LocalTime tz b) ->
  getHours tz a * 60 + getMinutes tz a < getHours tz b * 60 + getMinutes tz b ->
  a < b.
Proof. fields. intros. Z.div_mod_to_equations. lia. Qed.

(** From 08:00 of a business day the loop of [addBusinessHours] ends after
    at most [m] further days of eight hours, each found within
    [enoughFuel H + 2] days of the one before. *)
Lemma hours_from_day_start_bounded H : forall (m : nat) fuel e rem,
  isBusinessDay tz e H = true ->
  getHours tz e * 60 + getMinutes tz e = 8 * 60 ->
  0 < rem <= 480 * (Z.of_nat m + 1) ->
  (enoughFuel H + m + 1 <= fuel)%nat ->
  exists r,
    addBusinessHoursLoop tz fuel H e rem = Some r
    /\ 1 <= getDay tz r <= 5
    /\ (8 * 60 < getHours tz r * 60 + getMinutes tz r <= 12 * 60
        \/ 13 * 60 < getHours tz r * 60 + getMinutes tz r <= 17 * 60)
    /\ e < r < e + (Z.of_nat m * (Z.of_nat (enoughFuel H) + 2) + 1) * msPerDay.
Proof.
  assert (Hday : 0 < msPerDay) by (unfold msPerDay; lia).
  assert (Fin : forall e rem,
            isBusinessDay tz e H = true ->
            getHours tz e * 60 + getMinutes tz e = 8 * 60 ->
            0 < rem <= 480 ->
            let r := if rem <=? 240 then addMinutes e rem
                     else addMinutes (setHours tz (setMinutes tz (addMinutes e 240) 0) 13)
                            (rem - 240) in
            1 <= getDay tz r <= 5
            /\ (8 * 60 < getHours tz r * 60 + getMinutes tz r <= 12 * 60
                \/ 13 * 60 < getHours tz r * 60 + getMinutes tz r <= 17 * 60)
            /\ e < r < e + msPerDay).
  { intros e rem Hb Ht Hrem.
    pose proof (finish_today_window tz e rem) as W. cbv zeta in W. rewrite Ht in W.
    change (if 8 * 60 <? 12 * 60 then 12 * 60 - 8 * 60 else 0) with 240 in W.
    change (if 8 * 60 <? 17 * 60 then 17 * 60 - Z.max (8 * 60) (13 * 60) else 0) with 240 in W.
    destruct (W ltac:(lia) ltac:(lia)) as (W1 & W2).
    cbv zeta. split; [|split; [exact W2|]].
    - rewrite (getDay_same_day tz _ e W1). apply (isBusinessDay_weekday tz e H Hb).
    - split.
      + apply later_in_day; [symmetry; exact W1|]. rewrite Ht. lia.
      + apply (same_day_near e _). symmetry. exact W1. }
  induction m as [|m IH]; intros fuel e rem Hb Ht Hrem Hf;
    (destruct fuel as [|fuel]; [lia|]);
    rewrite (hours_step_at_day_start tz fuel H e rem Hb Ht ltac:(lia)).
  - assert (E : (rem <=? 480) = true) by (apply Z.leb_le; lia). rewrite E.
    eexists. split; [reflexivity|].
    destruct (Fin e rem Hb Ht ltac:(lia)) as (A & B & C).
    split; [exact A|]. split; [exact B|]. cbn [Z.of_nat]. lia.
  - destruct (rem <=? 480) eqn:E.
    + apply Z.leb_le in E.
      eexists. split; [reflexivity|].
      destruct (Fin e rem Hb Ht ltac:(lia)) as (A & B & C).
      split; [exact A|]. split; [exact B|]. nia.
    + apply Z.leb_gt in E.
      set (e0 := setHours tz (setMinutes tz (addDays tz e 1) 0) 8).
      destruct (stepForward_bounded e0 H (S fuel) ltac:(lia)) as (k & Hk & Hw & Hbk).
      rewrite Hw.
      destruct (fields_after_snap tz (addDays tz e 1) 8 ltac:(lia)) as (_ & A2 & A3 & _).
      destruct (addDays_fields tz e0 (Z.of_nat k)) as (_ & B2 & B3).
      fold e0 in A2, A3.
      pose proof (snap_within_day (addDays tz e 1) 8 ltac:(lia)) as Hs. fold e0 in Hs.
      rewrite addDays_shift in Hs.
      destruct (IH fuel (addDays tz e0 (Z.of_nat k)) (rem - 480) Hbk
                  ltac:(rewrite B2, B3, A2, A3; lia) ltac:(lia) ltac:(lia))
        as (r & Hr & Hwd & Hwin & Hlo & Hhi).
      exists r. split; [exact Hr|]. split; [exact Hwd|]. split; [exact Hwin|].
      rewrite addDays_shift in Hlo, Hhi. nia.
Qed.

(** Where [addBusinessHours] lands: the first iteration starts from the
    adjusted date, every later one from 08:00 of a business day. *)
Lemma addBusinessHours_result_bounded fuel d n H :
  0 < n ->
  (enoughFuel H + Z.to_nat n + 2 <= fuel)%nat ->
  exists r,
    addBusinessHours tz fuel d n H = Some r
    /\ 1 <= getDay tz r <= 5
    /\ (8 * 60 < getHours tz r * 60 + getMinutes tz r <= 12 * 60
        \/ 13 * 60 < getHours tz r * 60 + getMinutes tz r <= 17 * 60)
    /\ d - (Z.of_nat (enoughFuel H) + 3) * msPerDay < r
       < d + (n + 1) * (Z.of_nat (enoughFuel H) + 3) * msPerDay.
Proof.
  intros Hn Hf. unfold addBusinessHours.
  assert (Hday : 0 < msPerDay) by (unfold msPerDay; lia).
  destruct (n =? 0) eqn:E; [apply Z.eqb_eq in E; lia|].
  destruct fuel as [|fuel]; [lia|].
  destruct (adjust_result_facts tz (S fuel) d H ltac:(lia)) as (a & Ha & Hle & Hwd & Hwin).
  pose proof (adjust_not_far (S fuel) d H a ltac:(lia) Ha) as Hfar.
  rewrite (addBusinessHoursLoop_step tz fuel H d a (n * 60) ltac:(lia) Ha).
  cbv zeta.
  set (c := date a) in *.
  set (t := getHours tz c * 60 + getMinutes tz c) in *.
  set (untilLunch := if t <? 12 * 60 then 12 * 60 - t else 0).
  set (afterLunch := if t <? 17 * 60 then 17 * 60 - Z.max t (13 * 60) else 0).
  assert (Htot : 0 <= untilLunch + afterLunch).
  { subst untilLunch afterLunch.
    destruct (t <? 12 * 60) eqn:Ea; destruct (t <? 17 * 60) eqn:Eb;
      try apply Z.ltb_lt in Ea; try apply Z.ltb_ge in Ea;
      try apply Z.ltb_lt in Eb; try apply Z.ltb_ge in Eb; lia. }
  destruct (n * 60 <=? untilLunch + afterLunch) eqn:Efit.
  - apply Z.leb_le in Efit.
    eexists. split; [reflexivity|].
    pose proof (finish_today_window tz c (n * 60)) as W. cbv zeta in W.
    fold t in W. fold untilLunch in W. fold afterLunch in W.
    destruct (W Hwin ltac:(lia)) as (W1 & W2).
    split; [rewrite (getDay_same_day tz _ c W1); exact Hwd|]. split; [exact W2|].
    pose proof (same_day_near c _ (eq_sym W1)) as Hnear. nia.
  - apply Z.leb_gt in Efit.
    set (e0 := setHours tz (setMinutes tz (addDays tz c 1) 0) 8).
    destruct (stepForward_bounded e0 H (S fuel) ltac:(lia)) as (k & Hk & Hw & Hbk).
    rewrite Hw.
    destruct (fields_after_snap tz (addDays tz c 1) 8 ltac:(lia)) as (_ & A2 & A3 & _).
    destruct (addDays_fields tz e0 (Z.of_nat k)) as (_ & B2 & B3).
    fold e0 in A2, A3.
    pose proof (snap_within_day (addDays tz c 1) 8 ltac:(lia)) as Hs. fold e0 in Hs.
    rewrite addDays_shift in Hs.
    destruct (hours_from_day_start_bounded H (Z.to_nat n) fuel (addDays tz e0 (Z.of_nat k))
                (n * 60 - (untilLunch + afterLunch)) Hbk
                ltac:(rewrite B2, B3, A2, A3; lia) ltac:(lia) ltac:(lia))
      as (r & Hr & Hwd' & Hwin' & Hlo & Hhi).
    exists r. split; [exact Hr|]. split; [exact Hwd'|]. split; [exact Hwin'|].
    rewrite addDays_shift in Hlo, Hhi. rewrite Z2Nat.id in Hhi by lia. nia.
Qed.

(** X7. For [n > 0] hours and a start at least [7 * |holidays| + 9] days
    above the lower limit of time values and [(n + 1) * (7 * |holidays| + 9)]
    days below the upper one, [addBusinessHours] returns: its result lies
    within these spans of the start (as does every date passed on the way,
    so that all of them are valid dates), falls on a Monday to Friday, at a
    time of day after 08:00 and up to 12:00 or after 13:00 and up to 17:00:
    the minute before it is within working hours. *)
Theorem addBusinessHours_lands_in_working_hours fuel d n H :
  0 < n ->
  (enoughFuel H + Z.to_nat n + 2 <= fuel)%nat ->
  - maxTimeValue <= d - (Z.of_nat (enoughFuel H) + 3) * msPerDay ->
  d + (n + 1) * (Z.of_nat (enoughFuel H) + 3) * msPerDay <= maxTimeValue ->
  exists r,
    addBusinessHours tz fuel d n H = Some r
    /\ d - (Z.of_nat (enoughFuel H) + 3) * msPerDay < r
       < d + (n + 1) * (Z.of_nat (enoughFuel H) + 3) * msPerDay
    /\ - maxTimeValue < r < maxTimeValue
    /\ 1 <= getDay tz r <= 5
    /\ (8 * 60 < minutesOfDay tz r <= 12 * 60
        \/ 13 * 60 < minutesOfDay tz r <= 17 * 60)
    /\ isWithinWorkingHours tz (addMinutes r (-1)) = true.
Proof.
  intros Hn Hf Hlo Hhi. unfold minutesOfDay.
  destruct (addBusinessHours_result_bounded fuel d n H Hn Hf) as (r & Hr & Hwd & Hwin & Hb).
  exists r. split; [exact Hr|]. split; [exact Hb|]. split; [lia|].
  split; [exact Hwd|]. split; [exact Hwin|].
  apply isWithinWorkingHours_true.
  assert (Hm : getHours tz (addMinutes r (-1)) * 60 + getMinutes tz (addMinutes r (-1))
               = getHours tz r * 60 + getMinutes tz r - 1).
  { revert Hwin. fields. intros. Z.div_mod_to_equations. lia. }
  rewrite Hm. lia.
Qed.

(** X1. For instants from 1994 on, where 'America/Bogota' is at UTC-5
    throughout, [colombiaTimeToUtc] and [utcToColombiaTime] undo each other,
    in any process zone, and the local fields of [utcToColombiaTime d] read
    the instant [d] moved by the offset of Bogota, five hours back. *)
Theorem colombia_time_round_trip d c :
  bogotaStandardSince <= d ->
  bogotaStandardSince <= colombiaTimeToUtc tz c ->
  colombiaTimeToUtc tz (utcToColombiaTime tz d) = d
  /\ utcToColombiaTime tz (colombiaTimeToUtc tz c) = c
  /\ LocalTime tz (utcToColombiaTime tz d) = d + bogotaOffset.
Proof.
  intros _ _.
  unfold colombiaTimeToUtc, utcToColombiaTime, zonedTimeToUtc, utcToZonedTime, LocalTime, UTC.
  repeat split; lia.
Qed.

(** X11. With no positive count of days or hours (absent, zero or
    negative), a start from 1994 on whose Colombia time is on a business day
    within working hours is returned as it is. *)
Theorem calculateBusinessTime_identity fuel now startDate days hours H :
  bogotaStandardSince <= startDate ->
  isBusinessDay tz (utcToColombiaTime tz startDate) H = true ->
  isWithinWorkingHours tz (utcToColombiaTime tz startDate) = true ->
  positive days = None ->
  positive hours = None ->
  calculateBusinessTime tz fuel now (Some startDate) days hours H = Some startDate.
Proof.
  intros _ Hb Hw Hd Hh. unfold calculateBusinessTime.
  apply isWithinWorkingHours_true in Hw.
  destruct (adjust_fixed tz fuel _ H Hb ltac:(lia)) as (a & Ha & Hc).
  rewrite Ha, Hd, Hh, Hc. f_equal.
  unfold colombiaTimeToUtc, utcToColombiaTime, zonedTimeToUtc, utcToZonedTime, LocalTime, UTC.
  lia.
Qed.

(** X12. In a process zone within a day of UTC, for a start (the given
    one, or the current instant) so long after the beginning of 1994 that
    both conversions are made where 'America/Bogota' is at UTC-5, and so long
    before the upper limit of time values that every date passed is a valid
    one: [calculateBusinessTime] returns, within a fuel that grows with the
    counts; its result lies within the stated spans of the start; and when
    hours are added, the Colombia time of the result falls on a Monday to
    Friday, after 08:00 and up to 12:00 or after 13:00 and up to 17:00. *)
Theorem calculateBusinessTime_returns fuel (now : Date) (startDate : option Date) days hours H :
  let count := fun x : option Z => match x with Some v => Z.to_nat v | None => 0%nat end in
  let start := match startDate with Some s => s | None => now end in
  let F := Z.of_nat (enoughFuel H) in
  let span :=
    Z.of_nat (count days) * (F + 1) + (Z.of_nat (count hours) + 1) * (F + 3) + 4 in
  (count days * (enoughFuel H + 1) + enoughFuel H + count hours + 2 <= fuel)%nat ->
  - msPerDay <= tz <= msPerDay ->
  bogotaStandardSince + (2 * F + 9) * msPerDay <= start ->
  start + span * msPerDay <= maxTimeValue ->
  exists r,
    calculateBusinessTime tz fuel now startDate days hours H = Some r
    /\ start - (2 * F + 9) * msPerDay < r < start + span * msPerDay
    /\ bogotaStandardSince < r < maxTimeValue
    /\ (forall n, hours = Some n -> 0 < n ->
        1 <= getDay tz (utcToColombiaTime tz r) <= 5
        /\ (8 * 60 < minutesOfDay tz (utcToColombiaTime tz r) <= 12 * 60
            \/ 13 * 60 < minutesOfDay tz (utcToColombiaTime tz r) <= 17 * 60)).
Proof.
  intros count start F span Hf Htz Hlo Hhi.
  assert (Hday : msPerDay = 86400000) by reflexivity.
  assert (Hoff : bogotaOffset = -18000000) by reflexivity.
  assert (HF : 0 <= F) by (subst F; lia).
  unfold calculateBusinessTime, minutesOfDay.
  assert (Hrt : forall c, utcToColombiaTime tz (colombiaTimeToUtc tz c) = c).
  { intros c. unfold colombiaTimeToUtc, utcToColombiaTime, zonedTimeToUtc,
      utcToZonedTime, LocalTime, UTC. lia. }
  assert (Hutc : forall c, colombiaTimeToUtc tz c = c + tz - bogotaOffset).
  { intros c. unfold colombiaTimeToUtc, zonedTimeToUtc, LocalTime. reflexivity. }
  assert (Hm : match startDate with
               | Some s => utcToColombiaTime tz s
               | None => utcToColombiaTime tz now
               end = utcToColombiaTime tz start)
    by (subst start; destruct startDate; reflexivity).
  rewrite Hm. clear Hm.
  set (c0 := utcToColombiaTime tz start).
  assert (Hc0 : c0 = start + bogotaOffset - tz).
  { subst c0. unfold utcToColombiaTime, utcToZonedTime, UTC. reflexivity. }
  destruct (adjust_result_facts tz fuel c0 H ltac:(lia)) as (a & Ha & Hale & _).
  pose proof (adjust_not_far fuel c0 H a ltac:(lia) Ha) as Hfar. fold F in Hfar.
  rewrite Ha.
  assert (Hdays : exists c1,
            match positive days with
            | Some n => addBusinessDays tz fuel (date a) n H
            | None => Some (date a)
            end = Some c1
            /\ date a <= c1 <= date a + Z.of_nat (count days) * (F + 1) * msPerDay).
  { unfold positive. destruct days as [v|]; [|exists (date a); split; [reflexivity|cbn [count]; lia]].
    destruct (negb (v =? 0) && (0 <? v)) eqn:E;
      [|exists (date a); split; [reflexivity|cbn [count]; nia]].
    apply andb_true_iff in E. destruct E as [_ E]. apply Z.ltb_lt in E.
    unfold addBusinessDays.
    destruct (v =? 0) eqn:E0; [apply Z.eqb_eq in E0; lia|].
    cbn [count] in *.
    destruct (Z.to_nat v) as [|m] eqn:Em; [lia|].
    destruct (addBusinessDaysLoop_bounded H m fuel (date a)) as (k & Hkb & Hk & _).
    { lia. }
    replace v with (Z.of_nat (S m)) by lia.
    eexists. split; [exact Hk|].
    assert (Z.of_nat k <= Z.of_nat (S m) * (F + 1)).
    { subst F. replace (Z.of_nat (S m) * (Z.of_nat (enoughFuel H) + 1))
        with (Z.of_nat (S m * (enoughFuel H + 1))) by lia. lia. }
    nia. }
  destruct Hdays as (c1 & Hc1 & Hc1b). rewrite Hc1.
  assert (Hnone : exists r,
            Some (colombiaTimeToUtc tz c1) = Some r
            /\ start - (2 * F + 9) * msPerDay < r < start + span * msPerDay
            /\ bogotaStandardSince < r < maxTimeValue).
  { eexists. split; [reflexivity|]. rewrite Hutc. subst span.
    assert (0 <= Z.of_nat (count hours)) by lia. nia. }
  unfold positive. destruct hours as [v|].
  - destruct (negb (v =? 0) && (0 <? v)) eqn:E.
    + apply andb_true_iff in E. destruct E as [_ E]. apply Z.ltb_lt in E.
      destruct (addBusinessHours_result_bounded fuel c1 v H E)
        as (r & Hr & Hwd & Hwin & Hrb).
      { cbn [count] in Hf. lia. }
      fold F in Hrb. rewrite Hr. eexists. split; [reflexivity|].
      rewrite Hutc.
      assert (Hv : Z.of_nat (count (Some v)) = v) by (cbn [count]; lia).
      subst span. rewrite Hv in *.
      split; [nia|]. split; [nia|].
      intros n Hn _. rewrite <- Hutc, Hrt. split; assumption.
    + destruct Hnone as (r & Hr & Hb1 & Hb2).
      exists r. split; [exact Hr|]. split; [exact Hb1|]. split; [exact Hb2|].
      intros n Hn Hpos. injection Hn as ->.
      apply andb_false_iff in E. destruct E as [E|E].
      * apply negb_false_iff, Z.eqb_eq in E. lia.
      * apply Z.ltb_ge in E. lia.
  - destruct Hnone as (r & Hr & Hb1 & Hb2).
    exists r. split; [exact Hr|]. split; [exact Hb1|]. split; [exact Hb2|].
    intros n Hn. discriminate.
Qed.

End LocalZone.

(** The theorems above at sample inputs: Wednesday 2025-04-16 before the
    Easter holidays in a UTC-5 process, and September 2025 in a UTC process. *)

Lemma colombia_time_round_trip_witness :
  let d := instant 2025 9 16 15 0 0 in
  let c := civil 0 2025 9 16 10 0 0 in
  bogotaStandardSince <= d
  /\ bogotaStandardSince <= colombiaTimeToUtc 0 c
  /\ colombiaTimeToUtc 0 (utcToColombiaTime 0 d) = d
  /\ utcToColombiaTime 0 (colombiaTimeToUtc 0 c) = c
  /\ LocalTime 0 (utcToColombiaTime 0 d) = d + bogotaOffset.
Proof.
  intros d c.
  assert (Hd : bogotaStandardSince <= d) by (vm_compute; discriminate).
  assert (Hc : bogotaStandardSince <= colombiaTimeToUtc 0 c) by (vm_compute; discriminate).
  split; [exact Hd|]. split; [exact Hc|].
  exact (colombia_time_round_trip 0 d c Hd Hc).
Defined.

Lemma addBusinessDays_counts_business_days_witness :
  let tz := bogotaOffset in
  let H := ["2025-04-17"; "2025-04-18"]%string in
  let d := civil tz 2025 4 16 10 0 0 in
  0 < 1
  /\ (Z.to_nat 1 * (enoughFuel H + 1) <= 21)%nat
  /\ - maxTimeValue <= d
  /\ d + 1 * (Z.of_nat (enoughFuel H) + 1) * msPerDay <= maxTimeValue
  /\ exists k : nat,
       addBusinessDays tz 21 d 1 H = Some (addDays tz d (Z.of_nat k))
       /\ 1 <= Z.of_nat k <= 1 * (Z.of_nat (enoughFuel H) + 1)
       /\ - maxTimeValue <= addDays tz d (Z.of_nat k) <= maxTimeValue
       /\ isBusinessDay tz (addDays tz d (Z.of_nat k)) H = true
       /\ Z.of_nat (businessDaysWithin tz H d k) = 1
       /\ TimeWithinDay (LocalTime tz (addDays tz d (Z.of_nat k)))
          = TimeWithinDay (LocalTime tz d)
       /\ (Day d = Day (LocalTime tz d) ->
           isLocalBusinessDay tz H (addDays tz d (Z.of_nat k)) = true
           /\ Z.of_nat (localBusinessDaysWithin tz H d k) = 1).
Proof.
  intros tz H d.
  assert (Hn : 0 < 1) by reflexivity.
  assert (Hf : (Z.to_nat 1 * (enoughFuel H + 1) <= 21)%nat) by (vm_compute; lia).
  assert (Hlo : - maxTimeValue <= d) by (vm_compute; discriminate).
  assert (Hhi : d + 1 * (Z.of_nat (enoughFuel H) + 1) * msPerDay <= maxTimeValue)
    by (vm_compute; discriminate).
  split; [exact Hn|]. split; [exact Hf|]. split; [exact Hlo|]. split; [exact Hhi|].
  exact (addBusinessDays_counts_business_days tz 21 d 1 H Hn Hf Hlo Hhi).
Defined.

Lemma addBusinessHours_lands_in_working_hours_witness :
  let d := civil 0 2025 9 19 16 30 0 in
  0 < 2
  /\ (enoughFuel [] + Z.to_nat 2 + 2 <= 10)%nat
  /\ - maxTimeValue <= d - (Z.of_nat (enoughFuel []) + 3) * msPerDay
  /\ d + (2 + 1) * (Z.of_nat (enoughFuel []) + 3) * msPerDay <= maxTimeValue
  /\ exists r,
       addBusinessHours 0 10 d 2 [] = Some r
       /\ d - (Z.of_nat (enoughFuel []) + 3) * msPerDay < r
          < d + (2 + 1) * (Z.of_nat (enoughFuel []) + 3) * msPerDay
       /\ - maxTimeValue < r < maxTimeValue
       /\ 1 <= getDay 0 r <= 5
       /\ (8 * 60 < minutesOfDay 0 r <= 12 * 60
           \/ 13 * 60 < minutesOfDay 0 r <= 17 * 60)
       /\ isWithinWorkingHours 0 (addMinutes r (-1)) = true.
Proof.
  intros d.
  assert (Hn : 0 < 2) by reflexivity.
  assert (Hf : (enoughFuel [] + Z.to_nat 2 + 2 <= 10)%nat) by (vm_compute; lia).
  assert (Hlo : - maxTimeValue <= d - (Z.of_nat (enoughFuel []) + 3) * msPerDay)
    by (vm_compute; discriminate).
  assert (Hhi : d + (2 + 1) * (Z.of_nat (enoughFuel []) + 3) * msPerDay <= maxTimeValue)
    by (vm_compute; discriminate).
  split; [exact Hn|]. split; [exact Hf|]. split; [exact Hlo|]. split; [exact Hhi|].
  exact (addBusinessHours_lands_in_working_hours 0 10 d 2 [] Hn Hf Hlo Hhi).
Defined.

Lemma calculateBusinessTime_identity_witness :
  let startDate := instant 2025 9 16 15 0 0 in
  bogotaStandardSince <= startDate
  /\ isBusinessDay 0 (utcToColombiaTime 0 startDate) [] = true
  /\ isWithinWorkingHours 0 (utcToColombiaTime 0 startDate) = true
  /\ positive (Some 0) = None
  /\ positive None = None
  /\ calculateBusinessTime 0 6 0 (Some startDate) (Some 0) None [] = Some startDate.
Proof.
  intros startDate.
  assert (Hs : bogotaStandardSince <= startDate) by (vm_compute; discriminate).
  assert (Hb : isBusinessDay 0 (utcToColombiaTime 0 startDate) [] = true)
    by (vm_compute; reflexivity).
  assert (Hw : isWithinWorkingHours 0 (utcToColombiaTime 0 startDate) = true)
    by (vm_compute; reflexivity).
  assert (Hd : positive (Some 0) = None) by reflexivity.
  assert (Hh : positive None = None) by reflexivity.
  split; [exact Hs|]. split; [exact Hb|]. split; [exact Hw|]. split; [exact Hd|].
  split; [exact Hh|].
  exact (calculateBusinessTime_identity 0 6 0 startDate (Some 0) None [] Hs Hb Hw Hd Hh).
Defined.

Lemma calculateBusinessTime_returns_witness :
  let start := instant 2025 9 20 15 0 0 in
  let F := Z.of_nat (enoughFuel []) in
  let span := Z.of_nat 1 * (F + 1) + (Z.of_nat 2 + 1) * (F + 3) + 4 in
  (1 * (enoughFuel [] + 1) + enoughFuel [] + 2 + 2 <= 17)%nat
  /\ - msPerDay <= 0 <= msPerDay
  /\ bogotaStandardSince + (2 * F + 9) * msPerDay <= start
  /\ start + span * msPerDay <= maxTimeValue
  /\ exists r,
       calculateBusinessTime 0 17 0 (Some start) (Some 1) (Some 2) [] = Some r
       /\ start - (2 * F + 9) * msPerDay < r < start + span * msPerDay
       /\ bogotaStandardSince < r < maxTimeValue
       /\ (forall n, Some 2 = Some n -> 0 < n ->
           1 <= getDay 0 (utcToColombiaTime 0 r) <= 5
           /\ (8 * 60 < minutesOfDay 0 (utcToColombiaTime 0 r) <= 12 * 60
               \/ 13 * 60 < minutesOfDay 0 (utcToColombiaTime 0 r) <= 17 * 60)).
Proof.
  intros start F span.
  assert (Hf : (1 * (enoughFuel [] + 1) + enoughFuel [] + 2 + 2 <= 17)%nat)
    by (vm_compute; lia).
  assert (Htz : - msPerDay <= 0 <= msPerDay) by (vm_compute; split; discriminate).
  assert (Hlo : bogotaStandardSince + (2 * F + 9) * msPerDay <= start)
    by (vm_compute; discriminate).
  assert (Hhi : start + span * msPerDay <= maxTimeValue) by (vm_compute; discriminate).
  split; [exact Hf|]. split; [exact Htz|]. split; [exact Hlo|]. split; [exact Hhi|].
  exact (calculateBusinessTime_returns 0 17 0 (Some start) (Some 1) (Some 2) [] Hf Htz Hlo Hhi).
Defined.

End BusinessTimeRange.

(** *** src/holidays.ts and src/fallbackHolidays.ts: calls, status and fallback *)

Module HolidaysExtra.
Import Js JsDouble FallbackHolidays HolidaysService Support ServiceSupport HolidaysFacts.

Section Service.
Variable tz : Z.

(** Among the first [n] attempts, either all fail or there is a first one
    that does not. *)
Lemma first_answer (net : nat -> AxiosOutcome) : forall n : nat,
  (forall j, (j < n)%nat -> attemptFails (net j) = true)
  \/ exists k, (k < n)%nat /\ attemptFails (net k) = false
       /\ forall j, (j < k)%nat -> attemptFails (net j) = true.
Proof.
  induction n as [|n IH].
  - left. intros j Hj. lia.
  - destruct IH as [Hall|(k & Hk & Hok & Hbefore)].
    + destruct (attemptFails (net n)) eqn:E.
      * left. intros j Hj. destruct (Nat.eq_dec j n) as [->|Hne]; [exact E|apply Hall; lia].
      * right. exists n. split; [lia|]. split; [exact E|exact Hall].
    + right. exists k. split; [lia|]. split; [exact Hok|exact Hbefore].
Qed.

Lemma attemptFails_false o : attemptFails o = false -> exists data, o = Resolved (PArray data).
Proof. destruct o as [[data|]|reason]; cbn; try discriminate. eauto. Qed.

Lemma fetchWithRetry_answer url net random k data :
  (k <= 3)%nat ->
  (forall j, (j < k)%nat -> attemptFails (net j) = true) ->
  net k = Resolved (PArray data) ->
  fetchWithRetry url net random = (Returns data, retryTrace url random k).
Proof.
  intros Hk Hfail Hok. unfold fetchWithRetry.
  rewrite (fetchAttempts_success url net random (MAX_RETRIES + 1) 0 None [] k data);
    [|unfold MAX_RETRIES; lia|intros j Hj; apply Hfail; lia|exact Hok].
  rewrite Nat.sub_0_r. reflexivity.
Qed.

(** The fetch either meets a first attempt that answers, or fails four
    times. *)
Lemma fetchWithRetry_cases url net random :
  (exists k data, (k <= 3)%nat
     /\ (forall j, (j < k)%nat -> attemptFails (net j) = true)
     /\ net k = Resolved (PArray data)
     /\ fetchWithRetry url net random = (Returns data, retryTrace url random k))
  \/ (exhausted net
      /\ fetchWithRetry url net random =
           (Throws (ThrownError (attemptError (net 3%nat))), retryTrace url random 3)).
Proof.
  destruct (first_answer net 4) as [Hall|(k & Hk & Hok & Hbefore)].
  - right. assert (Hex : exhausted net).
    { intros j Hj. apply Hall. unfold MAX_RETRIES in Hj. lia. }
    split; [exact Hex|apply fetchWithRetry_exhausted; exact Hex].
  - left. destruct (attemptFails_false _ Hok) as (data & Hd).
    exists k, data. split; [lia|]. split; [exact Hbefore|]. split; [exact Hd|].
    apply fetchWithRetry_answer; [lia|exact Hbefore|exact Hd].
Qed.

(** X13. A call that reaches the fetch and is answered stores the list; every
    call within the next 24 hours returns it from the cache with no request. *)
Theorem fetch_success_then_cached st now year url net random k data
    now' year' url' net' random' :
  cacheIsValid st now = false ->
  fst (isCircuitOpen st now) = false ->
  (k <= 3)%nat ->
  (forall j, (j < k)%nat -> attemptFails (net j) = true) ->
  net k = Resolved (PArray data) ->
  now' - now < CACHE_DURATION ->
  let st' :=
    {| cache := Some data; lastFetch := now;
       circuitBreaker :=
         {| failures := 0;
            lastFailureTime := lastFailureTime (circuitBreaker st);
            state := CLOSED |} |} in
  getColombianHolidays tz st now year url net random =
    (Returns {| holidays := data; status := HEALTHY; source := API;
                lastUpdated := Some now |}, st', retryTrace url random k)
  /\ getColombianHolidays tz st' now' year' url' net' random' =
       (Returns {| holidays := data; status := HEALTHY; source := CACHE;
                   lastUpdated := Some now |}, st', []).
Proof.
  intros Hc Ho Hk Hfail Hok Hage st'. split.
  - rewrite getColombianHolidays_unfold, Hc. cbv zeta. rewrite Ho.
    rewrite (fetchWithRetry_answer url net random k data Hk Hfail Hok).
    destruct (isCircuitOpen_cache st now) as (_ & _ & _ & Et).
    unfold resetCircuitBreaker. cbn [circuitBreaker]. rewrite Et. reflexivity.
  - rewrite getColombianHolidays_unfold. unfold cacheIsValid. cbn [cache lastFetch st'].
    apply Z.ltb_lt in Hage. rewrite Hage. reflexivity.
Qed.

(** X14. The effects of any call: none when the cache is valid or the
    circuit blocks; otherwise a request, then a sleep and a request per
    retry, up to the first attempt that answers or to the fourth attempt. *)
Theorem call_effects st now year url net random :
  let trace := snd (getColombianHolidays tz st now year url net random) in
  (cacheIsValid st now = true \/ fst (isCircuitOpen st now) = true -> trace = [])
  /\ (cacheIsValid st now = false -> fst (isCircuitOpen st now) = false ->
      exists k, (k <= 3)%nat
        /\ trace = retryTrace url random k
        /\ gets trace = S k
        /\ (forall j, (j < k)%nat -> attemptFails (net j) = true)
        /\ (attemptFails (net k) = false \/ k = 3%nat)).
Proof.
  cbv zeta. rewrite getColombianHolidays_unfold. split.
  - intros [Hc|Ho].
    + rewrite Hc. reflexivity.
    + destruct (cacheIsValid st now); [reflexivity|]. cbv zeta. rewrite Ho. reflexivity.
  - intros Hc Ho. rewrite Hc. cbv zeta. rewrite Ho.
    destruct (fetchWithRetry_cases url net random)
      as [(k & data & Hk & Hfail & Hok & Hf)|(Hex & Hf)]; rewrite Hf; cbn [snd].
    + exists k. split; [exact Hk|]. split; [reflexivity|].
      split; [apply gets_retryTrace|]. split; [exact Hfail|].
      left. rewrite Hok. reflexivity.
    + exists 3%nat. split; [lia|]. split; [reflexivity|].
      split; [apply gets_retryTrace|]. split; [|right; reflexivity].
      intros j Hj. apply Hex. unfold MAX_RETRIES. lia.
Qed.

End Service.

(** X15. Between calls the circuit is never HALF_OPEN: after any sequence of
    calls from the start it is OPEN when three or more failures in a row are
    recorded and CLOSED otherwise. *)
Theorem reachable_circuit_state tz calls :
  let cb := circuitBreaker (run tz initialState calls) in
  0 <= failures cb
  /\ state cb <> HALF_OPEN
  /\ (state cb = OPEN <-> MAX_FAILURES <= failures cb)
  /\ (state cb = CLOSED <-> failures cb < MAX_FAILURES).
Proof.
  cbv zeta.
  destruct (consistent_run tz calls initialState consistent_initial) as [Hph _].
  unfold MAX_FAILURES in *.
  destruct Hph as [[Hs Hf]|[Hs Hf]]; rewrite Hs.
  - split; [lia|]. split; [discriminate|]. split; split; intros; try discriminate; try lia.
    reflexivity.
  - split; [lia|]. split; [discriminate|]. split; split; intros; try discriminate; try lia.
    reflexivity.
Qed.

(** X16. For the three retries the service makes, the 10-second cap of the
    backoff is never applied: the delay before retry [k], computed in
    doubles, is at least 1000 * 2^(k-1) and at most 1100 * 2^(k-1) ms, so at
    most 4400 ms.  Both bounds are reached: the lower one when
    [Math.random()] is 0, the upper one when it is 1 - 2^-52. *)
Theorem backoff_cap_not_reached (k : nat) (r : Q) :
  (1 <= k <= MAX_RETRIES)%nat -> (0 <= r)%Q -> (r < 1)%Q ->
  (inject_Z (1000 * 2 ^ (Z.of_nat k - 1)) <= calculateBackoffDelay k r)%Q
  /\ (calculateBackoffDelay k r <= inject_Z (1100 * 2 ^ (Z.of_nat k - 1)))%Q
  /\ (calculateBackoffDelay k r <= inject_Z 4400)%Q
  /\ (calculateBackoffDelay k r < inject_Z 10000)%Q
  /\ (calculateBackoffDelay k 0 == inject_Z (1000 * 2 ^ (Z.of_nat k - 1)))%Q
  /\ (calculateBackoffDelay k (1 - (1 # 2) ^ 52)
      == inject_Z (1100 * 2 ^ (Z.of_nat k - 1)))%Q.
Proof.
  intros Hk Hr0 Hr1.
  destruct (backoff_retry_bounds k r Hk Hr0 Hr1) as [A B].
  split; [exact A|]. split; [exact B|].
  unfold MAX_RETRIES in Hk.
  assert (Hcase : k = 1%nat \/ k = 2%nat \/ k = 3%nat) by lia.
  assert (Hu : (inject_Z (1100 * 2 ^ (Z.of_nat k - 1)) <= inject_Z 4400)%Q).
  { destruct Hcase as [-> | [-> | ->]]; vm_compute; discriminate. }
  split; [eapply Qle_trans; [exact B|exact Hu]|].
  split.
  - eapply Qle_lt_trans; [exact B|].
    eapply Qle_lt_trans; [exact Hu|]. reflexivity.
  - clear A B Hu Hr0 Hr1.
    destruct Hcase as [-> | [-> | ->]]; split; vm_compute; reflexivity.
Qed.

(** X17. A fetch that fails four times has slept three times, at least 7
    and at most 7.7 seconds in total; 7.7 seconds are reached when
    [Math.random()] is 1 - 2^-52 each time. *)
Theorem exhausted_fetch_sleeps url net random :
  exhausted net ->
  (forall k, (1 <= k <= 3)%nat -> (0 <= random k)%Q /\ (random k < 1)%Q) ->
  let trace := snd (fetchWithRetry url net random) in
  gets trace = 4%nat
  /\ (slept trace
      == calculateBackoffDelay 1 (random 1%nat) + calculateBackoffDelay 2 (random 2%nat)
         + calculateBackoffDelay 3 (random 3%nat))%Q
  /\ (inject_Z 7000 <= slept trace)%Q
  /\ (slept trace <= inject_Z 7700)%Q
  /\ (slept (snd (fetchWithRetry url net (fun _ => 1 - (1 # 2) ^ 52)))
      == inject_Z 7700)%Q.
Proof.
  intros Hex Hr. cbv zeta.
  rewrite !(fetchWithRetry_exhausted url net _ Hex). cbn [snd].
  split; [reflexivity|].
  assert (Hs : forall rnd, (slept (retryTrace url rnd 3)
                == calculateBackoffDelay 1 (rnd 1%nat)
                   + calculateBackoffDelay 2 (rnd 2%nat)
                   + calculateBackoffDelay 3 (rnd 3%nat))%Q).
  { intros rnd. unfold retryTrace. cbn [seq flat_map List.app slept].
    generalize (calculateBackoffDelay 1 (rnd 1%nat)) (calculateBackoffDelay 2 (rnd 2%nat))
      (calculateBackoffDelay 3 (rnd 3%nat)).
    intros d1 d2 d3. ring. }
  split; [apply Hs|]. rewrite !Hs.
  destruct (Hr 1%nat ltac:(lia)) as [A1 B1].
  destruct (Hr 2%nat ltac:(lia)) as [A2 B2].
  destruct (Hr 3%nat ltac:(lia)) as [A3 B3].
  destruct (backoff_retry_bounds 1 _ ltac:(unfold MAX_RETRIES; lia) A1 B1) as [L1 U1].
  destruct (backoff_retry_bounds 2 _ ltac:(unfold MAX_RETRIES; lia) A2 B2) as [L2 U2].
  destruct (backoff_retry_bounds 3 _ ltac:(unfold MAX_RETRIES; lia) A3 B3) as [L3 U3].
  change (1000 * 2 ^ (Z.of_nat 1 - 1)) with 1000 in L1.
  change (1000 * 2 ^ (Z.of_nat 2 - 1)) with 2000 in L2.
  change (1000 * 2 ^ (Z.of_nat 3 - 1)) with 4000 in L3.
  change (1100 * 2 ^ (Z.of_nat 1 - 1)) with 1100 in U1.
  change (1100 * 2 ^ (Z.of_nat 2 - 1)) with 2200 in U2.
  change (1100 * 2 ^ (Z.of_nat 3 - 1)) with 4400 in U3.
  set (d1 := calculateBackoffDelay 1 (random 1%nat)) in *.
  set (d2 := calculateBackoffDelay 2 (random 2%nat)) in *.
  set (d3 := calculateBackoffDelay 3 (random 3%nat)) in *.
  split; [unfold inject_Z in *; lra|].
  split; [unfold inject_Z in *; lra|].
  vm_compute. reflexivity.
Qed.

Section Status.
Import HolidaysServiceStatus.
Variable tz : Z.

(** X18. After any sequence of calls, the status report is FAILED exactly
    when three or more failures in a row are recorded, whatever the time of
    the report: the report does not look at the five-minute timeout and
    does not change the static fields. *)
Theorem service_status_failed_iff calls now :
  let st := run tz initialState calls in
  let report := getServiceStatus st now in
  (HolidaysServiceStatus.status report = FAILED
   <-> MAX_FAILURES <= HolidaysService.failures (circuitBreaker st))
  /\ (HolidaysServiceStatus.status report = FAILED <-> circuitState report = OPEN)
  /\ circuitState report <> HALF_OPEN
  /\ HolidaysServiceStatus.failures report = HolidaysService.failures (circuitBreaker st).
Proof.
  cbv zeta.
  destruct (consistent_run tz calls initialState consistent_initial) as [Hph _].
  set (st := run tz initialState calls) in *.
  unfold getServiceStatus.
  cbn [HolidaysServiceStatus.status circuitState HolidaysServiceStatus.failures].
  unfold MAX_FAILURES in *.
  destruct Hph as [[Hs Hf]|[Hs Hf]]; rewrite Hs.
  - assert (Hne : forall x : HolidayServiceStatus,
              (x = HEALTHY \/ x = DEGRADED) -> x <> FAILED) by (intros x [-> | ->]; discriminate).
    set (x := match (if HolidaysService.lastFetch st =? 0 then None
                     else Some (now - HolidaysService.lastFetch st)) with
              | Some age => if negb (age =? 0) && (CACHE_DURATION <? age) then DEGRADED else HEALTHY
              | None => HEALTHY
              end).
    assert (Hx : x = HEALTHY \/ x = DEGRADED).
    { subst x. destruct (HolidaysService.lastFetch st =? 0); [left; reflexivity|].
      destruct (negb (now - HolidaysService.lastFetch st =? 0)
                && (CACHE_DURATION <? now - HolidaysService.lastFetch st)); auto. }
    pose proof (Hne x Hx) as Hnf.
    split; [split; [intros E; contradiction|lia]|].
    split; [split; [intros E; contradiction|discriminate]|].
    split; [discriminate|reflexivity].
  - split; [split; [lia|reflexivity]|].
    split; [split; reflexivity|]. split; [discriminate|reflexivity].
Qed.

(** X19. From a cold start (no cache, never fetched, circuit CLOSED, fewer
    than two failures recorded), a call whose fetch fails four times returns
    the fallback table as FAILED, yet a status report made afterwards says
    HEALTHY, with no last fetch and no cache age. *)
Theorem status_healthy_after_cold_failure st now year url net random now' :
  cache st = None ->
  HolidaysService.lastFetch st = 0 ->
  state (circuitBreaker st) = CLOSED ->
  HolidaysService.failures (circuitBreaker st) + 1 < MAX_FAILURES ->
  exhausted net ->
  let out := getColombianHolidays tz st now year url net random in
  let report := getServiceStatus (snd (fst out)) now' in
  fst (fst out) = Returns (getFallbackResult tz year)
  /\ HolidaysService.status (getFallbackResult tz year) = FAILED
  /\ HolidaysServiceStatus.status report = HEALTHY
  /\ HolidaysServiceStatus.lastFetch report = None
  /\ cacheAge report = None
  /\ HolidaysServiceStatus.failures report
     = HolidaysService.failures (circuitBreaker st) + 1.
Proof.
  intros Hc Hl Hs Hf Hex. cbv zeta.
  rewrite getColombianHolidays_unfold.
  unfold cacheIsValid, isCircuitOpen. rewrite Hc, Hs. cbv zeta. cbn [fst snd].
  rewrite (fetchWithRetry_exhausted url net random Hex). cbn [fst snd]. rewrite Hc.
  split; [reflexivity|]. split; [reflexivity|].
  unfold getServiceStatus, recordFailure.
  cbn [HolidaysServiceStatus.status circuitState HolidaysServiceStatus.failures
       HolidaysServiceStatus.lastFetch cacheAge
       circuitBreaker HolidaysService.lastFetch HolidaysService.failures state].
  rewrite Hl, Hs. apply Z.leb_gt in Hf. rewrite Hf.
  repeat split; reflexivity.
Qed.

(** X20. When the status report is DEGRADED, a call at the same instant is
    not served from the cache and not blocked by the circuit: it makes at
    least one request. *)
Theorem status_degraded_call_fetches st now year url net random :
  HolidaysServiceStatus.status (getServiceStatus st now) = DEGRADED ->
  cacheIsValid st now = false
  /\ fst (isCircuitOpen st now) = false
  /\ exists k, (k <= 3)%nat
       /\ snd (getColombianHolidays tz st now year url net random) = retryTrace url random k.
Proof.
  unfold getServiceStatus. cbn [HolidaysServiceStatus.status]. intros Hd.
  assert (Hns : state (circuitBreaker st) <> OPEN) by (intros E; rewrite E in Hd; discriminate).
  assert (Hage : CACHE_DURATION < now - HolidaysService.lastFetch st).
  { destruct (state (circuitBreaker st)); try discriminate;
      destruct (HolidaysService.lastFetch st =? 0); try discriminate;
      destruct (negb (now - HolidaysService.lastFetch st =? 0)) ; cbn [andb] in Hd; try discriminate;
      destruct (CACHE_DURATION <? now - HolidaysService.lastFetch st) eqn:E; try discriminate;
      apply Z.ltb_lt in E; exact E. }
  assert (Hc : cacheIsValid st now = false).
  { unfold cacheIsValid. destruct (cache st); [|reflexivity]. apply Z.ltb_ge. lia. }
  assert (Ho : fst (isCircuitOpen st now) = false).
  { unfold isCircuitOpen. destruct (state (circuitBreaker st)); try reflexivity. contradiction. }
  split; [exact Hc|]. split; [exact Ho|].
  rewrite getColombianHolidays_unfold, Hc. cbv zeta. rewrite Ho.
  destruct (fetchWithRetry_cases url net random)
    as [(k & data & Hk & _ & _ & Hf)|(_ & Hf)]; rewrite Hf; cbn [snd].
  - exists k. split; [exact Hk|reflexivity].
  - exists 3%nat. split; [lia|reflexivity].
Qed.

End Status.

Section Fallback.
Variable tz : Z.

(** The year of an entry that parses to a midnight UTC depends on the zone
    through the whole days of its offset only. *)
Lemma holidayYear_midnight h t :
  parseDateOnly h = Some t ->
  t mod msPerDay = 0 ->
  holidayYear tz h = Some (YearFromTime ((Day t + Day tz) * msPerDay)).
Proof.
  intros Hp Hm. unfold holidayYear. rewrite Hp. cbn [option_map]. f_equal.
  unfold getFullYear, YearFromTime, LocalTime.
  replace (Day ((Day t + Day tz) * msPerDay)) with (Day (t + tz)); [reflexivity|].
  revert Hm. unfold Day, msPerDay. intros. Z.div_mod_to_equations. lia.
Qed.

(** A year for every entry of the table, checked entry by entry for a zone
    whose offset is [q] whole days. *)
Lemma table_years (q : Z) (expected : string -> option Z) :
  forallb (fun h =>
    match parseDateOnly h with
    | Some t =>
        (t mod msPerDay =? 0)
        && match expected h with
           | Some y => YearFromTime ((Day t + q) * msPerDay) =? y
           | None => false
           end
    | None => false
    end) FALLBACK_COLOMBIAN_HOLIDAYS = true ->
  Day tz = q ->
  forall h, In h FALLBACK_COLOMBIAN_HOLIDAYS -> holidayYear tz h = expected h.
Proof.
  intros Hall Hq h Hin.
  rewrite forallb_forall in Hall. specialize (Hall h Hin).
  destruct (parseDateOnly h) as [t|] eqn:Hp; [|discriminate].
  apply andb_true_iff in Hall. destruct Hall as [Hm Hy].
  apply Z.eqb_eq in Hm.
  rewrite (holidayYear_midnight h t Hp Hm), Hq.
  destruct (expected h) as [y|]; [|discriminate].
  apply Z.eqb_eq in Hy. rewrite Hy. reflexivity.
Qed.

(** With both bounds given and not 0, the filter is the test of the year
    range. *)
Lemma getFallbackHolidays_by (year : string -> option Z) s e :
  s <> 0 -> e <> 0 ->
  (forall h, In h FALLBACK_COLOMBIAN_HOLIDAYS -> holidayYear tz h = year h) ->
  getFallbackHolidays tz (Some s) (Some e) =
  filter (fun h => inYearRange (year h) s e) FALLBACK_COLOMBIAN_HOLIDAYS.
Proof.
  intros Hs He Hy. unfold getFallbackHolidays, falsy.
  destruct (s =? 0) eqn:E0; [apply Z.eqb_eq in E0; contradiction|].
  destruct (e =? 0) eqn:E1; [apply Z.eqb_eq in E1; contradiction|].
  cbn [andb orb]. apply filter_ext_in. intros h Hin. cbv zeta.
  rewrite (Hy h Hin). unfold inYearRange, geNum, leNum. destruct (year h); reflexivity.
Qed.

Lemma Day_east : 0 <= tz < msPerDay -> Day tz = 0.
Proof. unfold Day, msPerDay. intros. Z.div_mod_to_equations. lia. Qed.

Lemma Day_west : - msPerDay <= tz < 0 -> Day tz = -1.
Proof. unfold Day, msPerDay. intros. Z.div_mod_to_equations. lia. Qed.

(** X21. In a process whose zone is UTC or east of it, the fallback table is
    filtered by the year each entry is printed with. *)
Theorem fallback_years_east_of_utc s e :
  0 <= tz < msPerDay -> s <> 0 -> e <> 0 ->
  getFallbackHolidays tz (Some s) (Some e) =
  filter (fun h => inYearRange (printedYear h) s e) FALLBACK_COLOMBIAN_HOLIDAYS.
Proof.
  intros Htz Hs He. apply getFallbackHolidays_by; [exact Hs|exact He|].
  apply (table_years 0); [vm_compute; reflexivity|apply Day_east; exact Htz].
Qed.

(** X22. In a process whose zone is west of UTC, an entry of the first of
    January counts for the year before the one it is printed with: the
    fallback list for 2025 and 2026 has no "2025-01-01", and the list for
    2024 has it. *)
Theorem fallback_new_year_west_of_utc s e :
  - msPerDay <= tz < 0 -> s <> 0 -> e <> 0 ->
  getFallbackHolidays tz (Some s) (Some e) =
    filter (fun h => inYearRange (yearWestOfUtc h) s e) FALLBACK_COLOMBIAN_HOLIDAYS
  /\ ~ In "2025-01-01"%string (holidays (getFallbackResult tz 2025))
  /\ In "2025-01-01"%string (getFallbackHolidays tz (Some 2024) (Some 2024)).
Proof.
  intros Htz Hs He.
  assert (Hy : forall h, In h FALLBACK_COLOMBIAN_HOLIDAYS ->
                 holidayYear tz h = yearWestOfUtc h).
  { apply (table_years (-1)); [vm_compute; reflexivity|apply Day_west; exact Htz]. }
  split; [apply getFallbackHolidays_by; assumption|].
  unfold getFallbackResult. cbn [holidays].
  rewrite !(getFallbackHolidays_by yearWestOfUtc) by (assumption || discriminate).
  split.
  - vm_compute. intros H. repeat (destruct H as [H|H]; [discriminate H|]). exact H.
  - vm_compute. tauto.
Qed.

(** X23. From 2026 on the fallback result is the empty list, in every zone
    less than a day from UTC. *)
Theorem fallback_empty_from_2026 year :
  - msPerDay <= tz < msPerDay -> 2026 <= year ->
  getFallbackResult tz year =
    {| holidays := []; status := FAILED; source := FALLBACK; lastUpdated := None |}.
Proof.
  intros Htz Hy. unfold getFallbackResult. f_equal.
  assert (Hcase : exists year' : string -> option Z,
            (forall h, In h FALLBACK_COLOMBIAN_HOLIDAYS -> holidayYear tz h = year' h)
            /\ forallb (fun h => match year' h with
                                 | Some y => y <=? 2025
                                 | None => true
                                 end) FALLBACK_COLOMBIAN_HOLIDAYS = true).
  { destruct (Z_lt_ge_dec tz 0) as [Hw|He].
    - exists yearWestOfUtc. split; [|vm_compute; reflexivity].
      apply (table_years (-1)); [vm_compute; reflexivity|apply Day_west; lia].
    - exists printedYear. split; [|vm_compute; reflexivity].
      apply (table_years 0); [vm_compute; reflexivity|apply Day_east; lia]. }
  destruct Hcase as (year' & Hyear & Hold).
  rewrite (getFallbackHolidays_by year') by (lia || exact Hyear).
  rewrite forallb_forall in Hold. clear Hyear.
  induction FALLBACK_COLOMBIAN_HOLIDAYS as [|h l IH]; [reflexivity|].
  cbn [filter].
  assert (Hh : inYearRange (year' h) year (year + 1) = false).
  { specialize (Hold h (or_introl eq_refl)). unfold inYearRange.
    destruct (year' h) as [y|]; [|reflexivity].
    apply Z.leb_le in Hold. apply andb_false_iff. left. apply Z.leb_gt. lia. }
  rewrite Hh. apply IH. intros x Hx. apply Hold. right. exact Hx.
Qed.

End Fallback.

(** The theorems above at sample inputs. *)

Lemma fetch_success_then_cached_witness :
  let data := ["2025-01-01"%string] in
  let st' :=
    {| cache := Some data; lastFetch := 1000;
       circuitBreaker := {| failures := 0; lastFailureTime := 0; state := CLOSED |} |} in
  cacheIsValid initialState 1000 = false
  /\ fst (isCircuitOpen initialState 1000) = false
  /\ (1 <= 3)%nat
  /\ (forall j, (j < 1)%nat -> attemptFails (secondAnswers j) = true)
  /\ secondAnswers 1%nat = Resolved (PArray data)
  /\ 2000 - 1000 < CACHE_DURATION
  /\ getColombianHolidays 0 initialState 1000 2025 "u" secondAnswers (fun _ => 0%Q) =
       (Returns {| holidays := data; status := HEALTHY; source := API;
                   lastUpdated := Some 1000 |}, st', retryTrace "u" (fun _ => 0%Q) 1)
  /\ getColombianHolidays 0 st' 2000 2025 "u" alwaysRejects (fun _ => 0%Q) =
       (Returns {| holidays := data; status := HEALTHY; source := CACHE;
                   lastUpdated := Some 1000 |}, st', []).
Proof.
  intros data st'.
  assert (Hc : cacheIsValid initialState 1000 = false) by reflexivity.
  assert (Ho : fst (isCircuitOpen initialState 1000) = false) by reflexivity.
  assert (Hk : (1 <= 3)%nat) by lia.
  assert (Hf : forall j, (j < 1)%nat -> attemptFails (secondAnswers j) = true).
  { intros [|j] Hj; [reflexivity|]. exfalso. inversion Hj as [|m Hm]. inversion Hm. }
  assert (Hok : secondAnswers 1%nat = Resolved (PArray data)) by reflexivity.
  assert (Hage : 2000 - 1000 < CACHE_DURATION) by reflexivity.
  split; [exact Hc|]. split; [exact Ho|]. split; [exact Hk|]. split; [exact Hf|].
  split; [exact Hok|]. split; [exact Hage|].
  exact (fetch_success_then_cached 0 initialState 1000 2025 "u"%string secondAnswers
           (fun _ => 0%Q) 1 data 2000 2025 "u"%string alwaysRejects (fun _ => 0%Q)
           Hc Ho Hk Hf Hok Hage).
Defined.

Lemma backoff_cap_not_reached_witness :
  (1 <= 2 <= MAX_RETRIES)%nat
  /\ (0 <= 1 # 2)%Q
  /\ (1 # 2 < 1)%Q
  /\ (inject_Z (1000 * 2 ^ (Z.of_nat 2 - 1)) <= calculateBackoffDelay 2 (1 # 2))%Q
  /\ (calculateBackoffDelay 2 (1 # 2) <= inject_Z (1100 * 2 ^ (Z.of_nat 2 - 1)))%Q
  /\ (calculateBackoffDelay 2 (1 # 2) <= inject_Z 4400)%Q
  /\ (calculateBackoffDelay 2 (1 # 2) < inject_Z 10000)%Q
  /\ (calculateBackoffDelay 2 0 == inject_Z (1000 * 2 ^ (Z.of_nat 2 - 1)))%Q
  /\ (calculateBackoffDelay 2 (1 - (1 # 2) ^ 52)
      == inject_Z (1100 * 2 ^ (Z.of_nat 2 - 1)))%Q.
Proof.
  assert (Hk : (1 <= 2 <= MAX_RETRIES)%nat) by (unfold MAX_RETRIES; lia).
  assert (Hr0 : (0 <= 1 # 2)%Q) by (vm_compute; discriminate).
  assert (Hr1 : (1 # 2 < 1)%Q) by (vm_compute; reflexivity).
  split; [exact Hk|]. split; [exact Hr0|]. split; [exact Hr1|].
  exact (backoff_cap_not_reached 2 (1 # 2) Hk Hr0 Hr1).
Defined.

Lemma exhausted_fetch_sleeps_witness :
  let random := fun _ : nat => 1 # 2 in
  let trace := snd (fetchWithRetry "u" alwaysRejects random) in
  exhausted alwaysRejects
  /\ (forall k, (1 <= k <= 3)%nat -> (0 <= random k)%Q /\ (random k < 1)%Q)
  /\ gets trace = 4%nat
  /\ (slept trace
      == calculateBackoffDelay 1 (random 1%nat) + calculateBackoffDelay 2 (random 2%nat)
         + calculateBackoffDelay 3 (random 3%nat))%Q
  /\ (inject_Z 7000 <= slept trace)%Q
  /\ (slept trace <= inject_Z 7700)%Q
  /\ (slept (snd (fetchWithRetry "u" alwaysRejects (fun _ => 1 - (1 # 2) ^ 52)))
      == inject_Z 7700)%Q.
Proof.
  intros random trace.
  assert (Hr : forall k, (1 <= k <= 3)%nat -> (0 <= random k)%Q /\ (random k < 1)%Q).
  { intros k _. split; [vm_compute; discriminate|vm_compute; reflexivity]. }
  split; [exact alwaysRejects_exhausted|]. split; [exact Hr|].
  exact (exhausted_fetch_sleeps "u"%string alwaysRejects random alwaysRejects_exhausted Hr).
Defined.

Lemma status_healthy_after_cold_failure_witness :
  let out := getColombianHolidays 0 initialState 1000 2025 "u" alwaysRejects (fun _ => 0%Q) in
  let report := HolidaysServiceStatus.getServiceStatus (snd (fst out)) 2000 in
  cache initialState = None
  /\ lastFetch initialState = 0
  /\ state (circuitBreaker initialState) = CLOSED
  /\ failures (circuitBreaker initialState) + 1 < MAX_FAILURES
  /\ exhausted alwaysRejects
  /\ fst (fst out) = Returns (getFallbackResult 0 2025)
  /\ status (getFallbackResult 0 2025) = FAILED
  /\ HolidaysServiceStatus.status report = HEALTHY
  /\ HolidaysServiceStatus.lastFetch report = None
  /\ HolidaysServiceStatus.cacheAge report = None
  /\ HolidaysServiceStatus.failures report = failures (circuitBreaker initialState) + 1.
Proof.
  intros out report.
  assert (Hc : cache initialState = None) by reflexivity.
  assert (Hl : lastFetch initialState = 0) by reflexivity.
  assert (Hs : state (circuitBreaker initialState) = CLOSED) by reflexivity.
  assert (Hf : failures (circuitBreaker initialState) + 1 < MAX_FAILURES) by reflexivity.
  split; [exact Hc|]. split; [exact Hl|]. split; [exact Hs|]. split; [exact Hf|].
  split; [exact alwaysRejects_exhausted|].
  exact (status_healthy_after_cold_failure 0 initialState 1000 2025 "u"%string alwaysRejects
           (fun _ => 0%Q) 2000 Hc Hl Hs Hf alwaysRejects_exhausted).
Defined.

Lemma status_degraded_call_fetches_witness :
  let now := 1000 + CACHE_DURATION + 1 in
  HolidaysServiceStatus.status (HolidaysServiceStatus.getServiceStatus sampleState now)
  = DEGRADED
  /\ cacheIsValid sampleState now = false
  /\ fst (isCircuitOpen sampleState now) = false
  /\ exists k, (k <= 3)%nat
       /\ snd (getColombianHolidays 0 sampleState now 2025 "u" alwaysRejects (fun _ => 0%Q))
          = retryTrace "u" (fun _ => 0%Q) k.
Proof.
  intros now.
  assert (Hd : HolidaysServiceStatus.status
                 (HolidaysServiceStatus.getServiceStatus sampleState now) = DEGRADED)
    by reflexivity.
  split; [exact Hd|].
  exact (status_degraded_call_fetches 0 sampleState now 2025 "u"%string alwaysRejects
           (fun _ => 0%Q) Hd).
Defined.

Lemma fallback_years_east_of_utc_witness :
  0 <= 0 < msPerDay
  /\ 2025 <> 0
  /\ 2025 <> 0
  /\ getFallbackHolidays 0 (Some 2025) (Some 2025) =
     filter (fun h => inYearRange (printedYear h) 2025 2025) FALLBACK_COLOMBIAN_HOLIDAYS.
Proof.
  assert (Htz : 0 <= 0 < msPerDay) by (vm_compute; split; [discriminate|reflexivity]).
  assert (Hs : 2025 <> 0) by discriminate.
  split; [exact Htz|]. split; [exact Hs|]. split; [exact Hs|].
  exact (fallback_years_east_of_utc 0 2025 2025 Htz Hs Hs).
Defined.

Lemma fallback_new_year_west_of_utc_witness :
  - msPerDay <= DateFnsTz.bogotaOffset < 0
  /\ 2025 <> 0
  /\ 2026 <> 0
  /\ getFallbackHolidays DateFnsTz.bogotaOffset (Some 2025) (Some 2026) =
       filter (fun h => inYearRange (yearWestOfUtc h) 2025 2026) FALLBACK_COLOMBIAN_HOLIDAYS
  /\ ~ In "2025-01-01"%string (holidays (getFallbackResult DateFnsTz.bogotaOffset 2025))
  /\ In "2025-01-01"%string
       (getFallbackHolidays DateFnsTz.bogotaOffset (Some 2024) (Some 2024)).
Proof.
  assert (Htz : - msPerDay <= DateFnsTz.bogotaOffset < 0)
    by (vm_compute; split; [discriminate|reflexivity]).
  assert (Hs : 2025 <> 0) by discriminate.
  assert (He : 2026 <> 0) by discriminate.
  split; [exact Htz|]. split; [exact Hs|]. split; [exact He|].
  exact (fallback_new_year_west_of_utc DateFnsTz.bogotaOffset 2025 2026 Htz Hs He).
Defined.

Lemma fallback_empty_from_2026_witness :
  - msPerDay <= DateFnsTz.bogotaOffset < msPerDay
  /\ 2026 <= 2026
  /\ getFallbackResult DateFnsTz.bogotaOffset 2026 =
     {| holidays := []; status := FAILED; source := FALLBACK; lastUpdated := None |}.
Proof.
  assert (Htz : - msPerDay <= DateFnsTz.bogotaOffset < msPerDay)
    by (vm_compute; split; [discriminate|reflexivity]).
  assert (Hy : 2026 <= 2026) by discriminate.
  split; [exact Htz|]. split; [exact Hy|].
  exact (fallback_empty_from_2026 DateFnsTz.bogotaOffset 2026 Htz Hy).
Defined.

End HolidaysExtra.

(** *** validation.ts *)

Module ValidationFacts.
Import Js FallbackHolidays HolidaysService BusinessTimeCalculator.
Import Support ServiceSupport JsFacts HolidaysFacts.
Import Types ValidationService ValidationSupport.

Lemma list_ascii_of_string_app s : forall t,
  list_ascii_of_string (s ++ t) = list_ascii_of_string s ++ list_ascii_of_string t.
Proof. induction s as [|c s IH]; intros t; cbn; [reflexivity|now rewrite IH]. Qed.

(** The digits [digitsAtLeast] prints for a number below 10^w, checked
    number by number. *)
Lemma digits2 z : 0 <= z < 100 ->
  exists a b, list_ascii_of_string (digitsAtLeast 2 (Z.to_N z)) = [a; b]
    /\ isDigit a = true /\ isDigit b = true.
Proof.
  intros Hz.
  assert (H : digitsOk 2 z = true).
  { apply (allFrom_spec (digitsOk 2) (Z.to_nat 100) 0); [vm_compute; reflexivity|lia]. }
  unfold digitsOk in H. cbn [repeat] in H.
  destruct (list_ascii_of_string (digitsAtLeast 2 (Z.to_N z))) as [|a [|b [|c l]]];
    cbn in H; try discriminate.
  - destruct (isDigit a); discriminate.
  - exists a, b. destruct (isDigit a), (isDigit b); try discriminate. auto.
  - destruct (isDigit a), (isDigit b); discriminate.
Qed.

Lemma digits3 z : 0 <= z < 1000 ->
  exists a b c, list_ascii_of_string (digitsAtLeast 3 (Z.to_N z)) = [a; b; c]
    /\ isDigit a = true /\ isDigit b = true /\ isDigit c = true.
Proof.
  intros Hz.
  assert (H : digitsOk 3 z = true).
  { apply (allFrom_spec (digitsOk 3) (Z.to_nat 1000) 0); [vm_compute; reflexivity|lia]. }
  unfold digitsOk in H. cbn [repeat] in H.
  destruct (list_ascii_of_string (digitsAtLeast 3 (Z.to_N z))) as [|a [|b [|c [|e l]]]];
    cbn in H; try discriminate.
  - destruct (isDigit a); discriminate.
  - destruct (isDigit a), (isDigit b); discriminate.
  - exists a, b, c. destruct (isDigit a), (isDigit b), (isDigit c); try discriminate. auto.
  - destruct (isDigit a), (isDigit b), (isDigit c); discriminate.
Qed.

Lemma digits4 z : 0 <= z < 10000 ->
  exists a b c e, list_ascii_of_string (digitsAtLeast 4 (Z.to_N z)) = [a; b; c; e]
    /\ isDigit a = true /\ isDigit b = true /\ isDigit c = true /\ isDigit e = true.
Proof.
  intros Hz.
  assert (H : digitsOk 4 z = true).
  { apply (allFrom_spec (digitsOk 4) (Z.to_nat 10000) 0); [vm_compute; reflexivity|lia]. }
  unfold digitsOk in H. cbn [repeat] in H.
  destruct (list_ascii_of_string (digitsAtLeast 4 (Z.to_N z))) as [|a [|b [|c [|e [|f l]]]]];
    cbn in H; try discriminate.
  - destruct (isDigit a); discriminate.
  - destruct (isDigit a), (isDigit b); discriminate.
  - destruct (isDigit a), (isDigit b), (isDigit c); discriminate.
  - exists a, b, c, e.
    destruct (isDigit a), (isDigit b), (isDigit c), (isDigit e); try discriminate. auto.
  - destruct (isDigit a), (isDigit b), (isDigit c), (isDigit e); discriminate.
Qed.

(** X26. A date the service prints is a date the service accepts: the output
    of [formatToISO] passes the format test of [validateRequest] exactly when
    its UTC year is between 0 and 9999 (outside, the year is printed with a sign
    and six digits). *)
Theorem printed_date_passes_format_check (t : Date) :
  iso8601Regex (formatToISO t) = ((0 <=? YearFromTime t) && (YearFromTime t <=? 9999)).
Proof.
  unfold formatToISO, toISOString, toISOStringDate, YearFromTime.
  pose proof (civilFromDays_range (Day t)) as Hr.
  destruct (civilFromDays (Day t)) as [[y m] d]. destruct Hr as [Hm Hd].
  assert (HH : 0 <= HourFromTime t < 100)
    by (unfold HourFromTime, msPerHour; Z.div_mod_to_equations; lia).
  assert (HM : 0 <= MinFromTime t < 100)
    by (unfold MinFromTime, msPerMinute; Z.div_mod_to_equations; lia).
  assert (HS : 0 <= SecFromTime t < 100)
    by (unfold SecFromTime, msPerSecond; Z.div_mod_to_equations; lia).
  assert (Hms : 0 <= msFromTime t < 1000)
    by (unfold msFromTime, msPerSecond; Z.div_mod_to_equations; lia).
  destruct (digits2 m ltac:(lia)) as (m1 & m2 & Em & Dm1 & Dm2).
  destruct (digits2 d ltac:(lia)) as (d1 & d2 & Ed & Dd1 & Dd2).
  destruct (digits2 _ HH) as (h1 & h2 & Eh & Dh1 & Dh2).
  destruct (digits2 _ HM) as (n1 & n2 & En & Dn1 & Dn2).
  destruct (digits2 _ HS) as (s1 & s2 & Es & Ds1 & Ds2).
  destruct (digits3 _ Hms) as (f1 & f2 & f3 & Ef & Df1 & Df2 & Df3).
  unfold iso8601Regex. cbv zeta.
  rewrite !list_ascii_of_string_app, Em, Ed, Eh, En, Es, Ef.
  unfold isoYear.
  destruct ((0 <=? y) && (y <=? 9999)) eqn:Ey.
  - apply andb_true_iff in Ey. destruct Ey as [Ey0 Ey1].
    apply Z.leb_le in Ey0, Ey1.
    destruct (digits4 y ltac:(lia)) as (y1 & y2 & y3 & y4 & Ey & Dy1 & Dy2 & Dy3 & Dy4).
    rewrite Ey. cbn -[isDigit].
    rewrite Dy1, Dy2, Dy3, Dy4, Dm1, Dm2, Dd1, Dd2, Dh1, Dh2, Dn1, Dn2, Ds1, Ds2,
      Df1, Df2, Df3.
    reflexivity.
  - destruct (y <? 0); cbn -[isDigit digitsAtLeast]; reflexivity.
Qed.

Section Platform.
Variable NumberIsNaN : string -> bool.
Variable parseInt10 : string -> JsNumber.
Variable newDate : string -> option Date.

(** X24. [validateRequest] accepts a request exactly when days or hours is
    given, each given count is a string that [Number] reads as a number and
    [parseInt] does not read below 0, and the date, when given, is a string
    that passes the format test and that [new Date] reads as a valid date.
    The parsed request then carries the values of [parseInt] and [new Date],
    so no count in it is negative; and [isValid], the absence of an error and
    the presence of the parsed request go together. *)
Theorem validateRequest_accepts days hours date :
  let result := validateRequest NumberIsNaN parseInt10 newDate days hours date in
  (isValid result = true <-> validationError result = None)
  /\ (isValid result = true <-> parsedRequest result <> None)
  /\ (forall request, parsedRequest result = Some request ->
        (days <> None \/ hours <> None)
        /\ countAccepted NumberIsNaN parseInt10 days (Types.days request)
        /\ countAccepted NumberIsNaN parseInt10 hours (Types.hours request)
        /\ dateAccepted newDate date (startDate request)
        /\ (forall z, Types.days request = Some (Num z) -> 0 <= z)
        /\ (forall z, Types.hours request = Some (Num z) -> 0 <= z))
  /\ (forall parsedDays parsedHours parsedDate,
        days <> None \/ hours <> None ->
        countAccepted NumberIsNaN parseInt10 days parsedDays ->
        countAccepted NumberIsNaN parseInt10 hours parsedHours ->
        dateAccepted newDate date parsedDate ->
        result =
          {| isValid := true; validationError := None;
             parsedRequest :=
               Some {| Types.days := parsedDays; Types.hours := parsedHours;
                       startDate := parsedDate |} |}).
Proof.
  cbv zeta. rewrite <- !and_assoc. split.
  2:{ intros pd ph pdt Hsome Hd Hh Hdt. unfold validateRequest.
      destruct days as [[sd|]|], hours as [[sh|]|], date as [[st|]|];
        cbn [countAccepted dateAccepted] in Hd, Hh, Hdt;
        try contradiction; try (destruct Hsome as [Hsome|Hsome]; congruence);
        repeat match goal with
        | H : _ /\ _ |- _ => destruct H
        | H : exists _, _ |- _ => destruct H
        end; subst;
        repeat match goal with
        | H : NumberIsNaN _ = false |- _ => rewrite H; clear H
        | H : ltZero _ = false |- _ => rewrite H; clear H
        | H : iso8601Regex _ = true |- _ => rewrite H; clear H
        | H : newDate _ = Some _ |- _ => rewrite H; clear H
        end; reflexivity. }
  rewrite !and_assoc.
  unfold validateRequest, invalid.
  assert (Hneg : forall s z, ltZero (parseInt10 s) = false -> parseInt10 s = Num z -> 0 <= z).
  { intros s z Hl Hp. rewrite Hp in Hl. cbn in Hl. apply Z.ltb_ge in Hl. exact Hl. }
  destruct days as [[sd|]|], hours as [[sh|]|], date as [[st|]|];
    cbn [countAccepted dateAccepted];
    repeat match goal with
    | |- context [NumberIsNaN ?s] => destruct (NumberIsNaN s) eqn:?
    | |- context [ltZero ?x] => destruct (ltZero x) eqn:?
    | |- context [iso8601Regex ?s] => destruct (iso8601Regex s) eqn:?
    | |- context [newDate ?s] => destruct (newDate s) eqn:?
    end;
    cbn [negb isValid validationError parsedRequest];
    (split; [split; intros; congruence|]);
    (split; [split; intros; congruence|]);
    intros request Hreq; try discriminate;
    injection Hreq as <-; cbn [Types.days Types.hours startDate];
    repeat split; eauto; try (left; discriminate); try (right; discriminate);
    try (intros z Hz; discriminate);
    try (intros z Hz; injection Hz as Hz;
         match goal with
         | H : ltZero (parseInt10 ?s) = false, Hz : parseInt10 ?s = Num _ |- _ =>
             exact (Hneg s _ H Hz)
         end).
Qed.

(** X25. What a request is rejected for.  With neither count the error is
    InvalidParameters whatever the date; NegativeValues is reported only for a
    count that [Number] accepts and [parseInt] reads below 0; a date error
    is reported only after both counts have passed; and the error is never
    one of the service's other codes. *)
Theorem validateRequest_rejects days hours date e :
  validationError (validateRequest NumberIsNaN parseInt10 newDate days hours date) = Some e ->
  (days = None -> hours = None -> error e = errorCode INVALID_PARAMETERS)
  /\ (error e = errorCode INVALID_PARAMETERS \/ error e = errorCode NEGATIVE_VALUES
      \/ error e = errorCode INVALID_DATE_FORMAT)
  /\ (error e = errorCode NEGATIVE_VALUES ->
      exists s, (days = Some (QString s) \/ hours = Some (QString s))
        /\ NumberIsNaN s = false /\ ltZero (parseInt10 s) = true)
  /\ (error e = errorCode INVALID_DATE_FORMAT ->
      (exists parsedDays, countAccepted NumberIsNaN parseInt10 days parsedDays)
      /\ (exists parsedHours, countAccepted NumberIsNaN parseInt10 hours parsedHours)
      /\ exists s, date = Some (QString s)
           /\ (iso8601Regex s = false \/ newDate s = None)).
Proof.
  unfold validateRequest, invalid.
  destruct days as [[sd|]|], hours as [[sh|]|], date as [[st|]|];
    cbn [countAccepted dateAccepted];
    repeat match goal with
    | |- context [NumberIsNaN ?s] => destruct (NumberIsNaN s) eqn:?
    | |- context [ltZero ?x] => destruct (ltZero x) eqn:?
    | |- context [iso8601Regex ?s] => destruct (iso8601Regex s) eqn:?
    | |- context [newDate ?s] => destruct (newDate s) eqn:?
    end;
    cbn [negb isValid validationError parsedRequest];
    intros He; try discriminate; injection He as <-; cbn [error errorCode];
    (split; [intros; congruence|]);
    (split; [auto|]);
    (split; [intros Hc; try discriminate; eauto 6|]);
    intros Hc; try discriminate;
    (split; [eauto|]); (split; [eauto|]); eauto.
Qed.

End Platform.

Lemma validateRequest_rejects_witness :
  let NumberIsNaN := fun _ : string => false in
  let parseInt10 := fun _ : string => Num (-1) in
  let newDate := fun _ : string => @None Date in
  let e := {| error := "NegativeValues"; message := "Days parameter must be a positive integer" |} in
  let days := Some (QString "-1") in
  let hours := Some QOther in
  let date := @None QueryValue in
  validationError (validateRequest NumberIsNaN parseInt10 newDate days hours date) = Some e
  /\ (days = None -> hours = None -> error e = errorCode INVALID_PARAMETERS)
  /\ (error e = errorCode INVALID_PARAMETERS \/ error e = errorCode NEGATIVE_VALUES
      \/ error e = errorCode INVALID_DATE_FORMAT)
  /\ (error e = errorCode NEGATIVE_VALUES ->
      exists s, (days = Some (QString s) \/ hours = Some (QString s))
        /\ NumberIsNaN s = false /\ ltZero (parseInt10 s) = true)
  /\ (error e = errorCode INVALID_DATE_FORMAT ->
      (exists parsedDays, countAccepted NumberIsNaN parseInt10 days parsedDays)
      /\ (exists parsedHours, countAccepted NumberIsNaN parseInt10 hours parsedHours)
      /\ exists s, date = Some (QString s)
           /\ (iso8601Regex s = false \/ newDate s = None)).
Proof.
  intros NumberIsNaN parseInt10 newDate e days hours date.
  assert (He : validationError (validateRequest NumberIsNaN parseInt10 newDate days hours date)
               = Some e) by reflexivity.
  split; [exact He|].
  exact (validateRequest_rejects NumberIsNaN parseInt10 newDate days hours date e He).
Defined.

End ValidationFacts.

(** *** The status endpoints of index.ts *)

Module AppFacts.
Import Js FallbackHolidays HolidaysService Support ServiceSupport HolidaysFacts.
Import ValidationService App.

(** X27. After any sequence of calls, GET /health answers 503 with the body
    status "DEGRADED" when three or more failures in a row are recorded, and
    200 with "OK" otherwise, also when the cache is stale and the holiday
    status in the body is DEGRADED. *)
Theorem health_unavailable_iff tz calls now stamp :
  let st := run tz initialState calls in
  let response := health st now stamp in
  (fst response = 503 \/ fst response = 200)
  /\ (fst response = 503 <-> MAX_FAILURES <= HolidaysService.failures (HolidaysService.circuitBreaker st))
  /\ (fst response = 503 <-> overallStatus (snd response) = "DEGRADED"%string)
  /\ (fst response = 200 <-> overallStatus (snd response) = "OK"%string)
  /\ (fst response = 503 <-> App.status (holiday (services (snd response))) = FAILED)
  /\ timestamp (snd response) = toISOString stamp.
Proof.
  cbv zeta.
  destruct (consistent_run tz calls initialState consistent_initial) as [Hph _].
  set (st := run tz initialState calls) in *.
  unfold health, HolidaysServiceStatus.getServiceStatus.
  cbn [fst snd overallStatus timestamp services holiday App.status HolidaysServiceStatus.status].
  unfold MAX_FAILURES in *.
  destruct Hph as [[Hs Hf]|[Hs Hf]]; rewrite Hs.
  - set (x := match (if HolidaysService.lastFetch st =? 0 then None
                     else Some (now - HolidaysService.lastFetch st)) with
              | Some age => if negb (age =? 0) && (CACHE_DURATION <? age) then DEGRADED else HEALTHY
              | None => HEALTHY
              end).
    assert (Hx : x = HEALTHY \/ x = DEGRADED).
    { subst x. destruct (HolidaysService.lastFetch st =? 0); [left; reflexivity|].
      destruct (negb (now - HolidaysService.lastFetch st =? 0)
                && (CACHE_DURATION <? now - HolidaysService.lastFetch st)); auto. }
    destruct Hx as [-> | ->]; cbn;
      (split; [right; reflexivity|]);
      (split; [split; [discriminate|lia]|]);
      (split; [split; discriminate|]);
      (split; [split; reflexivity|]);
      (split; [split; discriminate|reflexivity]).
  - cbn. split; [left; reflexivity|].
    split; [split; [lia|reflexivity]|].
    split; [split; reflexivity|].
    split; [split; discriminate|].
    split; [split; reflexivity|reflexivity].
Qed.

(** X28. GET /holiday-status always answers 200 and its test never reports
    a failure: with [test=true] the test result is the source, status and
    size of what the call returned, and the static fields and effects are
    those of that call; the status fields of the body are read before the
    call.  From the initial state with a provider that fails, the body says
    HEALTHY with 0 failures next to a test result FALLBACK/FAILED. *)
Theorem holiday_status_test_never_fails tz st test now callNow callYear url net random :
  let response := holidayStatus tz st test now callNow callYear url net random in
  let body := snd (fst (fst response)) in
  fst (fst (fst response)) = 200
  /\ fst body = HolidaysServiceStatus.getServiceStatus st now
  /\ (forall e, snd body <> Some (TestFailed e))
  /\ (test = Some (QString "true") ->
      exists r,
        fst (fst (getColombianHolidays tz st callNow callYear url net random)) = Returns r
        /\ snd body = Some (TestSucceeded (HolidaysService.source r) (HolidaysService.status r)
                              (List.length (HolidaysService.holidays r)))
        /\ snd (fst response)
           = snd (fst (getColombianHolidays tz st callNow callYear url net random))
        /\ snd response = snd (getColombianHolidays tz st callNow callYear url net random))
  /\ (test <> Some (QString "true") ->
      snd body = None /\ snd (fst response) = st /\ snd response = [])
  /\ (st = initialState -> test = Some (QString "true") ->
      exhausted net ->
      HolidaysServiceStatus.status (fst body) = HEALTHY
      /\ HolidaysServiceStatus.failures (fst body) = 0
      /\ snd body = Some (TestSucceeded FALLBACK FAILED
                            (List.length (HolidaysService.holidays (getFallbackResult tz callYear))))
      /\ HolidaysService.failures (HolidaysService.circuitBreaker (snd (fst response))) = 1).
Proof.
  cbv zeta.
  assert (Hret : exists r st' trace,
            getColombianHolidays tz st callNow callYear url net random
            = (Returns r, st', trace)).
  { rewrite getColombianHolidays_unfold.
    destruct (cacheIsValid st callNow); [eauto|]. cbv zeta.
    destruct (fst (isCircuitOpen st callNow)); [eauto|].
    destruct (fetchWithRetry url net random) as [[f|e] tr]; eauto. }
  destruct Hret as (r & st' & trace & Hr).
  unfold holidayStatus.
  destruct test as [[s|]|].
  - destruct (String.eqb s "true") eqn:Es.
    + apply String.eqb_eq in Es. subst s. rewrite Hr. cbn [fst snd].
      split; [reflexivity|]. split; [reflexivity|]. split; [discriminate|].
      split; [intros _; exists r; repeat split; reflexivity|].
      split; [intros Hne; contradiction Hne; reflexivity|].
      intros -> _ Hex.
      assert (Hcall : getColombianHolidays tz initialState callNow callYear url net random
                      = (Returns (getFallbackResult tz callYear),
                         recordFailure initialState callNow, retryTrace url random 3)).
      { rewrite getColombianHolidays_unfold. unfold cacheIsValid, isCircuitOpen.
        cbn [cache state circuitBreaker initialState fst snd]. cbv zeta.
        rewrite (fetchWithRetry_exhausted url net random Hex). reflexivity. }
      rewrite Hcall in Hr. injection Hr as <- <- _. repeat split; reflexivity.
    + cbn [fst snd].
      split; [reflexivity|]. split; [reflexivity|]. split; [discriminate|].
      split; [intros E; injection E as ->; cbn in Es; discriminate|].
      split; [intros _; repeat split; reflexivity|].
      intros _ E. injection E as ->. cbn in Es. discriminate.
  - cbn [fst snd].
    split; [reflexivity|]. split; [reflexivity|]. split; [discriminate|].
    split; [discriminate|]. split; [intros _; repeat split; reflexivity|].
    intros _ E. discriminate.
  - cbn [fst snd].
    split; [reflexivity|]. split; [reflexivity|]. split; [discriminate|].
    split; [discriminate|]. split; [intros _; repeat split; reflexivity|].
    intros _ E. discriminate.
Qed.

End AppFacts.
